(** * RouteWise (BusRoutea): the position-ingestion pipeline of [app.py]

    A shallow embedding of the tracking endpoint [api_track] of [app.py]
    together with the functions it calls ([haversine_km], [safe_put_item],
    [decimalize], [now_ts], [format_ts], [sns_publish]) and the route table
    [buses], followed by the properties of the ingestion pipeline.

    Conventions of the embedding.
    - A Python [float] is an extended real ([pyfloat]): a real number,
      plus or minus infinity, or NaN.  Rounding, overflow and the sign of
      zero are not modelled; [math.sin], [math.cos], [math.sqrt] and
      [math.atan2] are the real functions, with Python's [ValueError] where
      the [math] module raises one.
    - Text is modelled by [string] restricted to ASCII; [upper] and [strip]
      are Python's [str.upper] and [str.strip] on ASCII.
    - A raised exception carries the place it was raised at ([site]), which
      is what [logging.exception] records in the handler of [api_track].
    - DynamoDB and SNS are collaborators: the environment ([env]) says
      which calls raise, the [world] records the calls that were made. *)

From Stdlib Require Import Reals Lra Lia ZArith List String Ascii Bool.
From Stdlib Require Import DecimalString Machin.
Import ListNotations.

Set Implicit Arguments.

(** ** Exceptions and the error monad *)

(** The exception classes the pipeline can see.  [ValueError] keeps the
    fixed part of its message. *)
Inductive pyexn : Type :=
| KeyError (key : string)
| ValueError (msg : string)
| TypeError
| OverflowError
| ZeroDivisionError
| ExternalError (name : string).

(** A computation that returns or raises. *)
Definition exc (A : Type) : Type := (A + pyexn)%type.

Definition eret {A : Type} (a : A) : exc A := inl a.
Definition eraise {A : Type} (e : pyexn) : exc A := inr e.
Definition ebind {A B : Type} (c : exc A) (k : A -> exc B) : exc B :=
  match c with
  | inl a => k a
  | inr e => inr e
  end.

Declare Scope exc_scope.
Delimit Scope exc_scope with exc.
Notation "x <- c ;; k" := (ebind c (fun x => k))
  (at level 61, c at next level, right associativity) : exc_scope.

(** ** Python floats as extended reals *)

Module PyFloat.

Local Open Scope R_scope.

Inductive pyfloat : Type :=
| Fin (r : R)
| PInf
| NInf
| NaN.

Definition Rltb (x y : R) : bool := if Rlt_dec x y then true else false.
Definition Rleb (x y : R) : bool := if Rle_dec x y then true else false.
Definition Reqb (x y : R) : bool := if Req_dec_T x y then true else false.

(** [x < y] and [x <= y] of Python: every comparison with NaN is false. *)
Definition flt (x y : pyfloat) : bool :=
  match x, y with
  | NaN, _ | _, NaN => false
  | Fin a, Fin b => Rltb a b
  | NInf, NInf => false
  | NInf, _ => true
  | _, NInf => false
  | PInf, _ => false
  | Fin _, PInf => true
  end.

Definition fle (x y : pyfloat) : bool :=
  match x, y with
  | NaN, _ | _, NaN => false
  | Fin a, Fin b => Rleb a b
  | NInf, _ => true
  | _, PInf => true
  | _, NInf => false
  | PInf, _ => false
  end.

Definition fneg (x : pyfloat) : pyfloat :=
  match x with
  | Fin a => Fin (- a)
  | PInf => NInf
  | NInf => PInf
  | NaN => NaN
  end.

Definition fadd (x y : pyfloat) : pyfloat :=
  match x, y with
  | NaN, _ | _, NaN => NaN
  | Fin a, Fin b => Fin (a + b)
  | PInf, NInf | NInf, PInf => NaN
  | PInf, _ | _, PInf => PInf
  | NInf, _ | _, NInf => NInf
  end.

Definition fsub (x y : pyfloat) : pyfloat := fadd x (fneg y).

(** The infinity whose sign is the sign of [a] times the sign of the
    infinity [pos]; NaN when [a] is zero. *)
Definition inf_times (pos : bool) (a : R) : pyfloat :=
  if Reqb a 0 then NaN
  else if Bool.eqb pos (Rltb 0 a) then PInf else NInf.

Definition fmul (x y : pyfloat) : pyfloat :=
  match x, y with
  | NaN, _ | _, NaN => NaN
  | Fin a, Fin b => Fin (a * b)
  | PInf, Fin a | Fin a, PInf => inf_times true a
  | NInf, Fin a | Fin a, NInf => inf_times false a
  | PInf, PInf | NInf, NInf => PInf
  | PInf, NInf | NInf, PInf => NaN
  end.

(** [x / y]: division by zero raises. *)
Definition fdiv (x y : pyfloat) : exc pyfloat :=
  match x, y with
  | NaN, Fin b => if Reqb b 0 then eraise ZeroDivisionError else eret NaN
  | NaN, _ | _, NaN => eret NaN
  | Fin a, Fin b =>
      if Reqb b 0 then eraise ZeroDivisionError else eret (Fin (a / b))
  | Fin _, _ => eret (Fin 0)
  | PInf, Fin b =>
      if Reqb b 0 then eraise ZeroDivisionError
      else eret (if Rltb 0 b then PInf else NInf)
  | NInf, Fin b =>
      if Reqb b 0 then eraise ZeroDivisionError
      else eret (if Rltb 0 b then NInf else PInf)
  | _, _ => eret NaN
  end.

(** [x ** 2]. *)
Definition fsquare (x : pyfloat) : pyfloat :=
  match x with
  | Fin a => Fin (a ^ 2)
  | PInf | NInf => PInf
  | NaN => NaN
  end.

End PyFloat.
Export PyFloat.

(** ** The [math] module *)

Module Math.

Local Open Scope R_scope.
Local Open Scope exc_scope.

Definition domain_error : pyexn := ValueError "math domain error".

(** [math.radians(x)]: [x] times pi/180. *)
Definition radians (x : pyfloat) : pyfloat := fmul x (Fin (PI / 180)).

(** [math.sin] and [math.cos] raise on an infinite argument. *)
Definition math_sin (x : pyfloat) : exc pyfloat :=
  match x with
  | Fin a => eret (Fin (sin a))
  | NaN => eret NaN
  | PInf | NInf => eraise domain_error
  end.

Definition math_cos (x : pyfloat) : exc pyfloat :=
  match x with
  | Fin a => eret (Fin (cos a))
  | NaN => eret NaN
  | PInf | NInf => eraise domain_error
  end.

(** [math.sqrt] raises on a negative argument. *)
Definition math_sqrt (x : pyfloat) : exc pyfloat :=
  match x with
  | Fin a => if Rltb a 0 then eraise domain_error else eret (Fin (sqrt a))
  | PInf => eret PInf
  | NInf => eraise domain_error
  | NaN => eret NaN
  end.

(** The angle of the point [(x, y)], in (-pi, pi]. *)
Definition Ratan2 (y x : R) : R :=
  if Rltb 0 x then atan (y / x)
  else if Rltb x 0 then
    (if Rleb 0 y then atan (y / x) + PI else atan (y / x) - PI)
  else if Rltb 0 y then PI / 2
  else if Rltb y 0 then - (PI / 2)
  else 0.

(** [math.atan2(y, x)] never raises. *)
Definition math_atan2 (y x : pyfloat) : pyfloat :=
  match y, x with
  | NaN, _ | _, NaN => NaN
  | Fin b, Fin a => Fin (Ratan2 b a)
  | Fin b, PInf => Fin 0
  | Fin b, NInf => if Rleb 0 b then Fin PI else Fin (- PI)
  | PInf, Fin _ => Fin (PI / 2)
  | NInf, Fin _ => Fin (- (PI / 2))
  | PInf, PInf => Fin (PI / 4)
  | PInf, NInf => Fin (3 * PI / 4)
  | NInf, PInf => Fin (- (PI / 4))
  | NInf, NInf => Fin (- (3 * PI / 4))
  end.

End Math.
Export Math.

(** ** [haversine_km] *)

Section Haversine.

Local Open Scope exc_scope.

(** The great-circle distance of [app.py], statement by statement; the
    operands of the sum [a] are evaluated left to right. *)
Definition haversine_km (lat1 lon1 lat2 lon2 : pyfloat) : exc pyfloat :=
  let R := Fin 6371 in
  let phi1 := radians lat1 in
  let phi2 := radians lat2 in
  let dphi := radians (fsub lat2 lat1) in
  let dlambda := radians (fsub lon2 lon1) in
  hphi <- fdiv dphi (Fin 2) ;;
  sphi <- math_sin hphi ;;
  c1 <- math_cos phi1 ;;
  c2 <- math_cos phi2 ;;
  hlam <- fdiv dlambda (Fin 2) ;;
  slam <- math_sin hlam ;;
  let a := fadd (fsquare sphi) (fmul (fmul c1 c2) (fsquare slam)) in
  ya <- math_sqrt a ;;
  xa <- math_sqrt (fsub (Fin 1) a) ;;
  eret (fmul (fmul (Fin 2) R) (math_atan2 ya xa)).

End Haversine.

(** ** Text: [str.upper], [str.strip], [str.replace], number literals *)

Module Text.

Local Open Scope Z_scope.

Definition chars (s : string) : list ascii := list_ascii_of_string s.
Definition text (cs : list ascii) : string := string_of_list_ascii cs.

Definition code (c : ascii) : nat := nat_of_ascii c.

(** The ASCII characters for which [str.isspace] holds: tab, line feed,
    vertical tab, form feed, carriage return, the four separators
    0x1c..0x1f and the space. *)
Definition is_space (c : ascii) : bool :=
  ((9 <=? code c) && (code c <=? 13) || (28 <=? code c) && (code c <=? 32))%nat.

Definition is_digit (c : ascii) : bool :=
  ((48 <=? code c) && (code c <=? 57))%nat.

Definition digit_val (c : ascii) : Z := Z.of_nat (code c) - 48.

Definition upper_char (c : ascii) : ascii :=
  if ((97 <=? code c) && (code c <=? 122))%nat
  then ascii_of_nat (code c - 32) else c.

Definition lower_char (c : ascii) : ascii :=
  if ((65 <=? code c) && (code c <=? 90))%nat
  then ascii_of_nat (code c + 32) else c.

(** [s.upper()]. *)
Definition upper (s : string) : string := text (map upper_char (chars s)).

Fixpoint lstrip_chars (cs : list ascii) : list ascii :=
  match cs with
  | c :: rest => if is_space c then lstrip_chars rest else cs
  | [] => []
  end.

Definition strip_chars (cs : list ascii) : list ascii :=
  rev (lstrip_chars (rev (lstrip_chars cs))).

(** [s.strip()]. *)
Definition strip (s : string) : string := text (strip_chars (chars s)).

(** [s.replace(c, new)] for a one-character pattern [c]. *)
Definition replace_char (c : ascii) (new : string) (s : string) : string :=
  text (flat_map (fun x => if Ascii.eqb x c then chars new else [x]) (chars s)).

(** [digitpart ::= digit (["_"] digit)*]: the digits read after the first
    one, with the value so far, the number of digits read and the rest. *)
Fixpoint digits_tail (cs : list ascii) (acc : Z) (n : nat)
  : Z * nat * list ascii :=
  match cs with
  | c :: rest =>
      if is_digit c then digits_tail rest (10 * acc + digit_val c) (S n)
      else if Ascii.eqb c "_" then
        match rest with
        | d :: rest' =>
            if is_digit d
            then digits_tail rest' (10 * acc + digit_val d) (S n)
            else (acc, n, cs)
        | [] => (acc, n, cs)
        end
      else (acc, n, cs)
  | [] => (acc, n, [])
  end.

(** A [digitpart] at the head of [cs], continuing the value [acc]. *)
Definition digitpart (acc : Z) (cs : list ascii)
  : option (Z * nat * list ascii) :=
  match cs with
  | c :: rest =>
      if is_digit c then Some (digits_tail rest (10 * acc + digit_val c) 1%nat)
      else None
  | [] => None
  end.

(** An optional sign: [true] for a leading minus. *)
Definition sign (cs : list ascii) : bool * list ascii :=
  match cs with
  | c :: rest =>
      if Ascii.eqb c "-" then (true, rest)
      else if Ascii.eqb c "+" then (false, rest)
      else (false, cs)
  | [] => (false, [])
  end.

(** [number ::= [digitpart] "." digitpart | digitpart ["."]]: the digits as
    one integer and the number of digits after the point. *)
Definition number (cs : list ascii) : option (Z * nat * list ascii) :=
  match digitpart 0 cs with
  | Some (i, _, rest) =>
      match rest with
      | c :: rest' =>
          if Ascii.eqb c "." then
            match digitpart i rest' with
            | Some (m, k, rest'') => Some (m, k, rest'')
            | None => Some (i, 0%nat, rest')
            end
          else Some (i, 0%nat, rest)
      | [] => Some (i, 0%nat, [])
      end
  | None =>
      match cs with
      | c :: rest' =>
          if Ascii.eqb c "." then digitpart 0 rest' else None
      | [] => None
      end
  end.

(** [exponent ::= ("e" | "E") [sign] digitpart], absent when [cs] is empty. *)
Definition exponent (cs : list ascii) : option Z :=
  match cs with
  | [] => Some 0
  | c :: rest =>
      if Ascii.eqb (lower_char c) "e" then
        let (neg, rest') := sign rest in
        match digitpart 0 rest' with
        | Some (e, _, []) => Some (if neg then - e else e)
        | _ => None
        end
      else None
  end.

(** A decimal literal: the pair [(m, e)] stands for [m * 10 ^ e]. *)
Definition floatnumber (cs : list ascii) : option (Z * Z) :=
  match number cs with
  | Some (m, k, rest) =>
      match exponent rest with
      | Some e => Some (m, e - Z.of_nat k)
      | None => None
      end
  | None => None
  end.

(** An integer literal, as [int(s)] reads it in base ten. *)
Definition int_literal (s : string) : option Z :=
  let (neg, rest) := sign (strip_chars (chars s)) in
  match digitpart 0 rest with
  | Some (n, _, []) => Some (if neg then - n else n)
  | _ => None
  end.

(** [str(n)] for an integer. *)
Definition str_of_Z (n : Z) : string := NilZero.string_of_int (Z.to_int n).

End Text.
Export Text.

(** ** The [datetime] class: ordinals, [timestamp()], [fromisoformat] *)

Module DateTime.

Local Open Scope Z_scope.

(** A [datetime]; [utcoffset] is the offset of an aware value east of UTC
    in microseconds, [None] for a naive value. *)
Record datetime : Type := mk_datetime {
  year : Z;
  month : Z;
  day : Z;
  hour : Z;
  minute : Z;
  second : Z;
  microsecond : Z;
  utcoffset : option Z
}.

Definition is_leap (y : Z) : bool :=
  (y mod 4 =? 0) && (negb (y mod 100 =? 0) || (y mod 400 =? 0)).

Definition days_in_month (y m : Z) : Z :=
  match m with
  | 2 => if is_leap y then 29 else 28
  | 4 | 6 | 9 | 11 => 30
  | _ => 31
  end.

(** Number of days before January 1st of year [y]. *)
Definition days_before_year (y : Z) : Z :=
  let p := y - 1 in p * 365 + p / 4 - p / 100 + p / 400.

(** Number of days of year [y] before the first day of month [m]. *)
Definition days_before_month (y m : Z) : Z :=
  fold_left (fun acc k => acc + days_in_month y (Z.of_nat k))
            (seq 1 (Z.to_nat (m - 1))) 0.

(** The proleptic Gregorian ordinal: 0001-01-01 is day 1. *)
Definition ymd2ord (y m d : Z) : Z :=
  days_before_year y + days_before_month y m + d.

(** The fields a [datetime] may be built from. *)
Definition valid_fields (y m d hh mm ss us : Z) : bool :=
  (1 <=? y) && (y <=? 9999) && (1 <=? m) && (m <=? 12) &&
  (1 <=? d) && (d <=? days_in_month y m) &&
  (0 <=? hh) && (hh <=? 23) && (0 <=? mm) && (mm <=? 59) &&
  (0 <=? ss) && (ss <=? 59) && (0 <=? us) && (us <=? 999999).

(** Seconds from 1970-01-01T00:00:00 to the wall-clock reading of [d]. *)
Definition civil_seconds (d : datetime) : Z :=
  (ymd2ord (year d) (month d) (day d) - 719163) * 86400
  + hour d * 3600 + minute d * 60 + second d.

(** [int(d.timestamp())].  An aware value is its distance to the epoch; a
    naive value is read as local time, through the platform's [mktime]
    (wall-clock seconds to epoch seconds).  [int] truncates toward zero. *)
Definition int_timestamp (mktime : Z -> Z) (d : datetime) : Z :=
  let us :=
    match utcoffset d with
    | Some off => civil_seconds d * 1000000 + microsecond d - off
    | None => mktime (civil_seconds d) * 1000000 + microsecond d
    end in
  Z.quot us 1000000.

(** Exactly [n] decimal digits at the head of [cs]. *)
Fixpoint parse_digits (n : nat) (acc : Z) (cs : list ascii)
  : option (Z * list ascii) :=
  match n with
  | O => Some (acc, cs)
  | S n' =>
      match cs with
      | c :: rest =>
          if is_digit c then parse_digits n' (10 * acc + digit_val c) rest
          else None
      | [] => None
      end
  end.

(** [YYYY-MM-DD] at the head of a ten-character string. *)
Definition parse_isoformat_date (cs : list ascii) : option (Z * Z * Z) :=
  match parse_digits 4 0 cs with
  | Some (y, c1 :: r1) =>
      if Ascii.eqb c1 "-" then
        match parse_digits 2 0 r1 with
        | Some (m, c2 :: r2) =>
            if Ascii.eqb c2 "-" then
              match parse_digits 2 0 r2 with
              | Some (d, []) => Some (y, m, d)
              | _ => None
              end
            else None
        | _ => None
        end
      else None
  | _ => None
  end.

(** The fraction [.fff[fff]] after the seconds, in microseconds. *)
Definition parse_fraction (cs : list ascii) : option Z :=
  match cs with
  | [] => Some 0
  | c :: rest =>
      if Ascii.eqb c "." then
        match List.length rest with
        | 3%nat =>
            match parse_digits 3 0 rest with
            | Some (f, _) => Some (f * 1000)
            | None => None
            end
        | 6%nat =>
            match parse_digits 6 0 rest with
            | Some (f, _) => Some f
            | None => None
            end
        | _ => None
        end
      else None
  end.

(** [HH[:MM[:SS[.fff[fff]]]]]. *)
Definition parse_hh_mm_ss_ff (cs : list ascii) : option (Z * Z * Z * Z) :=
  match parse_digits 2 0 cs with
  | None => None
  | Some (hh, []) => Some (hh, 0, 0, 0)
  | Some (hh, c1 :: r1) =>
      if negb (Ascii.eqb c1 ":") then None else
      match parse_digits 2 0 r1 with
      | None => None
      | Some (mm, []) => Some (hh, mm, 0, 0)
      | Some (mm, c2 :: r2) =>
          if negb (Ascii.eqb c2 ":") then None else
          match parse_digits 2 0 r2 with
          | None => None
          | Some (ss, r3) =>
              match parse_fraction r3 with
              | Some us => Some (hh, mm, ss, us)
              | None => None
              end
          end
      end
  end.

(** The text before and after the first occurrence of [c]. *)
Fixpoint split_at (c : ascii) (cs : list ascii)
  : option (list ascii * list ascii) :=
  match cs with
  | [] => None
  | x :: rest =>
      if Ascii.eqb x c then Some ([], rest)
      else match split_at c rest with
           | Some (l, r) => Some (x :: l, r)
           | None => None
           end
  end.

(** The offset [HH:MM[:SS[.ffffff]]] after the sign, in microseconds. *)
Definition parse_offset (neg : bool) (cs : list ascii) : option Z :=
  if negb (existsb (Nat.eqb (List.length cs)) [5; 8; 15]%nat) then None else
  match parse_hh_mm_ss_ff cs with
  | Some (hh, mm, ss, us) =>
      let off := ((hh * 60 + mm) * 60 + ss) * 1000000 + us in
      if off <? 86400 * 1000000
      then Some (if neg then - off else off) else None
  | None => None
  end.

(** The time of day with its optional offset: the offset starts at the
    first minus sign if there is one, else at the first plus sign. *)
Definition parse_isoformat_time (cs : list ascii)
  : option (Z * Z * Z * Z * option Z) :=
  let tz :=
    match split_at "-" cs with
    | Some (t, z) => Some (true, t, z)
    | None =>
        match split_at "+" cs with
        | Some (t, z) => Some (false, t, z)
        | None => None
        end
    end in
  match tz with
  | Some (neg, t, z) =>
      match parse_hh_mm_ss_ff t, parse_offset neg z with
      | Some c, Some off => Some (c, Some off)
      | _, _ => None
      end
  | None =>
      match parse_hh_mm_ss_ff cs with
      | Some c => Some (c, None)
      | None => None
      end
  end.

(** [datetime.fromisoformat(s)], for the format [datetime.isoformat()]
    writes: [YYYY-MM-DD[*HH[:MM[:SS[.fff[fff]]]][+HH:MM[:SS[.ffffff]]]]]
    with any one character for [*], as [Lib/datetime.py] of CPython 3.7
    to 3.10 reads it, digit by digit.  [None] stands for [ValueError];
    every string outside this format is rejected (CPython 3.11 and later
    read some more of ISO 8601). *)
Definition fromisoformat (s : string) : option datetime :=
  let cs := chars s in
  match parse_isoformat_date (firstn 10 cs) with
  | None => None
  | Some (y, m, d) =>
      let tstr := skipn 11 cs in
      let time :=
        match tstr with
        | [] => Some (0, 0, 0, 0, None)
        | _ => parse_isoformat_time tstr
        end in
      match time with
      | Some (hh, mm, ss, us, tz) =>
          if valid_fields y m d hh mm ss us
          then Some (mk_datetime y m d hh mm ss us tz) else None
      | None => None
      end
  end.

End DateTime.
Export DateTime.

(** ** Python values and the conversions [str], [float], [int] *)

Module PyVal.

Local Open Scope string_scope.

(** The values a report or an item holds: what a JSON document decodes
    to ([VOther] is an array or an object), and the [Decimal] and
    [datetime] values an item may carry. *)
Inductive pyval : Type :=
| VNone
| VBool (b : bool)
| VInt (n : Z)
| VFloat (x : pyfloat)
| VDecimal (x : pyfloat)
| VStr (s : string)
| VDatetime (d : datetime)
| VOther.

(** [str(v)].  The text of a float, a [Decimal], a [datetime], an array or
    an object is given by the runtime's [repr]. *)
Definition py_str (repr : pyval -> string) (v : pyval) : string :=
  match v with
  | VNone => "None"
  | VBool true => "True"
  | VBool false => "False"
  | VInt n => str_of_Z n
  | VStr s => s
  | _ => repr v
  end.

(** The real number [m * 10 ^ e]. *)
Definition dec_value (m e : Z) : R :=
  if (0 <=? e)%Z then IZR (m * 10 ^ e) else (IZR m / IZR (10 ^ (- e)))%R.

(** [float(s)] for a string: surrounding white space is dropped, then an
    optional sign and a decimal literal, [inf], [infinity] or [nan] in any
    letter case.  [None] stands for [ValueError]. *)
Definition parse_float (s : string) : option pyfloat :=
  let (neg, body) := sign (strip_chars (chars s)) in
  let low := text (map lower_char body) in
  if (String.eqb low "inf" || String.eqb low "infinity")%bool
  then Some (if neg then NInf else PInf)
  else if String.eqb low "nan" then Some NaN
  else match floatnumber body with
       | Some (m, e) => Some (Fin (dec_value (if neg then (- m)%Z else m) e))
       | None => None
       end.

(** [float(v)]. *)
Definition py_float (v : pyval) : exc pyfloat :=
  match v with
  | VBool b => eret (Fin (if b then 1 else 0))
  | VInt n => eret (Fin (IZR n))
  | VFloat x | VDecimal x => eret x
  | VStr s =>
      match parse_float s with
      | Some x => eret x
      | None => eraise (ValueError "could not convert string to float")
      end
  | VNone | VDatetime _ | VOther => eraise TypeError
  end.

(** Truncation toward zero. *)
Definition Rtrunc (r : R) : Z :=
  if Rleb 0 r then Int_part r else (- Int_part (- r))%Z.

(** [int(v)]. *)
Definition py_int (v : pyval) : exc Z :=
  match v with
  | VBool b => eret (if b then 1 else 0)%Z
  | VInt n => eret n
  | VFloat x | VDecimal x =>
      match x with
      | Fin r => eret (Rtrunc r)
      | NaN => eraise (ValueError "cannot convert float NaN to integer")
      | PInf | NInf => eraise OverflowError
      end
  | VStr s =>
      match int_literal s with
      | Some n => eret n
      | None => eraise (ValueError "invalid literal for int()")
      end
  | VNone | VDatetime _ | VOther => eraise TypeError
  end.

(** [v in (None, empty string)]: the test of line 77. *)
Definition is_none_or_empty (v : pyval) : bool :=
  match v with
  | VNone => true
  | VStr s => String.eqb s EmptyString
  | _ => false
  end.

End PyVal.
Export PyVal.

(** ** The route table [buses] *)

Module Stop.
Record t : Type := make { name : string; lat : pyfloat; lon : pyfloat }.
End Stop.

Module Bus.
Record t : Type := make {
  route : string;
  stops : list Stop.t;
  frequency : string;
  type : string
}.
End Bus.

Section Catalog.

Local Open Scope string_scope.
Local Open Scope R_scope.

Definition buses : list (string * Bus.t) :=
  [ ("10A",
     Bus.make "Secunderabad → Mehdipatnam"
       [ Stop.make "Secunderabad" (Fin 17.4399) (Fin 78.4983);
         Stop.make "Begumpet" (Fin 17.4444) (Fin 78.4611);
         Stop.make "Ameerpet" (Fin 17.4375) (Fin 78.4483);
         Stop.make "Punjagutta" (Fin 17.4294) (Fin 78.4506);
         Stop.make "Mehdipatnam" (Fin 17.3956) (Fin 78.4403) ]
       "Every 10 mins" "AC");
    ("100M",
     Bus.make "JBS → MGBS"
       [ Stop.make "JBS" (Fin 17.4565) (Fin 78.4998);
         Stop.make "Paradise" (Fin 17.4432) (Fin 78.4841);
         Stop.make "Charminar" (Fin 17.3616) (Fin 78.4747);
         Stop.make "Moazzam Jahi Market" (Fin 17.3832) (Fin 78.4735);
         Stop.make "MGBS" (Fin 17.3840) (Fin 78.4804) ]
       "Every 8 mins" "Metro Express");
    ("65G",
     Bus.make "Miyapur → Shamshabad"
       [ Stop.make "Miyapur" (Fin 17.4947) (Fin 78.3569);
         Stop.make "Lingampally" (Fin 17.4948) (Fin 78.3246);
         Stop.make "Gachibowli" (Fin 17.4401) (Fin 78.3489);
         Stop.make "Rajiv Gandhi Airport" (Fin 17.2402) (Fin 78.4294);
         Stop.make "Shamshabad" (Fin 17.2289) (Fin 78.4297) ]
       "Every 30 mins" "Airport Express") ].

(** [buses[bus_id]], [None] when [bus_id not in buses]. *)
Fixpoint lookup (table : list (string * Bus.t)) (bus_id : string)
  : option Bus.t :=
  match table with
  | [] => None
  | (k, b) :: rest => if String.eqb k bus_id then Some b else lookup rest bus_id
  end.

End Catalog.

(** ** Reports, items, collaborators *)

(** The request body, a JSON object: the value under each key that
    [api_track] reads, [None] when the key is absent. *)
Module Report.
Record t : Type := make {
  bus_id : option pyval;
  lat : option pyval;
  lon : option pyval;
  speed_kmph : option pyval;
  status : option pyval;
  timestamp : option pyval;
  alert_radius_km : option pyval
}.
End Report.

(** The dictionary handed to [safe_put_item], by key; [None] when the key
    is absent. *)
Module Item.
Record t : Type := make {
  BusID : option pyval;
  TimeStamp : option pyval;
  Latitude : option pyval;
  Longitude : option pyval;
  SpeedKmph : option pyval;
  Status : option pyval;
  Route : option pyval;
  NextStop : option pyval;
  DistanceToStopKm : option pyval
}.
End Item.

(** The values interpolated into the alert message, in the order of the
    format string (the rendering of the distance with two decimals and of
    the time by [strftime] is not modelled). *)
Record alert_message : Type := mk_alert {
  alert_bus : string;
  alert_next_stop : string;
  alert_distance : pyfloat;
  alert_time : Z
}.

(** A call to a collaborator with its outcome: [None] when the call
    returned, [Some e] when it raised [e]. *)
Inductive call : Type :=
| PutItem (i : Item.t) (outcome : option pyexn)
| Publish (subject : string) (message : alert_message) (outcome : option pyexn).

(** What a request leaves behind: the number of clock readings taken and
    the calls made to DynamoDB and SNS, oldest first. *)
Record world : Type := mk_world { reads : nat; calls : list call }.

(** What the code does not decide: the clock, the random generator, the
    local time zone, [repr], and whether a call to a collaborator raises
    (given the calls made so far). *)
Record env : Type := mk_env {
  clock : nat -> Z;
  uniform_10_35 : R;
  mktime : Z -> Z;
  repr : pyval -> string;
  table_put_item : list call -> Item.t -> option pyexn;
  sns_client_publish : list call -> string -> alert_message -> option pyexn
}.

(** The statements of the pipeline that can raise. *)
Inductive site : Type :=
| AtLat | AtLon | AtSpeed | AtResolve
| AtBusID | AtTimeStamp | AtPutItem
| AtRadius | AtFormatTs | AtPublish.

Record failure : Type := mk_failure { raised_at : site; raised : pyexn }.

(** The result of [api_track]: the body and the status code. *)
Inductive response : Type :=
| Ok200 (stored : Item.t)
| Err400 (error : string)
| Err500 (f : failure).

(** One more reading of the clock; one more call on record. *)
Definition tick (w : world) : world := mk_world (S (reads w)) (calls w).
Definition record (c : call) (w : world) : world :=
  mk_world (reads w) (calls w ++ [c]).

(** ** The state and error monad of a request *)

Definition M (A : Type) : Type := world -> (A + failure) * world.

Definition ret {A : Type} (a : A) : M A := fun w => (inl a, w).
Definition raise_at {A : Type} (s : site) (e : pyexn) : M A :=
  fun w => (inr (mk_failure s e), w).
Definition bind {A B : Type} (c : M A) (k : A -> M B) : M B :=
  fun w =>
    match c w with
    | (inl a, w') => k a w'
    | (inr f, w') => (inr f, w')
    end.

(** A computation without effects, run at the statement [s]. *)
Definition at_site {A : Type} (s : site) (c : exc A) : M A :=
  match c with
  | inl a => ret a
  | inr e => raise_at s e
  end.

Declare Scope M_scope.
Delimit Scope M_scope with M.
Notation "x <- c ;; k" := (bind c (fun x => k))
  (at level 61, c at next level, right associativity) : M_scope.
Notation "c ;;; k" := (bind c (fun _ => k))
  (at level 61, right associativity) : M_scope.

(** ** [min] with a key *)

Section Min.

Variable A : Type.
Variable key : A -> pyfloat.

(** The loop of [min]: a later element replaces the best one only when
    its key is strictly smaller. *)
Fixpoint min_from (best : A) (rest : list A) : A :=
  match rest with
  | [] => best
  | x :: rest' =>
      if flt (key x) (key best) then min_from x rest' else min_from best rest'
  end.

(** [min(l, key=key)]. *)
Definition py_min (l : list A) : exc A :=
  match l with
  | [] => eraise (ValueError "min() arg is an empty sequence")
  | x :: rest => eret (min_from x rest)
  end.

End Min.

(** A list comprehension whose body may raise. *)
Fixpoint comprehension {A B : Type} (f : A -> exc B) (l : list A)
  : exc (list B) :=
  match l with
  | [] => eret []
  | x :: rest =>
      ebind (f x) (fun y => ebind (comprehension f rest)
                                  (fun ys => eret (y :: ys)))
  end.

(** ** The pipeline of [app.py] *)

Section Pipeline.

Variable E : env.

Local Open Scope string_scope.
Local Open Scope M_scope.

(** [now_ts()]: one reading of the clock. *)
Definition now_ts : M Z :=
  fun w => (inl (clock E (reads w)), tick w).

(** [decimalize(x)]: a float becomes a [Decimal]; [None], a [Decimal], an
    integer and every other value are returned as they are. *)
Definition decimalize (x : pyval) : pyval :=
  match x with
  | VFloat f => VDecimal f
  | _ => x
  end.

(** [table.put_item(Item=item)]. *)
Definition put_item (it : Item.t) : M unit :=
  fun w =>
    let out := table_put_item E (calls w) it in
    let w' := record (PutItem it out) w in
    match out with
    | None => (inl tt, w')
    | Some e => (inr (mk_failure AtPutItem e), w')
    end.

(** [sns_publish(subject, message)]. *)
Definition sns_publish (subject : string) (message : alert_message) : M unit :=
  fun w =>
    let out := sns_client_publish E (calls w) subject message in
    let w' := record (Publish subject message out) w in
    match out with
    | None => (inl tt, w')
    | Some e => (inr (mk_failure AtPublish e), w')
    end.

(** The integer the three branches of [safe_put_item] make of a time
    stamp: a [datetime], an ISO string (with [Z] read as [+00:00]), or
    anything [int] accepts. *)
Definition normalize_timestamp (ts : pyval) : exc Z :=
  match ts with
  | VDatetime d => eret (int_timestamp (mktime E) d)
  | VStr s =>
      match fromisoformat (replace_char "Z" "+00:00" s) with
      | Some d => eret (int_timestamp (mktime E) d)
      | None => eraise (ValueError "Invalid isoformat string")
      end
  | _ => py_int ts
  end.

(** The item after the updates of [safe_put_item]: the identifier in
    upper case, the integer time stamp, the four numeric fields through
    [decimalize]. *)
Definition updated_item (bus : pyval) (ts : Z) (it : Item.t) : Item.t :=
  Item.make
    (Some (VStr (upper (py_str (repr E) bus))))
    (Some (VInt ts))
    (option_map decimalize (Item.Latitude it))
    (option_map decimalize (Item.Longitude it))
    (option_map decimalize (Item.SpeedKmph it))
    (Item.Status it)
    (Item.Route it)
    (Item.NextStop it)
    (option_map decimalize (Item.DistanceToStopKm it)).

(** [safe_put_item(item)].  The dictionary is updated in place: the
    function returns the item as the caller sees it afterwards. *)
Definition safe_put_item (it : Item.t) : M Item.t :=
  bus <- match Item.BusID it with
         | None => raise_at AtBusID (ValueError "Missing BusID")
         | Some b =>
             if String.eqb (strip (py_str (repr E) b)) EmptyString
             then raise_at AtBusID (ValueError "Missing BusID")
             else ret b
         end ;;
  ts0 <- match Item.TimeStamp it with
         | None => n <- now_ts ;; ret (VInt n)
         | Some v =>
             if is_none_or_empty v then n <- now_ts ;; ret (VInt n)
             else ret v
         end ;;
  ts <- at_site AtTimeStamp (normalize_timestamp ts0) ;;
  let it' := updated_item bus ts it in
  put_item it' ;;;
  ret it'.

(** [format_ts(ts)]: the second that is rendered; [fromtimestamp] raises
    outside the years 1 to 9999. *)
Definition format_ts (ts : pyval) : exc Z :=
  ebind (py_float ts) (fun x =>
    match x with
    | Fin r =>
        if (Rleb (-62135596800) r && Rltb r 253402300800)%bool
        then eret (Int_part r)
        else eraise (ValueError "year out of range")
    | NaN => eraise (ValueError "Invalid value NaN (not a number)")
    | PInf | NInf => eraise OverflowError
    end).

(** [data[key]]. *)
Definition subscript (key : string) (v : option pyval) : exc pyval :=
  match v with
  | Some x => eret x
  | None => eraise (KeyError key)
  end.

(** [data.get(key, default)]. *)
Definition get (v : option pyval) (default : pyval) : pyval :=
  match v with
  | Some x => x
  | None => default
  end.

(** The pair [(s["name"], haversine_km(lat, lon, s["lat"], s["lon"]))]. *)
Definition dist_to (lat lon : pyfloat) (s : Stop.t) : exc (string * pyfloat) :=
  ebind (haversine_km lat lon (Stop.lat s) (Stop.lon s))
        (fun d => eret (Stop.name s, d)).

(** The nearest stop of a route: the list [dists] and its [min] by
    distance. *)
Definition nearest_stop (lat lon : pyfloat) (stops : list Stop.t)
  : exc (string * pyfloat) :=
  ebind (comprehension (dist_to lat lon) stops) (py_min snd).

(** The [try] block of [api_track]. *)
Definition track (data : Report.t) : M response :=
  let bus_id :=
    strip (upper (py_str (repr E) (get (Report.bus_id data) (VStr EmptyString)))) in
  lat <- at_site AtLat (ebind (subscript "lat" (Report.lat data)) py_float) ;;
  lon <- at_site AtLon (ebind (subscript "lon" (Report.lon data)) py_float) ;;
  speed <- at_site AtSpeed
             (py_float (get (Report.speed_kmph data)
                            (VFloat (Fin (uniform_10_35 E))))) ;;
  let status := upper (py_str (repr E) (get (Report.status data) (VStr "ACTIVE"))) in
  now <- now_ts ;;
  let ts := get (Report.timestamp data) (VInt now) in
  match lookup buses bus_id with
  | None => ret (Err400 ("Unknown bus_id " ++ bus_id))
  | Some bus =>
      nearest <- at_site AtResolve (nearest_stop lat lon (Bus.stops bus)) ;;
      let next_stop := fst nearest in
      let dist_km := snd nearest in
      let item :=
        Item.make (Some (VStr bus_id)) (Some ts)
                  (Some (VFloat lat)) (Some (VFloat lon)) (Some (VFloat speed))
                  (Some (VStr status)) (Some (VStr (Bus.route bus)))
                  (Some (VStr next_stop)) (Some (VFloat dist_km)) in
      stored <- safe_put_item item ;;
      alert_radius_km <- at_site AtRadius
        (py_float (get (Report.alert_radius_km data) (VFloat (Fin 0.5)))) ;;
      (if fle dist_km alert_radius_km then
         when <- at_site AtFormatTs
                   (format_ts (get (Item.TimeStamp stored) VNone)) ;;
         sns_publish ("Bus " ++ bus_id ++ " nearing " ++ next_stop)
                     (mk_alert bus_id next_stop dist_km when)
       else ret tt) ;;;
      ret (Ok200 stored)
  end.

(** [api_track]: the [except] clause turns every exception into the
    status 500. *)
Definition api_track (data : Report.t) (w : world) : response * world :=
  match track data w with
  | (inl r, w') => (r, w')
  | (inr f, w') => (Err500 f, w')
  end.

End Pipeline.

(** ** Vocabulary of the properties *)

Section Vocabulary.

Local Open Scope R_scope.

(** The quantity [a] of [haversine_km] on real coordinates, and the
    distance computed from it. *)
Definition hav_a (lat1 lon1 lat2 lon2 : R) : R :=
  sin ((lat2 + - lat1) * (PI / 180) / 2) ^ 2
  + cos (lat1 * (PI / 180)) * cos (lat2 * (PI / 180))
    * sin ((lon2 + - lon1) * (PI / 180) / 2) ^ 2.

Definition hav_km (lat1 lon1 lat2 lon2 : R) : R :=
  let a := hav_a lat1 lon1 lat2 lon2 in
  2 * 6371 * Ratan2 (sqrt a) (sqrt (1 - a)).

End Vocabulary.

Section ReportVocabulary.

Variable E : env.

(** The sub-expressions of [api_track] that read the report. *)
Definition normalized_bus_id (data : Report.t) : string :=
  strip (upper (py_str (repr E) (get (Report.bus_id data) (VStr EmptyString)))).

Definition lat_of (data : Report.t) : exc pyfloat :=
  ebind (subscript "lat" (Report.lat data)) py_float.

Definition lon_of (data : Report.t) : exc pyfloat :=
  ebind (subscript "lon" (Report.lon data)) py_float.

Definition speed_of (data : Report.t) : exc pyfloat :=
  py_float (get (Report.speed_kmph data) (VFloat (Fin (uniform_10_35 E)))).

Definition status_of (data : Report.t) : string :=
  upper (py_str (repr E) (get (Report.status data) (VStr "ACTIVE"))).

Definition radius_of (data : Report.t) : exc pyfloat :=
  py_float (get (Report.alert_radius_km data) (VFloat (Fin 0.5))).

(** The time stamp [safe_put_item] converts: the report's, or a reading of
    the clock when the report has none (the first reading of the request,
    taken by [api_track]) or gives [None] or the empty string (the second
    reading, taken by [safe_put_item]). *)
Definition raw_timestamp (data : Report.t) (w : world) : pyval :=
  match Report.timestamp data with
  | None => VInt (clock E (reads w))
  | Some v =>
      if is_none_or_empty v then VInt (clock E (S (reads w))) else v
  end.

(** The calls a request adds to the world. *)
Definition new_calls (data : Report.t) (w : world) : list call :=
  skipn (List.length (calls w)) (calls (snd (api_track E data w))).

End ReportVocabulary.

Definition is_put (c : call) : bool :=
  match c with PutItem _ _ => true | Publish _ _ _ => false end.

Definition is_publish (c : call) : bool :=
  match c with PutItem _ _ => false | Publish _ _ _ => true end.

(** The numbers of [put_item] and of [publish] calls in a trace. *)
Definition count_puts (cs : list call) : nat := List.length (filter is_put cs).
Definition count_publishes (cs : list call) : nat :=
  List.length (filter is_publish cs).

Section RunVocabulary.

Variable E : env.

Local Open Scope string_scope.

(** The time stamp [safe_put_item] converts for an item, and the world
    after the reading of the clock it may take. *)
Definition item_timestamp (it : Item.t) (w : world) : pyval * world :=
  match Item.TimeStamp it with
  | None => (VInt (clock E (reads w)), tick w)
  | Some v =>
      if is_none_or_empty v then (VInt (clock E (reads w)), tick w)
      else (v, w)
  end.

(** The dictionary [item] that [api_track] builds. *)
Definition track_item (data : Report.t) (w : world)
    (lat lon speed : pyfloat) (bus : Bus.t) (next : string) (dist : pyfloat)
  : Item.t :=
  Item.make
    (Some (VStr (normalized_bus_id E data)))
    (Some (get (Report.timestamp data) (VInt (clock E (reads w)))))
    (Some (VFloat lat)) (Some (VFloat lon)) (Some (VFloat speed))
    (Some (VStr (status_of E data))) (Some (VStr (Bus.route bus)))
    (Some (VStr next)) (Some (VFloat dist)).

(** The subject and the message of the alert. *)
Definition alert_subject (data : Report.t) (next : string) : string :=
  "Bus " ++ normalized_bus_id E data ++ " nearing " ++ next.

Definition alert_of (data : Report.t) (next : string) (dist : pyfloat)
    (when : Z) : alert_message :=
  mk_alert (normalized_bus_id E data) next dist when.

(** The statements of [api_track] after [safe_put_item] has returned. *)
Definition after_put (data : Report.t) (next : string) (dist : pyfloat)
    (stored : Item.t) (w : world) : response * world :=
  match radius_of data with
  | inr e => (Err500 (mk_failure AtRadius e), w)
  | inl radius =>
      if fle dist radius then
        match format_ts (get (Item.TimeStamp stored) VNone) with
        | inr e => (Err500 (mk_failure AtFormatTs e), w)
        | inl when =>
            let subject := alert_subject data next in
            let message := alert_of data next dist when in
            match sns_client_publish E (calls w) subject message with
            | None => (Ok200 stored, record (Publish subject message None) w)
            | Some e =>
                (Err500 (mk_failure AtPublish e),
                 record (Publish subject message (Some e)) w)
            end
        end
      else (Ok200 stored, w)
  end.

End RunVocabulary.

Section StopVocabulary.

Local Open Scope R_scope.

(** A stop with real coordinates, and its distance to a real position. *)
Definition finite_stop (s : Stop.t) : Prop :=
  exists a b : R, Stop.lat s = Fin a /\ Stop.lon s = Fin b.

Definition stop_km (lat lon : R) (s : Stop.t) : R :=
  match Stop.lat s, Stop.lon s with
  | Fin a, Fin b => hav_km lat lon a b
  | _, _ => 0
  end.

(** [s] is the first stop of [stops], in route order, among those at the
    least distance from the position. *)
Definition first_nearest (lat lon : R) (stops : list Stop.t) (s : Stop.t)
  : Prop :=
  exists pre post : list Stop.t,
    stops = pre ++ s :: post /\
    (forall x, In x pre -> stop_km lat lon s < stop_km lat lon x) /\
    (forall x, In x post -> stop_km lat lon s <= stop_km lat lon x).

End StopVocabulary.

(** ** The outcomes of a request

    The runs of [api_track] listed one by one: how far the request got,
    the response, and the calls it added. *)

Section OutcomeVocabulary.

Variable E : env.
Variable data : Report.t.
Variable w : world.

(** The three numeric fields read before the route table is consulted. *)
Definition parsed (lat lon speed : pyfloat) : Prop :=
  lat_of data = inl lat /\ lon_of data = inl lon /\ speed_of E data = inl speed.

(** The vehicle is known and its nearest stop is found. *)
Definition resolved (lat lon speed : pyfloat) (bus : Bus.t)
    (next : string) (dist : pyfloat) : Prop :=
  parsed lat lon speed /\
  lookup buses (normalized_bus_id E data) = Some bus /\
  nearest_stop lat lon (Bus.stops bus) = inl (next, dist).

(** The item handed to [table.put_item]. *)
Definition stored_item (lat lon speed : pyfloat) (bus : Bus.t)
    (next : string) (dist : pyfloat) (ts : Z) : Item.t :=
  updated_item E (VStr (normalized_bus_id E data)) ts
               (track_item E data w lat lon speed bus next dist).

Inductive outcome : response -> list call -> Prop :=
| out_lat e :
    lat_of data = inr e ->
    outcome (Err500 (mk_failure AtLat e)) []
| out_lon lat e :
    lat_of data = inl lat -> lon_of data = inr e ->
    outcome (Err500 (mk_failure AtLon e)) []
| out_speed lat lon e :
    lat_of data = inl lat -> lon_of data = inl lon ->
    speed_of E data = inr e ->
    outcome (Err500 (mk_failure AtSpeed e)) []
| out_unknown lat lon speed :
    parsed lat lon speed ->
    lookup buses (normalized_bus_id E data) = None ->
    outcome (Err400 ("Unknown bus_id " ++ normalized_bus_id E data)) []
| out_resolve lat lon speed bus e :
    parsed lat lon speed ->
    lookup buses (normalized_bus_id E data) = Some bus ->
    nearest_stop lat lon (Bus.stops bus) = inr e ->
    outcome (Err500 (mk_failure AtResolve e)) []
| out_timestamp lat lon speed bus next dist e :
    resolved lat lon speed bus next dist ->
    normalize_timestamp E (raw_timestamp E data w) = inr e ->
    outcome (Err500 (mk_failure AtTimeStamp e)) []
| out_put lat lon speed bus next dist ts e :
    resolved lat lon speed bus next dist ->
    normalize_timestamp E (raw_timestamp E data w) = inl ts ->
    let stored := stored_item lat lon speed bus next dist ts in
    table_put_item E (calls w) stored = Some e ->
    outcome (Err500 (mk_failure AtPutItem e)) [PutItem stored (Some e)]
| out_radius lat lon speed bus next dist ts e :
    resolved lat lon speed bus next dist ->
    normalize_timestamp E (raw_timestamp E data w) = inl ts ->
    let stored := stored_item lat lon speed bus next dist ts in
    table_put_item E (calls w) stored = None ->
    radius_of data = inr e ->
    outcome (Err500 (mk_failure AtRadius e)) [PutItem stored None]
| out_far lat lon speed bus next dist ts radius :
    resolved lat lon speed bus next dist ->
    normalize_timestamp E (raw_timestamp E data w) = inl ts ->
    let stored := stored_item lat lon speed bus next dist ts in
    table_put_item E (calls w) stored = None ->
    radius_of data = inl radius ->
    fle dist radius = false ->
    outcome (Ok200 stored) [PutItem stored None]
| out_format lat lon speed bus next dist ts radius e :
    resolved lat lon speed bus next dist ->
    normalize_timestamp E (raw_timestamp E data w) = inl ts ->
    let stored := stored_item lat lon speed bus next dist ts in
    table_put_item E (calls w) stored = None ->
    radius_of data = inl radius ->
    fle dist radius = true ->
    format_ts (VInt ts) = inr e ->
    outcome (Err500 (mk_failure AtFormatTs e)) [PutItem stored None]
| out_publish lat lon speed bus next dist ts radius when e :
    resolved lat lon speed bus next dist ->
    normalize_timestamp E (raw_timestamp E data w) = inl ts ->
    let stored := stored_item lat lon speed bus next dist ts in
    table_put_item E (calls w) stored = None ->
    radius_of data = inl radius ->
    fle dist radius = true ->
    format_ts (VInt ts) = inl when ->
    let subject := alert_subject E data next in
    let message := alert_of E data next dist when in
    sns_client_publish E (calls w ++ [PutItem stored None]) subject message
    = Some e ->
    outcome (Err500 (mk_failure AtPublish e))
            [PutItem stored None; Publish subject message (Some e)]
| out_alert lat lon speed bus next dist ts radius when :
    resolved lat lon speed bus next dist ->
    normalize_timestamp E (raw_timestamp E data w) = inl ts ->
    let stored := stored_item lat lon speed bus next dist ts in
    table_put_item E (calls w) stored = None ->
    radius_of data = inl radius ->
    fle dist radius = true ->
    format_ts (VInt ts) = inl when ->
    let subject := alert_subject E data next in
    let message := alert_of E data next dist when in
    sns_client_publish E (calls w ++ [PutItem stored None]) subject message
    = None ->
    outcome (Ok200 stored)
            [PutItem stored None; Publish subject message None].

End OutcomeVocabulary.

(** ** Concrete collaborators and reports *)

Section Examples.

Local Open Scope string_scope.

(** Collaborators that accept every call; the clock shows the first
    second of 2025, local time is UTC. *)
Definition calm : env :=
  mk_env (fun _ => 1735689600%Z) 20 (fun s => s) (fun _ => "?")
         (fun _ _ => None) (fun _ _ _ => None).

(** The same, with an SNS client that raises on every [publish]. *)
Definition sns_down : env :=
  mk_env (fun _ => 1735689600%Z) 20 (fun s => s) (fun _ => "?")
         (fun _ _ => None)
         (fun _ _ _ => Some (ExternalError "ClientError")).



(** The same as [calm], in a time zone five and a half hours east of
    UTC. *)
Definition calm_ist : env :=
  mk_env (fun _ => 1735689600%Z) 20 (fun s => (s - 19800)%Z) (fun _ => "?")
         (fun _ _ => None) (fun _ _ _ => None).

Definition idle : world := mk_world 0 [].

(** A report of vehicle [10a] one ten-thousandth of a degree north of the
    stop Ameerpet, with the given time stamp and alert radius. *)
Definition near_ameerpet (ts radius : option pyval) : Report.t :=
  Report.make (Some (VStr "10a"))
              (Some (VFloat (Fin 17.4376))) (Some (VFloat (Fin 78.4483)))
              None None ts radius.

(** The report [{bus_id: "10a", lat: 17.4376, lon: 78.4483,
    alert_radius_km: 0.5}]. *)
Definition scenario : Report.t := near_ameerpet None (Some (VFloat (Fin 0.5))).

Definition route_10A : Bus.t :=
  Bus.make "Secunderabad → Mehdipatnam"
    [ Stop.make "Secunderabad" (Fin 17.4399) (Fin 78.4983);
      Stop.make "Begumpet" (Fin 17.4444) (Fin 78.4611);
      Stop.make "Ameerpet" (Fin 17.4375) (Fin 78.4483);
      Stop.make "Punjagutta" (Fin 17.4294) (Fin 78.4506);
      Stop.make "Mehdipatnam" (Fin 17.3956) (Fin 78.4403) ]
    "Every 10 mins" "AC".

Definition ameerpet : Stop.t := Stop.make "Ameerpet" (Fin 17.4375) (Fin 78.4483).

(** The distance from the reported position to Ameerpet. *)
Definition ameerpet_km : R := hav_km 17.4376 78.4483 17.4375 78.4483.

(** The item stored for [scenario] by [calm] in the world [idle]. *)
Definition scenario_item : Item.t :=
  Item.make (Some (VStr "10A")) (Some (VInt 1735689600))
            (Some (VDecimal (Fin 17.4376))) (Some (VDecimal (Fin 78.4483)))
            (Some (VDecimal (Fin 20))) (Some (VStr "ACTIVE"))
            (Some (VStr "Secunderabad → Mehdipatnam"))
            (Some (VStr "Ameerpet")) (Some (VDecimal (Fin ameerpet_km))).

(** A report for a vehicle that is not in the table. *)
Definition unknown_vehicle (lat : pyval) : Report.t :=
  Report.make (Some (VStr "99Z")) (Some lat) (Some (VFloat (Fin 78.4483)))
              None None None None.

End Examples.

(** ** Statements of the specification that the code is compared with *)

Section AsSpecified.

Variable E : env.
Variable data : Report.t.
Variable w : world.

Local Open Scope string_scope.

(** "A failure of [publish] after the record was stored never makes the
    ingestion fail: the stored record is returned." *)
Definition publish_failure_is_recovered : Prop :=
  forall stored subject message e,
    In (PutItem stored None) (new_calls E data w) ->
    In (Publish subject message (Some e)) (new_calls E data w) ->
    fst (api_track E data w) = Ok200 stored.

(** "A vehicle that is not in the catalog is reported as unknown whatever
    the other fields hold, and nothing is written." *)
Definition unknown_vehicle_is_reported_first : Prop :=
  lookup buses (normalized_bus_id E data) = None ->
  fst (api_track E data w)
  = Err400 ("Unknown bus_id " ++ normalized_bus_id E data) /\
  count_puts (new_calls E data w) = 0%nat.

(** "Every stored record has a non-negative integer time stamp, an
    identifier that is not empty and is in upper case, and a distance
    that is not negative." *)
Definition record_invariant (it : Item.t) : Prop :=
  (exists n : Z, Item.TimeStamp it = Some (VInt n) /\ (0 <= n)%Z) /\
  (exists s : string,
      Item.BusID it = Some (VStr s) /\ s <> EmptyString /\ upper s = s) /\
  (exists d : R,
      Item.DistanceToStopKm it = Some (VDecimal (Fin d)) /\ (0 <= d)%R).

Definition stored_records_are_valid : Prop :=
  forall stored, fst (api_track E data w) = Ok200 stored ->
                 record_invariant stored.



(** "A speed that is present and does not parse is reported as the speed
    failure, before the vehicle is looked up, and nothing is stored or
    published." *)
Definition unparsed_speed_is_reported : Prop :=
  forall v e,
    Report.speed_kmph data = Some v -> py_float v = inr e ->
    new_calls E data w = [] /\
    fst (api_track E data w) = Err500 (mk_failure AtSpeed e).

End AsSpecified.


(** The report of the scenario with the latitude given as the text
    [nan]. *)
Definition nan_report : Report.t :=
  Report.make (Some (VStr "10a")) (Some (VStr "nan"))
              (Some (VFloat (Fin 78.4483))) None None None None.

(** The item built for [nan_report]. *)
Definition nan_item : Item.t :=
  Item.make (Some (VStr "10A")) (Some (VInt 1735689600))
            (Some (VDecimal NaN)) (Some (VDecimal (Fin 78.4483)))
            (Some (VDecimal (Fin 20))) (Some (VStr "ACTIVE"))
            (Some (VStr "Secunderabad → Mehdipatnam"))
            (Some (VStr "Secunderabad")) (Some (VDecimal NaN)).

(** The item stored for the report near Ameerpet with the time stamp
    [-5]. *)
Definition negative_item : Item.t :=
  Item.make (Some (VStr "10A")) (Some (VInt (-5)))
            (Some (VDecimal (Fin 17.4376))) (Some (VDecimal (Fin 78.4483)))
            (Some (VDecimal (Fin 20))) (Some (VStr "ACTIVE"))
            (Some (VStr "Secunderabad → Mehdipatnam"))
            (Some (VStr "Ameerpet")) (Some (VDecimal (Fin ameerpet_km))).

(** ** Vocabulary of the further properties *)

(** The report [d] with [v] for vehicle identifier. *)
Definition with_bus_id (v : pyval) (d : Report.t) : Report.t :=
  Report.make (Some v) (Report.lat d) (Report.lon d) (Report.speed_kmph d)
              (Report.status d) (Report.timestamp d)
              (Report.alert_radius_km d).

(** A value DynamoDB's resource layer takes for a number: not a Python
    float. *)
Definition not_float (v : option pyval) : Prop :=
  match v with
  | Some (VFloat _) => False
  | _ => True
  end.

(** The number a field holds, if any. *)
Definition number_of (v : option pyval) : option (exc pyfloat) :=
  option_map py_float v.

(** The calls [safe_put_item] adds to the world. *)
Definition item_calls (E : env) (it : Item.t) (w : world) : list call :=
  skipn (List.length (calls w)) (calls (snd (safe_put_item E it w))).

(** An item as a caller may build it, and the item stored for it. *)
Definition raw_item : Item.t :=
  Item.make (Some (VStr " 10a")) (Some (VInt 7)) (Some (VFloat (Fin 1)))
            None None None None None None.

Definition normal_item : Item.t :=
  Item.make (Some (VStr " 10A")) (Some (VInt 7)) (Some (VDecimal (Fin 1)))
            None None None None None None.

(** * The pages of [app.py]

    The rest of [app.py]: the accounts ([register], [login], [logout],
    [login_required]), the travel history ([add_to_travel_history],
    [get_travel_history]) and the views ([index], [home], [buses_page],
    [bus_details], [bus_history], [subscribe], [simulate],
    [generate_test_data]).

    Conventions of the embedding.
    - The module-level dictionaries [users] and [user_travel_history] and
      the session of the client that sends the request are fields of the
      state ([app_state]); a dictionary is an association list in the
      order of insertion.
    - [flash], [table.query], [sns_client.subscribe], the password hashes
      and the random generator are collaborators: the state records the
      calls made, the environment ([web]) gives their results.
    - A view returns a [page]: the redirection, or the template with the
      values handed to it.  An exception that leaves a view is the result
      [inr e]. *)

(** ** Dictionaries *)

Section Dict.

Variable V : Type.

Definition dict : Type := list (string * V).

(** [d.get(k)]: [None] when [k not in d]. *)
Fixpoint dict_get (d : dict) (k : string) : option V :=
  match d with
  | [] => None
  | (k', v) :: rest => if String.eqb k' k then Some v else dict_get rest k
  end.

(** [d[k] = v]: the value of an existing key is replaced where it is, a
    new key goes last. *)
Fixpoint dict_set (d : dict) (k : string) (v : V) : dict :=
  match d with
  | [] => [(k, v)]
  | (k', v') :: rest =>
      if String.eqb k' k then (k', v) :: rest
      else (k', v') :: dict_set rest k v
  end.

(** [d[k]]. *)
Definition dict_subscript (d : dict) (k : string) : exc V :=
  match dict_get d k with
  | Some v => eret v
  | None => eraise (KeyError k)
  end.

End Dict.

(** [x in l] for a list of strings. *)
Definition contains (l : list string) (x : string) : bool :=
  existsb (String.eqb x) l.

(** ** The state of the application *)

Record account : Type := mk_account { pw : string; email : string }.

(** The session of the client: the key [user_id] and the flag
    [permanent]. *)
Record session_t : Type := mk_session {
  user_id : option string;
  permanent : bool
}.

Definition empty_session : session_t := mk_session None false.

(** The answer of [sns_client.subscribe]. *)
Inductive subscribe_outcome : Type :=
| Subscribed
| ClientErrorWith (message : string)
| SubscribeRaised (e : pyexn).

Record app_state : Type := mk_app {
  users : dict account;
  user_travel_history : dict (list string);
  session : session_t;
  (** the calls of [flash]: message and category, oldest first *)
  flashed : list (string * string);
  (** the number of password hashes generated *)
  salts : nat;
  (** the number of draws from the random generator *)
  draws : nat;
  (** the calls of [table.query]: key and limit, oldest first *)
  queries : list (string * nat);
  (** the calls of [sns_client.subscribe], oldest first *)
  subscriptions : list string;
  (** the clock readings and the calls to DynamoDB and SNS *)
  aws : world
}.

(** The state when the process starts, for a client without a session. *)
Definition initial : app_state :=
  mk_app [] [] empty_session [] 0 0 [] [] (mk_world 0 []).

Definition set_users (u : dict account) (st : app_state) : app_state :=
  mk_app u (user_travel_history st) (session st) (flashed st) (salts st)
         (draws st) (queries st) (subscriptions st) (aws st).

Definition set_user_travel_history (h : dict (list string)) (st : app_state)
  : app_state :=
  mk_app (users st) h (session st) (flashed st) (salts st) (draws st)
         (queries st) (subscriptions st) (aws st).

Definition set_session (s : session_t) (st : app_state) : app_state :=
  mk_app (users st) (user_travel_history st) s (flashed st) (salts st)
         (draws st) (queries st) (subscriptions st) (aws st).

Definition set_flashed (f : list (string * string)) (st : app_state)
  : app_state :=
  mk_app (users st) (user_travel_history st) (session st) f (salts st)
         (draws st) (queries st) (subscriptions st) (aws st).

Definition set_salts (n : nat) (st : app_state) : app_state :=
  mk_app (users st) (user_travel_history st) (session st) (flashed st) n
         (draws st) (queries st) (subscriptions st) (aws st).

Definition set_draws (n : nat) (st : app_state) : app_state :=
  mk_app (users st) (user_travel_history st) (session st) (flashed st)
         (salts st) n (queries st) (subscriptions st) (aws st).

Definition set_queries (q : list (string * nat)) (st : app_state)
  : app_state :=
  mk_app (users st) (user_travel_history st) (session st) (flashed st)
         (salts st) (draws st) q (subscriptions st) (aws st).

Definition set_subscriptions (s : list string) (st : app_state) : app_state :=
  mk_app (users st) (user_travel_history st) (session st) (flashed st)
         (salts st) (draws st) (queries st) s (aws st).

Definition set_aws (w : world) (st : app_state) : app_state :=
  mk_app (users st) (user_travel_history st) (session st) (flashed st)
         (salts st) (draws st) (queries st) (subscriptions st) w.

(** What the pages do not decide. *)
Record web : Type := mk_web {
  (** [table.query] on the key with the limit, given the queries made so
      far: it raises, or returns a response with or without [Items] *)
  table_query : list (string * nat) -> string -> nat
                -> exc (option (list Item.t));
  (** [generate_password_hash], salted by the number of the hash *)
  generate_password_hash : nat -> string -> string;
  check_password_hash : string -> string -> bool;
  sns_client_subscribe : list string -> string -> subscribe_outcome;
  (** the index that the [n]-th draw gives for a sequence of a length *)
  randbelow : nat -> nat -> nat;
  (** [random.random()] at the [n]-th draw *)
  random_random : nat -> R
}.

(** ** Requests and pages *)

Inductive http_method : Type := GET | POST.

(** The form of the request, by field; [None] when the field is absent. *)
Module Form.
Record t : Type := make {
  username : option string;
  password : option string;
  email : option string
}.
End Form.

Record request : Type := mk_request { method : http_method; form : Form.t }.

(** An entry of the list [get_travel_history] returns. *)
Module Entry.
Record t : Type := make {
  bus_id : string;
  bus_info : Bus.t;
  trip_count : nat;
  last_trip : option Item.t
}.
End Entry.

(** A row as a page shows it: the keys of the stored item and the key
    [FormattedTime] (the second that is rendered). *)
Module Row.
Record t : Type := make {
  fields : Item.t;
  FormattedTime : option Z
}.
End Row.

Inductive endpoint : Type :=
| to_login
| to_home
| to_bus_details (bus_id : string).

Inductive page : Type :=
| Redirect (target : endpoint)
| RegisterPage
| LoginPage
| HomePage (username : string) (travel_history : list Entry.t)
| BusesPage
| BusDetailsPage (bus_id : string) (bus : Bus.t) (latest : option Row.t)
| BusHistoryPage (bus_id : string) (items : list Row.t)
| SubscribePage (user_email : string).

(** ** The state and error monad of a view *)

Definition W (A : Type) : Type := app_state -> exc A * app_state.

Definition wret {A : Type} (a : A) : W A := fun st => (inl a, st).
Definition wraise {A : Type} (e : pyexn) : W A := fun st => (inr e, st).
Definition wbind {A B : Type} (c : W A) (k : A -> W B) : W B :=
  fun st =>
    match c st with
    | (inl a, st') => k a st'
    | (inr e, st') => (inr e, st')
    end.

(** A computation of the pipeline, run on the clock and the calls of the
    state. *)
Definition on_aws {A : Type} (c : M A) : W A :=
  fun st =>
    match c (aws st) with
    | (inl a, w') => (inl a, set_aws w' st)
    | (inr f, w') => (inr (raised f), set_aws w' st)
    end.

Declare Scope W_scope.
Delimit Scope W_scope with W.
Notation "x <- c ;; k" := (wbind c (fun x => k))
  (at level 61, c at next level, right associativity) : W_scope.
Notation "c ;;; k" := (wbind c (fun _ => k))
  (at level 61, right associativity) : W_scope.

(** [for x in l: acc = body(x, acc)], left to right, stopping at the
    first exception. *)
Fixpoint for_each {A S : Type} (l : list A) (body : A -> S -> W S) (acc : S)
  : W S :=
  match l with
  | [] => wret acc
  | x :: rest => wbind (body x acc) (for_each rest body)
  end.

(** ** The travel history *)

(** [add_to_travel_history(username, bus_id)] on the dictionary. *)
Definition add_to_travel_history (username bus_id : string)
    (h : dict (list string)) : exc (dict (list string)) :=
  let h1 := match dict_get h username with
            | None => dict_set h username []
            | Some _ => h
            end in
  ebind (dict_subscript h1 username) (fun seen =>
  if contains seen bus_id then eret h1
  else ebind (dict_subscript h1 username) (fun l =>
       eret (dict_set h1 username (l ++ [bus_id])))).

(** [d.get(k, [])]. *)
Definition get_list (h : dict (list string)) (k : string) : list string :=
  match dict_get h k with
  | Some l => l
  | None => []
  end.

(** [resp.get("Items", [])]. *)
Definition get_items (resp : option (list Item.t)) : list Item.t :=
  match resp with
  | Some items => items
  | None => []
  end.

Section Pages.

Variable E : env.
Variable B : web.

Local Open Scope string_scope.
Local Open Scope W_scope.

(** [flash(message, category)]. *)
Definition flash (message category : string) : W unit :=
  fun st => (inl tt, set_flashed (flashed st ++ [(message, category)]) st).

(** [table.query(KeyConditionExpression=Key("BusID").eq(bus_id),
    ScanIndexForward=False, Limit=limit)]. *)
Definition query (bus_id : string) (limit : nat)
  : W (option (list Item.t)) :=
  fun st =>
    (table_query B (queries st) bus_id limit,
     set_queries (queries st ++ [(bus_id, limit)]) st).

(** The loop of [get_travel_history] over the identifiers left, with the
    entries collected so far. *)
Fixpoint history_loop (bus_ids : list string) (history_data : list Entry.t)
  : W (list Entry.t) :=
  match bus_ids with
  | [] => wret history_data
  | bus_id :: rest =>
      match lookup buses bus_id with
      | None => history_loop rest history_data
      | Some info =>
          fun st =>
            match query bus_id 5 st with
            | (inl resp, st') =>
                let trips := get_items resp in
                history_loop rest
                  (history_data
                   ++ [Entry.make bus_id info (List.length trips)
                                  (hd_error trips)])
                  st'
            | (inr _, st') =>
                history_loop rest
                  (history_data ++ [Entry.make bus_id info 0 None]) st'
            end
      end
  end.

(** [get_travel_history(username)]. *)
Definition get_travel_history (username : string) : W (list Entry.t) :=
  fun st => history_loop (get_list (user_travel_history st) username) [] st.

(** ** The accounts *)

(** [session["user_id"]]. *)
Definition session_user : W string :=
  fun st =>
    match user_id (session st) with
    | Some u => (inl u, st)
    | None => (inr (KeyError "user_id"), st)
    end.

(** [login_required(view_func)]. *)
Definition login_required (view_func : W page) : W page :=
  fun st =>
    match user_id (session st) with
    | None =>
        (flash "Please login first." "warning" ;;;
         wret (Redirect to_login)) st
    | Some _ => view_func st
    end.

(** [request.form.get(key, default)], the default being the empty
    string. *)
Definition form_get (field : option string) : string :=
  match field with
  | Some s => s
  | None => EmptyString
  end.

(** [not s] for a string. *)
Definition is_empty (s : string) : bool := String.eqb s EmptyString.

Definition index : W page :=
  fun st =>
    match user_id (session st) with
    | None => (inl (Redirect to_login), st)
    | Some _ => (inl (Redirect to_home), st)
    end.

Definition register (req : request) : W page :=
  match method req with
  | POST =>
      let username := strip (form_get (Form.username (form req))) in
      let password := form_get (Form.password (form req)) in
      let email := strip (form_get (Form.email (form req))) in
      if (is_empty username || is_empty password)%bool then
        flash "Username and password are required." "error" ;;;
        wret RegisterPage
      else
        fun st =>
          match dict_get (users st) username with
          | Some _ =>
              (flash "Username already exists." "error" ;;;
               wret RegisterPage) st
          | None =>
              let hash := generate_password_hash B (salts st) password in
              let st1 := set_salts (S (salts st)) st in
              let st2 :=
                set_users
                  (dict_set (users st1) username
                            (mk_account hash
                               (if is_empty email then EmptyString else email)))
                  st1 in
              (flash "Registration successful. Please login." "success" ;;;
               wret (Redirect to_login)) st2
          end
  | GET => wret RegisterPage
  end.

Definition login (req : request) : W page :=
  match method req with
  | POST =>
      let username := strip (form_get (Form.username (form req))) in
      let password := form_get (Form.password (form req)) in
      fun st =>
        match dict_get (users st) username with
        | Some u =>
            if check_password_hash B (pw u) password then
              (flash "Logged in successfully." "success" ;;;
               wret (Redirect to_home))
                (set_session (mk_session (Some username) true) st)
            else
              (flash "Invalid username or password." "error" ;;;
               wret LoginPage) st
        | None =>
            (flash "Invalid username or password." "error" ;;;
             wret LoginPage) st
        end
  | GET => wret LoginPage
  end.

Definition logout : W page :=
  fun st =>
    (flash "Logged out." "info" ;;; wret (Redirect to_login))
      (set_session empty_session st).

(** ** The views *)

Definition home : W page :=
  login_required
    (username <- session_user ;;
     user <- session_user ;;
     travel_history <- get_travel_history user ;;
     wret (HomePage username travel_history)).

Definition buses_page : W page := login_required (wret BusesPage).

(** [float(v)] where [v] is a [Decimal], [v] otherwise: the loop over the
    four numeric keys of a row. *)
Definition undecimalize (v : pyval) : pyval :=
  match v with
  | VDecimal x => VFloat x
  | _ => v
  end.

Definition undecimalized (it : Item.t) : Item.t :=
  Item.make (Item.BusID it) (Item.TimeStamp it)
            (option_map undecimalize (Item.Latitude it))
            (option_map undecimalize (Item.Longitude it))
            (option_map undecimalize (Item.SpeedKmph it))
            (Item.Status it) (Item.Route it) (Item.NextStop it)
            (option_map undecimalize (Item.DistanceToStopKm it)).

(** The truth value of a row: a dictionary without keys is false. *)
Definition has_keys (it : Item.t) : bool :=
  match it with
  | Item.make None None None None None None None None None => false
  | _ => true
  end.

(** What the [try] block of [bus_details] makes of [latest]: where it
    stops on an exception, [latest] is what it was. *)
Definition shown_latest (items : list Item.t) : option Row.t :=
  match items with
  | [] => None
  | latest :: _ =>
      if has_keys latest then
        match Item.TimeStamp latest with
        | Some ts =>
            match format_ts ts with
            | inl when => Some (Row.make (undecimalized latest) (Some when))
            | inr _ => Some (Row.make latest None)
            end
        | None => Some (Row.make latest None)
        end
      else Some (Row.make latest None)
  end.

Definition bus_details (bus_id : string) : W page :=
  login_required
    (let bus_id := strip (upper bus_id) in
     match lookup buses bus_id with
     | None =>
         flash ("Bus " ++ bus_id ++ " not found.") "error" ;;;
         wret (Redirect to_home)
     | Some bus =>
         user <- session_user ;;
         (fun st =>
            match add_to_travel_history user bus_id
                    (user_travel_history st) with
            | inl h => (inl tt, set_user_travel_history h st)
            | inr e => (inr e, st)
            end) ;;;
         (fun st =>
            match query bus_id 1 st with
            | (inl resp, st') =>
                (inl (BusDetailsPage bus_id bus
                        (shown_latest (get_items resp))), st')
            | (inr _, st') => (inl (BusDetailsPage bus_id bus None), st')
            end)
     end).

(** The loop of [bus_history] over the rows: a row is given its
    [FormattedTime] and its floats; at the first exception of [format_ts]
    the rows left are what they were. *)
Fixpoint shown_rows (items : list Item.t) : list Row.t :=
  match items with
  | [] => []
  | r :: rest =>
      match Item.TimeStamp r with
      | Some ts =>
          match format_ts ts with
          | inl when =>
              Row.make (undecimalized r) (Some when) :: shown_rows rest
          | inr _ => map (fun x => Row.make x None) (r :: rest)
          end
      | None => Row.make (undecimalized r) None :: shown_rows rest
      end
  end.

Definition bus_history (bus_id : string) : W page :=
  login_required
    (let bus_id := strip (upper bus_id) in
     match lookup buses bus_id with
     | None =>
         flash ("Bus " ++ bus_id ++ " not found.") "error" ;;;
         wret (Redirect to_home)
     | Some _ =>
         fun st =>
           match query bus_id 25 st with
           | (inl resp, st') =>
               (inl (BusHistoryPage bus_id (shown_rows (get_items resp))),
                st')
           | (inr _, st') => (inl (BusHistoryPage bus_id []), st')
           end
     end).

(** [sns_subscribe_email(email)]. *)
Definition sns_subscribe_email (email : string) : W subscribe_outcome :=
  fun st =>
    (inl (sns_client_subscribe B (subscriptions st) email),
     set_subscriptions (subscriptions st ++ [email]) st).

Definition subscribe (req : request) : W page :=
  login_required
    (user <- session_user ;;
     fun st =>
       let user_email :=
         match dict_get (users st) user with
         | Some u => email u
         | None => EmptyString
         end in
       match method req with
       | POST =>
           let email := strip (form_get (Form.email (form req))) in
           if is_empty email then
             (flash "Please provide an email address." "error" ;;;
              wret (SubscribePage user_email)) st
           else
             (out <- sns_subscribe_email email ;;
              match out with
              | Subscribed =>
                  flash "Subscription request sent!" "success" ;;;
                  wret (SubscribePage user_email)
              | ClientErrorWith message =>
                  flash ("SNS error: " ++ message) "error" ;;;
                  wret (SubscribePage user_email)
              | SubscribeRaised e => wraise e
              end) st
       | GET => (inl (SubscribePage user_email), st)
       end).

(** [random.choice(seq)]. *)
Definition random_choice {A : Type} (seq : list A) : W A :=
  fun st =>
    let st' := set_draws (S (draws st)) st in
    match seq with
    | [] => (inr (ExternalError "IndexError"), st)
    | x :: _ =>
        (inl (nth (Nat.modulo (randbelow B (draws st) (List.length seq))
                              (List.length seq))
                  seq x), st')
    end.

(** [random.uniform(a, b)]: [a + (b - a) * random()]. *)
Definition random_uniform (a b : R) : W pyfloat :=
  fun st =>
    (inl (Fin (a + (b - a) * random_random B (draws st))%R),
     set_draws (S (draws st)) st).

(** The body that [simulate] sends to [api_track]. *)
Definition payload (bus_id : string) (lat lon speed : pyfloat) : Report.t :=
  Report.make (Some (VStr bus_id)) (Some (VFloat lat)) (Some (VFloat lon))
              (Some (VFloat speed)) (Some (VStr "ACTIVE")) None
              (Some (VFloat (Fin 0.5%R))).

Definition simulate (bus_id : string) : W page :=
  login_required
    (let bus_id := strip (upper bus_id) in
     match lookup buses bus_id with
     | None =>
         flash ("Unknown bus " ++ bus_id) "error" ;;;
         wret (Redirect to_home)
     | Some bus =>
         stop <- random_choice (Bus.stops bus) ;;
         dlat <- random_uniform (-0.005) 0.005 ;;
         dlon <- random_uniform (-0.005) 0.005 ;;
         speed <- random_uniform 10 35 ;;
         let data := payload bus_id (fadd (Stop.lat stop) dlat)
                             (fadd (Stop.lon stop) dlon) speed in
         (fun st =>
            (inl tt, set_aws (snd (api_track E data (aws st))) st)) ;;;
         flash "✅ GPS detected - Bus tracking updated successfully!"
               "success" ;;;
         wret (Redirect (to_bus_details bus_id))
     end).

(** One round of the inner loop of [generate_test_data], from the count
    so far to the next. *)
Definition test_record (bus_id : string) (bus : Bus.t) (i : nat) (count : nat)
  : W nat :=
  stop <- random_choice (Bus.stops bus) ;;
  now <- on_aws (now_ts E) ;;
  dlat <- random_uniform (-0.01) 0.01 ;;
  dlon <- random_uniform (-0.01) 0.01 ;;
  speed <- random_uniform 15 45 ;;
  dist <- random_uniform 0.1 2.0 ;;
  on_aws (safe_put_item E
            (Item.make (Some (VStr bus_id))
                       (Some (VInt (now - Z.of_nat i * 300)))
                       (Some (VFloat (fadd (Stop.lat stop) dlat)))
                       (Some (VFloat (fadd (Stop.lon stop) dlon)))
                       (Some (VFloat speed))
                       (Some (VStr "ACTIVE"))
                       (Some (VStr (Bus.route bus)))
                       (Some (VStr (Stop.name stop)))
                       (Some (VFloat dist)))) ;;;
  wret (S count).

(** The two loops of [generate_test_data] over a table of routes. *)
Definition test_records (table : list (string * Bus.t)) (count : nat)
  : W nat :=
  for_each table
    (fun entry => for_each (seq 0 5) (test_record (fst entry) (snd entry)))
    count.

Definition generate_test_data : W page :=
  login_required
    (count <- test_records buses 0 ;;
     flash ("✅ GPS detected - Generated " ++ str_of_Z (Z.of_nat count)
            ++ " test records successfully!") "success" ;;;
     wret (Redirect to_home)).

End Pages.

(** ** Vocabulary of the properties of the pages *)

(** The identifiers in the order they were first seen. *)
Definition first_seen (l : list string) : list string :=
  fold_left (fun acc b => if contains acc b then acc else acc ++ [b]) l [].

(** The dictionary after the visits [(username, bus_id)], oldest first. *)
Fixpoint after_visits (visits : list (string * string))
    (h : dict (list string)) : exc (dict (list string)) :=
  match visits with
  | [] => eret h
  | (u, b) :: rest =>
      ebind (add_to_travel_history u b h) (after_visits rest)
  end.

(** The visits of one user. *)
Definition visits_of (u : string) (visits : list (string * string))
  : list string :=
  map snd (filter (fun v => String.eqb (fst v) u) visits).

(** [bus_id in buses]. *)
Definition known (bus_id : string) : bool :=
  match lookup buses bus_id with
  | Some _ => true
  | None => false
  end.

(** The table returns no more rows than the limit asks for. *)
Definition honours_limit (B : web) : Prop :=
  forall log bus_id limit items,
    table_query B log bus_id limit = inl (Some items) ->
    (List.length items <= limit)%nat.

(** A table without rows, hashes that are the password itself, an SNS
    client that accepts, a generator that gives the first element and the
    lower bound. *)
Definition quiet : web :=
  mk_web (fun _ _ _ => inl (Some [])) (fun _ p => p) String.eqb
         (fun _ _ => Subscribed) (fun _ _ => 0%nat) (fun _ => 0%R).

(** The entries [get_travel_history] returns ([[]] if it raised). *)
Definition entries_of (B : web) (u : string) (st : app_state)
  : list Entry.t :=
  match fst (get_travel_history B u st) with
  | inl entries => entries
  | inr _ => []
  end.

(** Every query raises. *)
Definition table_down (B : web) : Prop :=
  forall log bus_id limit, exists e, table_query B log bus_id limit = inr e.

(** The same as [quiet], with a table that raises on every query. *)
Definition no_table : web :=
  mk_web (fun _ _ _ => inr (ExternalError "ClientError")) (fun _ p => p)
         String.eqb (fun _ _ => Subscribed) (fun _ _ => 0%nat)
         (fun _ => 0%R).

(** A client logged in as a user who has seen two buses. *)
Definition rider : app_state :=
  mk_app [("asha"%string, mk_account "pw" EmptyString)]
         [("asha"%string, ["10A"%string; "65G"%string])]
         (mk_session (Some "asha"%string) true) [] 1 0 [] []
         (mk_world 0 []).

(** What holds of every entry of the travel history. *)
Definition entry_ok (B : web) (e : Entry.t) : Prop :=
  lookup buses (Entry.bus_id e) = Some (Entry.bus_info e) /\
  (Entry.last_trip e = None <-> Entry.trip_count e = 0%nat) /\
  (honours_limit B -> (Entry.trip_count e <= 5)%nat) /\
  (table_down B -> Entry.trip_count e = 0%nat).

(** ** The routes *)

(** The requests the application serves, by route. *)
Inductive route : Type :=
| Index
| Register (req : request)
| Login (req : request)
| Logout
| Home
| Buses
| BusDetails (bus_id : string)
| BusHistory (bus_id : string)
| Subscribe (req : request)
| Simulate (bus_id : string)
| GenerateTestData
| Track (data : Report.t).

(** The view of a route that is a page. *)
Definition view (E : env) (B : web) (r : route) : option (W page) :=
  match r with
  | Index => Some index
  | Register req => Some (register B req)
  | Login req => Some (login B req)
  | Logout => Some logout
  | Home => Some (home B)
  | Buses => Some buses_page
  | BusDetails bus_id => Some (bus_details B bus_id)
  | BusHistory bus_id => Some (bus_history B bus_id)
  | Subscribe req => Some (subscribe B req)
  | Simulate bus_id => Some (simulate E B bus_id)
  | GenerateTestData => Some (generate_test_data E B)
  | Track _ => None
  end.

(** The state after a request. *)
Definition after (E : env) (B : web) (r : route) (st : app_state)
  : app_state :=
  match r with
  | Track data => set_aws (snd (api_track E data (aws st))) st
  | _ =>
      match view E B r with
      | Some v => snd (v st)
      | None => st
      end
  end.

(** The routes behind [login_required]. *)
Definition guarded (r : route) : bool :=
  match r with
  | Home | Buses | BusDetails _ | BusHistory _ | Subscribe _ | Simulate _
  | GenerateTestData => true
  | _ => false
  end.

(** ** Invariants of the state *)

(** Every registered name is stripped and not empty. *)
Definition names_ok (st : app_state) : Prop :=
  forall u a, dict_get (users st) u = Some a ->
              strip u = u /\ u <> EmptyString.


(** Every list of the travel history holds keys of [buses], each once. *)
Definition history_ok (st : app_state) : Prop :=
  forall u l, dict_get (user_travel_history st) u = Some l ->
              NoDup l /\ forall b, In b l -> known b = true.

(** The form of a registration or a login. *)
Definition credentials (username password : string) : request :=
  mk_request POST (Form.make (Some username) (Some password) None).

(** The hash of a password is accepted for that password. *)
Definition hashes_verify (B : web) : Prop :=
  forall n p, check_password_hash B (generate_password_hash B n p) p = true.

(** A computation that leaves a part of the state as it was. *)
Definition keeps {X A : Type} (f : app_state -> X) (c : W A) : Prop :=
  forall st, f (snd (c st)) = f st.





(** Collaborators as in [calm], with a table that raises on every
    [put_item]. *)
Definition no_dynamodb : env :=
  mk_env (fun _ => 1735689600%Z) 20 (fun s => s) (fun _ => "?"%string)
         (fun _ _ => Some (ExternalError "ClientError"))
         (fun _ _ _ => None).


(** The calls of a run of [put_item]: the items that were accepted, then
    the one that was refused, if any. *)
Definition puts_then (accepted : list Item.t)
    (refused : option (Item.t * pyexn)) : list call :=
  map (fun it => PutItem it None) accepted
  ++ match refused with
     | Some (it, e) => [PutItem it (Some e)]
     | None => []
     end.

(** The items handed to the table in such a run. *)
Definition handed (accepted : list Item.t)
    (refused : option (Item.t * pyexn)) : list Item.t :=
  accepted ++ match refused with
              | Some (it, _) => [it]
              | None => []
              end.

(** The keys of the records [generate_test_data] writes, in the order of
    the loops: five for each route of the table. *)
Definition test_keys (table : list (string * Bus.t)) : list string :=
  flat_map (fun entry => repeat (fst entry) 5) table.

(** A counting loop that writes one record for each key of [ids], in
    that order, until the table refuses one: it returns the count
    advanced by the number of keys when all were accepted, and raises the
    exception of the table otherwise; it flashes nothing. *)
Definition writes_in_order (ids : list string) (loop : nat -> W nat) : Prop :=
  forall count st,
  exists accepted refused st',
    calls (aws st') = calls (aws st) ++ puts_then accepted refused /\
    flashed st' = flashed st /\
    map Item.BusID (handed accepted refused)
    = map (fun id => Some (VStr id))
          (firstn (List.length (handed accepted refused)) ids) /\
    match refused with
    | None =>
        List.length accepted = List.length ids /\
        loop count st = (inl (count + List.length ids)%nat, st')
    | Some (_, e) =>
        (List.length accepted < List.length ids)%nat /\
        loop count st = (inr e, st')
    end.

(** * Properties *)

(** ** The embedding on concrete inputs *)

Section Checks.

Local Open Scope string_scope.

Example upper_strip_10a : strip (upper "  10a ") = "10A".
Proof. reflexivity. Qed.

Example float_of_text : parse_float " 17.4376 " = Some (Fin 17.4376).
Proof. reflexivity. Qed.

Example float_of_exponent : parse_float "-1_0.5e1" = Some (Fin (-105)).
Proof. reflexivity. Qed.

Example float_of_nan : parse_float "NaN" = Some NaN.
Proof. reflexivity. Qed.

Example float_of_infinity : parse_float " -Infinity" = Some NInf.
Proof. reflexivity. Qed.

Example float_of_word : parse_float "north" = None.
Proof. reflexivity. Qed.

Example float_of_double_underscore : parse_float "1__0" = None.
Proof. reflexivity. Qed.

Example int_of_text : int_literal " -12 " = Some (-12)%Z.
Proof. reflexivity. Qed.

Example epoch_ordinal : ymd2ord 1970 1 1 = 719163%Z.
Proof. reflexivity. Qed.

Example iso_with_offset :
  option_map (int_timestamp (fun s => s))
             (fromisoformat "2024-02-29 12:30:15.500+05:30")
  = Some 1709190015%Z.
Proof. reflexivity. Qed.

Example iso_before_epoch :
  option_map (int_timestamp (fun s => s))
             (fromisoformat "1969-12-31T23:59:59.500+00:00")
  = Some 0%Z.
Proof. reflexivity. Qed.

Example iso_bad_day : fromisoformat "2023-02-29" = None.
Proof. reflexivity. Qed.

Example iso_lower_case_z :
  fromisoformat (replace_char "Z" "+00:00" "2025-01-01T00:00:00z") = None.
Proof. reflexivity. Qed.

Example lookup_10A :
  option_map Bus.route (lookup buses "10A")
  = Some "Secunderabad → Mehdipatnam".
Proof. reflexivity. Qed.

Example lookup_99Z : lookup buses "99Z" = None.
Proof. reflexivity. Qed.

Example min_keeps_first_of_equals :
  py_min snd [("a", Fin 2); ("b", Fin 1); ("c", Fin 1)]%R
  = eret ("b", Fin 1%R).
Proof.
  unfold py_min, eret. simpl. unfold Rltb.
  destruct (Rlt_dec 1 2) as [_|H]; [|exfalso; apply H; lra].
  destruct (Rlt_dec 1 1) as [H|_]; [exfalso; lra|].
  reflexivity.
Qed.

Example min_with_nan_first :
  py_min snd [("a", NaN); ("b", Fin 1%R)] = eret ("a", NaN).
Proof. reflexivity. Qed.

End Checks.

(** ** Comparisons on reals *)

Section RealTests.

Local Open Scope R_scope.

Lemma Rltb_true (x y : R) : x < y -> Rltb x y = true.
Proof. intros H. unfold Rltb. destruct (Rlt_dec x y); [reflexivity | contradiction]. Qed.

Lemma Rltb_false (x y : R) : y <= x -> Rltb x y = false.
Proof. intros H. unfold Rltb. destruct (Rlt_dec x y); [lra | reflexivity]. Qed.

Lemma Rleb_true (x y : R) : x <= y -> Rleb x y = true.
Proof. intros H. unfold Rleb. destruct (Rle_dec x y); [reflexivity | contradiction]. Qed.


Lemma Reqb_false (x y : R) : x <> y -> Reqb x y = false.
Proof. intros H. unfold Reqb. destruct (Req_dec_T x y); [contradiction | reflexivity]. Qed.

End RealTests.

(** ** The haversine distance on real coordinates *)

Section HaversineReal.

Local Open Scope R_scope.

(** The product of the two cosines lies between minus the squared sine
    and the squared cosine of half the difference of the latitudes. *)
Lemma cos_cos_bounds (p q : R) :
  - sin ((q - p) / 2) ^ 2 <= cos p * cos q <= cos ((q - p) / 2) ^ 2.
Proof.
  pose proof (cos_minus q p) as Hm.
  pose proof (cos_plus q p) as Hp.
  pose proof (cos_2a_sin ((q - p) / 2)) as Hs.
  pose proof (cos_2a_cos ((q - p) / 2)) as Hc.
  replace (2 * ((q - p) / 2)) with (q - p) in Hs, Hc by field.
  pose proof (COS_bound (q + p)) as [Hl Hu].
  split; nra.
Qed.

Lemma hav_a_bounds (lat1 lon1 lat2 lon2 : R) :
  0 <= hav_a lat1 lon1 lat2 lon2 <= 1.
Proof.
  unfold hav_a.
  set (k := PI / 180).
  pose proof (cos_cos_bounds (lat1 * k) (lat2 * k)) as [Hl Hu].
  replace ((lat2 * k - lat1 * k) / 2) with ((lat2 + - lat1) * k / 2) in Hl, Hu
    by field.
  set (s := sin ((lat2 + - lat1) * k / 2)) in *.
  set (c := cos ((lat2 + - lat1) * k / 2)) in *.
  set (cc := cos (lat1 * k) * cos (lat2 * k)) in *.
  set (t := sin ((lon2 + - lon1) * k / 2)).
  assert (Hsc : s ^ 2 + c ^ 2 = 1).
  { unfold s, c. pose proof (sin2_cos2 ((lat2 + - lat1) * k / 2)) as H.
    unfold Rsqr in H. lra. }
  assert (Ht : 0 <= t ^ 2 <= 1).
  { unfold t. pose proof (SIN_bound ((lon2 + - lon1) * k / 2)). nra. }
  split; nra.
Qed.

(** On real coordinates [haversine_km] never raises and returns [hav_km]. *)
Lemma haversine_km_fin (lat1 lon1 lat2 lon2 : R) :
  haversine_km (Fin lat1) (Fin lon1) (Fin lat2) (Fin lon2)
  = eret (Fin (hav_km lat1 lon1 lat2 lon2)).
Proof.
  pose proof (hav_a_bounds lat1 lon1 lat2 lon2) as [H0 H1].
  unfold haversine_km, radians, fsub, fneg, fadd, fmul, fdiv.
  rewrite (Reqb_false (x := 2) (y := 0)) by lra.
  unfold ebind, eret, math_sin, math_cos, fsquare, fmul, fadd, eret.
  fold (hav_a lat1 lon1 lat2 lon2).
  unfold math_sqrt.
  rewrite Rltb_false by lra.
  unfold eret, fneg, fadd, math_sqrt.
  rewrite Rltb_false by lra.
  unfold eret, math_atan2, fmul, hav_km.
  reflexivity.
Qed.

End HaversineReal.

(** ** The equations of the pipeline *)

Section Equations.

Variable E : env.

(** [safe_put_item] on an item whose [BusID] is present and not blank. *)
Lemma safe_put_item_eq (it : Item.t) (b : pyval) (w : world) :
  Item.BusID it = Some b ->
  String.eqb (strip (py_str (repr E) b)) EmptyString = false ->
  safe_put_item E it w =
  let (ts0, w1) := item_timestamp E it w in
  match normalize_timestamp E ts0 with
  | inr e => (inr (mk_failure AtTimeStamp e), w1)
  | inl ts =>
      let it' := updated_item E b ts it in
      match table_put_item E (calls w1) it' with
      | None => (inl it', record (PutItem it' None) w1)
      | Some e =>
          (inr (mk_failure AtPutItem e), record (PutItem it' (Some e)) w1)
      end
  end.
Proof.
  intros Hb Hne.
  unfold safe_put_item, item_timestamp, bind.
  rewrite Hb, Hne.
  cbv beta iota delta [ret].
  destruct (Item.TimeStamp it) as [v|];
    [destruct (is_none_or_empty v)|];
    cbv beta iota delta [ret now_ts bind at_site];
    (destruct (normalize_timestamp E _) as [ts|e];
     cbv beta iota delta [ret raise_at put_item]; [|reflexivity]);
    destruct (table_put_item E _ _); reflexivity.
Qed.

(** [safe_put_item] stops before any call when [BusID] is missing or
    blank. *)
Lemma safe_put_item_blank (it : Item.t) (w : world) :
  match Item.BusID it with
  | None => True
  | Some b => String.eqb (strip (py_str (repr E) b)) EmptyString = true
  end ->
  safe_put_item E it w
  = (inr (mk_failure AtBusID (ValueError "Missing BusID")), w).
Proof.
  intros H. unfold safe_put_item, bind.
  destruct (Item.BusID it) as [b|]; [rewrite H|]; reflexivity.
Qed.

(** The statements of [api_track] in order, up to [safe_put_item]. *)
Lemma api_track_eq (data : Report.t) (w : world) :
  api_track E data w =
  match lat_of data with
  | inr e => (Err500 (mk_failure AtLat e), w)
  | inl lat =>
  match lon_of data with
  | inr e => (Err500 (mk_failure AtLon e), w)
  | inl lon =>
  match speed_of E data with
  | inr e => (Err500 (mk_failure AtSpeed e), w)
  | inl speed =>
  match lookup buses (normalized_bus_id E data) with
  | None => (Err400 ("Unknown bus_id " ++ normalized_bus_id E data), tick w)
  | Some bus =>
  match nearest_stop lat lon (Bus.stops bus) with
  | inr e => (Err500 (mk_failure AtResolve e), tick w)
  | inl (next, dist) =>
  match safe_put_item E (track_item E data w lat lon speed bus next dist)
                      (tick w) with
  | (inr f, w') => (Err500 f, w')
  | (inl stored, w') => after_put E data next dist stored w'
  end end end end end end.
Proof.
  unfold api_track, track.
  fold (normalized_bus_id E data) (lat_of data) (lon_of data)
       (speed_of E data) (status_of E data) (radius_of data).
  unfold bind, at_site.
  destruct (lat_of data) as [lat|e]; cbv beta iota delta [ret raise_at];
    [|reflexivity].
  destruct (lon_of data) as [lon|e]; cbv beta iota delta [ret raise_at];
    [|reflexivity].
  destruct (speed_of E data) as [speed|e];
    cbv beta iota delta [ret raise_at now_ts]; [|reflexivity].
  destruct (lookup buses (normalized_bus_id E data)) as [bus|];
    cbv beta iota delta [ret raise_at]; [|reflexivity].
  destruct (nearest_stop lat lon (Bus.stops bus)) as [[next dist]|e];
    cbv beta iota delta [ret raise_at fst snd]; [|reflexivity].
  fold (track_item E data w lat lon speed bus next dist).
  destruct (safe_put_item E _ (tick w)) as [[stored|f] w']; [|reflexivity].
  unfold after_put.
  destruct (radius_of data) as [radius|e]; cbv beta iota; [|reflexivity].
  destruct (fle dist radius); cbv beta iota; [|reflexivity].
  destruct (format_ts _) as [when|e]; cbv beta iota; [|reflexivity].
  unfold sns_publish, alert_subject, alert_of. cbv beta zeta.
  destruct (sns_client_publish E _ _ _); reflexivity.
Qed.

End Equations.

(** ** [min] returns the first least element *)

Section MinSpec.

Variable A : Type.
Variable key : A -> pyfloat.
Variable keyR : A -> R.

Local Open Scope R_scope.

Lemma min_from_split (rest : list A) :
  forall best : A,
    (forall x, In x (best :: rest) -> key x = Fin (keyR x)) ->
    exists pre post : list A,
      best :: rest = pre ++ min_from key best rest :: post /\
      (forall x, In x pre -> keyR (min_from key best rest) < keyR x) /\
      (forall x, In x post -> keyR (min_from key best rest) <= keyR x).
Proof.
  induction rest as [|x rest IH]; intros best Hfin.
  - exists [], []. simpl. repeat split; intros y []. 
  - simpl min_from.
    rewrite (Hfin x), (Hfin best) by (simpl; auto).
    unfold flt, Rltb.
    destruct (Rlt_dec (keyR x) (keyR best)) as [Hlt|Hge].
    + destruct (IH x) as (pre & post & Heq & Hpre & Hpost).
      { intros y Hy. apply Hfin. right. exact Hy. }
      exists (best :: pre), post. split; [|split].
      * simpl. rewrite <- Heq. reflexivity.
      * intros y [<-|Hy]; [|auto].
        destruct pre as [|p pre].
        -- simpl in Heq. injection Heq as Hm _. rewrite <- Hm. exact Hlt.
        -- simpl in Heq. injection Heq as Hp _. subst p.
           apply Rlt_trans with (keyR x); [|exact Hlt].
           apply Hpre. left. reflexivity.
      * exact Hpost.
    + destruct (IH best) as (pre & post & Heq & Hpre & Hpost).
      { intros y [<-|Hy]; apply Hfin; simpl; auto. }
      destruct pre as [|p pre].
      * simpl in Heq. injection Heq as Hm Hr.
        exists [], (x :: post). split; [|split].
        -- simpl. rewrite <- Hm, <- Hr. reflexivity.
        -- intros y [].
        -- intros y [<-|Hy]; [|auto]. rewrite <- Hm. lra.
      * simpl in Heq. injection Heq as Hp Hr. subst p.
        exists (best :: x :: pre), post. split; [|split].
        -- simpl. do 2 f_equal. exact Hr.
        -- intros y [<-|[<-|Hy]].
           ++ apply Hpre. left. reflexivity.
           ++ assert (keyR (min_from key best rest) < keyR best)
                by (apply Hpre; left; reflexivity).
              lra.
           ++ apply Hpre. right. exact Hy.
        -- exact Hpost.
Qed.

End MinSpec.

(** ** The nearest stop of a route with real coordinates *)

Section NearestStop.

Local Open Scope R_scope.

Variables lat lon : R.

Lemma haversine_km_stop (s : Stop.t) :
  finite_stop s ->
  haversine_km (Fin lat) (Fin lon) (Stop.lat s) (Stop.lon s)
  = eret (Fin (stop_km lat lon s)).
Proof.
  intros (a & b & Ha & Hb). unfold stop_km. rewrite Ha, Hb.
  apply haversine_km_fin.
Qed.

Lemma dists_fin (stops : list Stop.t) :
  Forall finite_stop stops ->
  comprehension (dist_to (Fin lat) (Fin lon)) stops
  = eret (map (fun s => (Stop.name s, Fin (stop_km lat lon s))) stops).
Proof.
  induction 1 as [|s stops Hs _ IH]; [reflexivity|].
  simpl. unfold dist_to at 1. rewrite (haversine_km_stop Hs), IH. reflexivity.
Qed.

(** On a route of stops with real coordinates, [nearest_stop] returns the
    name and the distance of the first nearest stop. *)
Lemma nearest_stop_spec (stops : list Stop.t) :
  Forall finite_stop stops -> stops <> [] ->
  exists s : Stop.t,
    first_nearest lat lon stops s /\
    nearest_stop (Fin lat) (Fin lon) stops
    = eret (Stop.name s, Fin (stop_km lat lon s)).
Proof.
  intros Hfin Hne. unfold nearest_stop. rewrite (dists_fin Hfin).
  destruct stops as [|s0 rest]; [congruence|].
  set (f := fun s => (Stop.name s, Fin (stop_km lat lon s))).
  simpl map. unfold ebind, eret, py_min.
  destruct (@min_from_split (string * pyfloat) snd
              (fun p => match snd p with Fin r => r | _ => 0 end)
              (map f rest) (f s0))
    as (pre & post & Heq & Hpre & Hpost).
  { intros x Hx. change (f s0 :: map f rest) with (map f (s0 :: rest)) in Hx.
    apply in_map_iff in Hx. destruct Hx as (s & <- & _). reflexivity. }
  change (f s0 :: map f rest) with (map f (s0 :: rest)) in Heq.
  apply map_eq_app in Heq. destruct Heq as (pre' & tl & Hsplit & Hpre' & Htl).
  apply map_eq_cons in Htl. destruct Htl as (s & post' & -> & Hs & Hpost').
  exists s. split.
  - exists pre', post'. split; [exact Hsplit|]. rewrite <- Hs in Hpre, Hpost.
    split; intros x Hx.
    + apply (Hpre (f x)). rewrite <- Hpre'. apply in_map. exact Hx.
    + apply (Hpost (f x)). rewrite <- Hpost'. apply in_map. exact Hx.
  - rewrite <- Hs. reflexivity.
Qed.

End NearestStop.

(** ** The route table *)

Section CatalogFacts.

Local Open Scope string_scope.

Lemma lookup_In (table : list (string * Bus.t)) (id : string) (bus : Bus.t) :
  lookup table id = Some bus -> In (id, bus) table.
Proof.
  induction table as [|[k b] table IH]; simpl; [discriminate|].
  destruct (String.eqb k id) eqn:Hk.
  - apply String.eqb_eq in Hk. intros [= ->]. left. congruence.
  - intros H. right. apply IH, H.
Qed.

(** The keys of [buses] are not blank and are in upper case; every route
    has stops, all with real coordinates. *)
Lemma buses_entry (id : string) (bus : Bus.t) :
  lookup buses id = Some bus ->
  strip id = id /\ upper id = id /\ id <> EmptyString /\
  Forall finite_stop (Bus.stops bus) /\ Bus.stops bus <> [].
Proof.
  intros H. apply lookup_In in H. unfold buses in H. simpl in H.
  destruct H as [H|[H|[H|[]]]]; injection H as <- <-;
    (split; [reflexivity|]); (split; [reflexivity|]);
    (split; [discriminate|]); (split; [|discriminate]);
    simpl; repeat constructor; unfold finite_stop; simpl; eauto.
Qed.

End CatalogFacts.

(** ** What each outcome of [api_track] says about the request *)

Section Outcomes.

Variable E : env.

Lemma item_timestamp_track (data : Report.t) (w : world)
    (lat lon speed : pyfloat) (bus : Bus.t) (next : string) (dist : pyfloat) :
  fst (item_timestamp E (track_item E data w lat lon speed bus next dist)
                      (tick w)) = raw_timestamp E data w /\
  calls (snd (item_timestamp E (track_item E data w lat lon speed bus next dist)
                             (tick w))) = calls w.
Proof.
  unfold item_timestamp, raw_timestamp, track_item. simpl.
  destruct (Report.timestamp data) as [v|]; simpl.
  - destruct (is_none_or_empty v); simpl; auto.
  - auto.
Qed.

End Outcomes.

Section Run.

Variable E : env.

Lemma skipn_new (l tail : list call) :
  skipn (List.length l) (l ++ tail) = tail.
Proof.
  rewrite skipn_app, skipn_all, Nat.sub_diag. reflexivity.
Qed.

(** Every request runs as one of the outcomes, and only adds calls. *)
Lemma api_track_outcome (data : Report.t) (w : world) :
  outcome E data w (fst (api_track E data w)) (new_calls E data w) /\
  calls (snd (api_track E data w)) = calls w ++ new_calls E data w.
Proof.
  assert (Hgen : forall r tail,
             fst (api_track E data w) = r ->
             calls (snd (api_track E data w)) = calls w ++ tail ->
             outcome E data w r tail ->
             outcome E data w (fst (api_track E data w)) (new_calls E data w)
             /\ calls (snd (api_track E data w))
                = calls w ++ new_calls E data w).
  { intros r tail Hr Hc Ho. unfold new_calls. rewrite Hc, skipn_new, Hr.
    auto. }
  pose proof (api_track_eq E data w) as Heq.
  destruct (lat_of data) as [lat|e] eqn:Hlat.
  2:{ rewrite Heq in *. eapply Hgen with (tail := []); simpl;
      [reflexivity | now rewrite app_nil_r | eapply out_lat; eauto]. }
  destruct (lon_of data) as [lon|e] eqn:Hlon.
  2:{ rewrite Heq in *. eapply Hgen with (tail := []); simpl;
      [reflexivity | now rewrite app_nil_r | eapply out_lon; eauto]. }
  destruct (speed_of E data) as [speed|e] eqn:Hspeed.
  2:{ rewrite Heq in *. eapply Hgen with (tail := []); simpl;
      [reflexivity | now rewrite app_nil_r | eapply out_speed; eauto]. }
  assert (Hparsed : parsed E data lat lon speed) by (unfold parsed; auto).
  destruct (lookup buses (normalized_bus_id E data)) as [bus|] eqn:Hbus.
  2:{ rewrite Heq in *. eapply Hgen with (tail := []); simpl;
      [reflexivity | now rewrite app_nil_r | eapply out_unknown; eauto]. }
  destruct (nearest_stop lat lon (Bus.stops bus)) as [[next dist]|e] eqn:Hnear.
  2:{ rewrite Heq in *. eapply Hgen with (tail := []); simpl;
      [reflexivity | now rewrite app_nil_r | eapply out_resolve; eauto]. }
  assert (Hres : resolved E data lat lon speed bus next dist)
    by (unfold resolved; auto).
  destruct (buses_entry _ Hbus) as (Hstrip & _ & Hne & _).
  set (it := track_item E data w lat lon speed bus next dist) in *.
  assert (Hput := @safe_put_item_eq E it (VStr (normalized_bus_id E data))
                    (tick w) eq_refl).
  simpl py_str in Hput. rewrite Hstrip in Hput.
  specialize (Hput (proj2 (String.eqb_neq _ _) Hne)).
  destruct (item_timestamp_track E data w lat lon speed bus next dist)
    as [Hts Hcalls]. fold it in Hts, Hcalls.
  destruct (item_timestamp E it (tick w)) as [ts0 w1].
  simpl in Hts, Hcalls. subst ts0.
  rewrite Hput in Heq. clear Hput.
  destruct (normalize_timestamp E (raw_timestamp E data w)) as [ts|e] eqn:Hn.
  2:{ rewrite Heq in *. eapply Hgen with (tail := []); simpl;
      [reflexivity | now rewrite app_nil_r | eapply out_timestamp; eauto]. }
  cbv zeta in Heq. rewrite Hcalls in Heq. subst it.
  fold (stored_item E data w lat lon speed bus next dist ts) in Heq.
  set (stored := stored_item E data w lat lon speed bus next dist ts) in *.
  destruct (table_put_item E (calls w) stored) as [e|] eqn:Hp.
  { rewrite Heq in *.
    eapply Hgen with (tail := [PutItem stored (Some e)]); simpl;
      [reflexivity | now rewrite Hcalls | eapply out_put; eauto]. }
  unfold after_put in Heq.
  assert (Hrec : calls (record (PutItem stored None) w1)
                 = calls w ++ [PutItem stored None])
    by (simpl; now rewrite Hcalls).
  destruct (radius_of data) as [radius|e] eqn:Hr.
  2:{ rewrite Heq in *.
      eapply Hgen with (tail := [PutItem stored None]); simpl;
        [reflexivity | now rewrite Hcalls | eapply out_radius; eauto]. }
  destruct (fle dist radius) eqn:Hle.
  2:{ rewrite Heq in *.
      eapply Hgen with (tail := [PutItem stored None]); simpl;
        [reflexivity | now rewrite Hcalls | eapply out_far; eauto]. }
  change (get (Item.TimeStamp stored) VNone) with (VInt ts) in Heq.
  destruct (format_ts (VInt ts)) as [when|e] eqn:Hf.
  2:{ rewrite Heq in *.
      eapply Hgen with (tail := [PutItem stored None]); simpl;
        [reflexivity | now rewrite Hcalls | eapply out_format; eauto]. }
  cbv zeta in Heq. rewrite Hrec in Heq.
  destruct (sns_client_publish E _ _ _) as [e|] eqn:Hs; rewrite Heq in *.
  - eapply Hgen; simpl;
      [reflexivity | rewrite Hcalls, <- app_assoc; reflexivity
      | eapply out_publish; eauto].
  - eapply Hgen; simpl;
      [reflexivity | rewrite Hcalls, <- app_assoc; reflexivity
      | eapply out_alert; eauto].
Qed.

End Run.

(** ** Geometry of [hav_km] *)

Section Geometry.

Local Open Scope R_scope.

Lemma PI_bounds : 3.1415 < PI < 3.1421.
Proof.
  pose proof (PI_2_3_7_ineq 1) as [Hl Hu].
  unfold sum_f_R0, tg_alt, PI_2_3_7_tg, Ratan_seq in Hl, Hu.
  simpl in Hl, Hu.
  split; lra.
Qed.

(** The angle whose squared sine is [a]. *)
Lemma arc_of_sin (u : R) :
  0 <= u < PI / 2 ->
  Ratan2 (sqrt (sin u ^ 2)) (sqrt (1 - sin u ^ 2)) = u.
Proof.
  intros [H0 H1].
  assert (Hs : 0 <= sin u) by (apply sin_ge_0; lra).
  assert (Hc : 0 < cos u) by (apply cos_gt_0; lra).
  rewrite sqrt_pow2 by exact Hs.
  replace (1 - sin u ^ 2) with (cos u ^ 2).
  2:{ pose proof (sin2_cos2 u) as H. unfold Rsqr in H. lra. }
  rewrite sqrt_pow2 by lra.
  unfold Ratan2. rewrite Rltb_true by exact Hc.
  change (sin u / cos u) with (tan u).
  apply atan_tan. lra.
Qed.

(** The angle grows with its squared sine. *)
Lemma arc_increasing (a b : R) :
  0 <= a -> a < b -> b <= 1 ->
  Ratan2 (sqrt a) (sqrt (1 - a)) < Ratan2 (sqrt b) (sqrt (1 - b)).
Proof.
  intros Ha Hab Hb.
  assert (Hsa : 0 < sqrt (1 - a)) by (apply sqrt_lt_R0; lra).
  assert (Hab' : sqrt a < sqrt b) by (apply sqrt_lt_1; lra).
  pose proof (sqrt_pos a) as Hpa.
  unfold Ratan2 at 1. rewrite Rltb_true by exact Hsa.
  destruct (Req_dec b 1) as [->|Hb1].
  - replace (1 - 1) with 0 by ring. rewrite sqrt_0, sqrt_1.
    unfold Ratan2. rewrite !Rltb_false by lra. rewrite Rltb_true by lra.
    pose proof (atan_bound (sqrt a / sqrt (1 - a))). lra.
  - assert (Hsb : 0 < sqrt (1 - b)) by (apply sqrt_lt_R0; lra).
    assert (Hba : sqrt (1 - b) < sqrt (1 - a)) by (apply sqrt_lt_1; lra).
    unfold Ratan2. rewrite Rltb_true by exact Hsb.
    apply atan_increasing.
    apply Rlt_le_trans with (sqrt b / sqrt (1 - a)).
    + apply Rmult_lt_compat_r; [apply Rinv_0_lt_compat; lra | exact Hab'].
    + apply Rmult_le_compat_l; [lra|].
      apply Rinv_le_contravar; lra.
Qed.

Lemma hav_km_increasing (a1 b1 c1 d1 a2 b2 c2 d2 : R) :
  hav_a a1 b1 c1 d1 < hav_a a2 b2 c2 d2 ->
  hav_km a1 b1 c1 d1 < hav_km a2 b2 c2 d2.
Proof.
  intros H. unfold hav_km. cbv zeta.
  pose proof (hav_a_bounds a1 b1 c1 d1) as [H1 _].
  pose proof (hav_a_bounds a2 b2 c2 d2) as [_ H2].
  pose proof (arc_increasing H1 H H2). lra.
Qed.

Lemma hav_km_nonneg (lat1 lon1 lat2 lon2 : R) :
  0 <= hav_km lat1 lon1 lat2 lon2.
Proof.
  unfold hav_km. cbv zeta.
  pose proof (hav_a_bounds lat1 lon1 lat2 lon2) as [H0 H1].
  set (a := hav_a lat1 lon1 lat2 lon2) in *.
  assert (0 <= Ratan2 (sqrt a) (sqrt (1 - a))).
  { destruct (Req_dec a 0) as [->|Ha].
    - replace (1 - 0) with 1 by ring. rewrite sqrt_0, sqrt_1.
      unfold Ratan2. rewrite Rltb_true by lra.
      replace (0 / 1) with 0 by field. rewrite atan_0. lra.
    - assert (H := @arc_increasing 0 a (Rle_refl 0)).
      replace (1 - 0) with 1 in H by ring. rewrite sqrt_0, sqrt_1 in H.
      unfold Ratan2 at 1 in H. rewrite Rltb_true in H by lra.
      replace (0 / 1) with 0 in H by field. rewrite atan_0 in H.
      assert (0 < a) by lra. specialize (H H2 H1). lra. }
  lra.
Qed.

(** On one meridian the distance is the arc between the latitudes. *)
Lemma hav_a_same_lon (lat1 lat2 lon : R) :
  hav_a lat1 lon lat2 lon = sin ((lat2 + - lat1) * (PI / 180) / 2) ^ 2.
Proof.
  unfold hav_a. replace ((lon + - lon) * (PI / 180) / 2) with 0 by field.
  rewrite sin_0. ring.
Qed.

Lemma sin_sqr_opp (x : R) : sin (- x) ^ 2 = sin x ^ 2.
Proof. rewrite sin_neg. ring. Qed.

Lemma sin_sqr_abs (x : R) : sin x ^ 2 = sin (Rabs x) ^ 2.
Proof.
  unfold Rabs. destruct (Rcase_abs x); [now rewrite sin_sqr_opp | reflexivity].
Qed.

Lemma sin_sqr_increasing (x y : R) :
  0 <= x -> x < y -> y <= PI / 2 -> sin x ^ 2 < sin y ^ 2.
Proof.
  intros Hx Hxy Hy.
  pose proof PI_bounds as [Hp _].
  assert (sin x < sin y) by (apply sin_increasing_1; lra).
  assert (0 <= sin x) by (apply sin_ge_0; lra).
  nra.
Qed.

Lemma hav_km_same_lon (lat1 lat2 lon : R) :
  Rabs (lat2 - lat1) < 180 ->
  hav_km lat1 lon lat2 lon = 6371 * (Rabs (lat2 - lat1) * (PI / 180)).
Proof.
  intros Hd. unfold hav_km. cbv zeta. rewrite hav_a_same_lon.
  pose proof PI_bounds as [Hp _].
  pose proof (Rabs_pos (lat2 - lat1)) as Hpos.
  rewrite sin_sqr_abs.
  replace (Rabs ((lat2 + - lat1) * (PI / 180) / 2))
    with (Rabs (lat2 - lat1) * (PI / 180) / 2).
  2:{ unfold Rdiv. rewrite !Rabs_mult.
      rewrite (Rabs_pos_eq PI), (Rabs_pos_eq (/ 180)), (Rabs_pos_eq (/ 2))
        by lra.
      reflexivity. }
  rewrite arc_of_sin by (split; nra).
  field.
Qed.

(** A stop on the meridian of the position is nearer than any stop whose
    latitude is farther away. *)
Lemma nearer_on_meridian (lat lon t_lat s_lat s_lon : R) :
  Rabs lat < 90 -> Rabs s_lat < 90 ->
  Rabs (t_lat - lat) < Rabs (s_lat - lat) ->
  hav_km lat lon t_lat lon < hav_km lat lon s_lat s_lon.
Proof.
  intros Hlat Hs Hgap.
  pose proof PI_bounds as [Hp _].
  apply hav_km_increasing. rewrite hav_a_same_lon.
  assert (Hs180 : Rabs (s_lat - lat) < 180).
  { unfold Rabs in *.
    destruct (Rcase_abs lat), (Rcase_abs s_lat), (Rcase_abs (s_lat - lat));
      lra. }
  pose proof (Rabs_pos (t_lat - lat)) as Ht0.
  apply Rlt_le_trans with (sin ((s_lat + - lat) * (PI / 180) / 2) ^ 2).
  - rewrite (sin_sqr_abs ((t_lat + - lat) * (PI / 180) / 2)).
    rewrite (sin_sqr_abs ((s_lat + - lat) * (PI / 180) / 2)).
    assert (Habs : forall d, Rabs ((d + - lat) * (PI / 180) / 2)
                             = Rabs (d - lat) * (PI / 180) / 2).
    { intros d. unfold Rdiv. rewrite !Rabs_mult.
      rewrite (Rabs_pos_eq PI), (Rabs_pos_eq (/ 180)), (Rabs_pos_eq (/ 2))
        by lra.
      reflexivity. }
    rewrite !Habs. apply sin_sqr_increasing; nra.
  - unfold hav_a.
    assert (0 < cos (lat * (PI / 180))).
    { apply cos_gt_0; unfold Rabs in Hlat; destruct (Rcase_abs lat); nra. }
    assert (0 < cos (s_lat * (PI / 180))).
    { apply cos_gt_0; unfold Rabs in Hs; destruct (Rcase_abs s_lat); nra. }
    assert (0 <= sin ((s_lon + - lon) * (PI / 180) / 2) ^ 2)
      by (apply pow2_ge_0).
    assert (0 <= cos (lat * (PI / 180)) * cos (s_lat * (PI / 180))
                 * sin ((s_lon + - lon) * (PI / 180) / 2) ^ 2).
    { apply Rmult_le_pos; [apply Rmult_le_pos; lra | assumption]. }
    lra.
Qed.

End Geometry.

(** ** The outcome of a request is determined *)

Ltac same :=
  repeat match goal with
  | H : parsed _ _ _ _ _ |- _ => destruct H as (? & ? & ?)
  | H : resolved _ _ _ _ _ _ _ _ |- _ => destruct H as (? & ? & ?)
  | H1 : ?x = inl _, H2 : ?x = inl _ |- _ =>
      rewrite H1 in H2; injection H2 as H2; subst
  | H1 : ?x = inl _, H2 : ?x = inr _ |- _ => rewrite H1 in H2; discriminate
  | H1 : ?x = inr _, H2 : ?x = inr _ |- _ =>
      rewrite H1 in H2; injection H2 as H2; subst
  | H1 : ?x = Some _, H2 : ?x = Some _ |- _ =>
      rewrite H1 in H2; injection H2 as H2; subst
  | H1 : ?x = Some _, H2 : ?x = None |- _ => rewrite H1 in H2; discriminate
  | H1 : ?x = true, H2 : ?x = false |- _ => rewrite H1 in H2; discriminate
  end.

Section Determined.

Variable E : env.
Variable data : Report.t.
Variable w : world.

Lemma outcome_functional (r1 r2 : response) (t1 t2 : list call) :
  outcome E data w r1 t1 -> outcome E data w r2 t2 -> r1 = r2 /\ t1 = t2.
Proof.
  intros H1 H2.
  destruct H1; destruct H2;
    repeat match goal with x := _ |- _ => subst x end;
    same; split; reflexivity.
Qed.

(** A request that fits an outcome gives its response and its calls. *)
Lemma api_track_run (r : response) (tail : list call) :
  outcome E data w r tail ->
  fst (api_track E data w) = r /\ new_calls E data w = tail.
Proof.
  intros H. destruct (api_track_outcome E data w) as [Ho _].
  apply (outcome_functional Ho H).
Qed.

End Determined.

(** ** [haversine_km] on extended floats *)

Section HaversineExtended.

Local Open Scope R_scope.

Lemma radians_inf_pos : radians PInf = PInf.
Proof.
  pose proof PI_bounds as [Hp _].
  unfold radians, fmul, inf_times.
  rewrite Reqb_false by lra. rewrite Rltb_true by lra. reflexivity.
Qed.

Lemma radians_inf_neg : radians NInf = NInf.
Proof.
  pose proof PI_bounds as [Hp _].
  unfold radians, fmul, inf_times.
  rewrite Reqb_false by lra. rewrite Rltb_true by lra. reflexivity.
Qed.

Lemma half_fin (x : R) : fdiv (Fin x) (Fin 2) = eret (Fin (x / 2)).
Proof. unfold fdiv. rewrite Reqb_false by lra. reflexivity. Qed.

Lemma half_nan : fdiv NaN (Fin 2) = eret NaN.
Proof. unfold fdiv. rewrite Reqb_false by lra. reflexivity. Qed.

Lemma half_pinf : fdiv PInf (Fin 2) = eret PInf.
Proof.
  unfold fdiv. rewrite Reqb_false by lra. rewrite Rltb_true by lra.
  reflexivity.
Qed.

Lemma half_ninf : fdiv NInf (Fin 2) = eret NInf.
Proof.
  unfold fdiv. rewrite Reqb_false by lra. rewrite Rltb_true by lra.
  reflexivity.
Qed.

(** The distance to a stop with real coordinates: a real distance from a
    real position, NaN from a position with a NaN and no infinity, and a
    domain error from a position with an infinity. *)
Lemma haversine_km_value (lat lon : pyfloat) (a b : R) :
  match haversine_km lat lon (Fin a) (Fin b) with
  | inl d =>
      match lat, lon with
      | Fin x, Fin y => d = Fin (hav_km x y a b)
      | Fin _, NaN | NaN, Fin _ | NaN, NaN => d = NaN
      | _, _ => False
      end
  | inr e =>
      e = domain_error /\
      (lat = PInf \/ lat = NInf \/ lon = PInf \/ lon = NInf)
  end.
Proof.
  destruct lat as [x| | |], lon as [y| | |];
    try (rewrite haversine_km_fin; reflexivity);
    unfold haversine_km; cbv zeta;
    unfold fsub, fneg, fadd;
    rewrite ?radians_inf_pos, ?radians_inf_neg;
    change (radians NaN) with NaN;
    change (radians (Fin ?z)) with (Fin (z * (PI / 180)));
    rewrite ?half_fin, ?half_nan, ?half_pinf, ?half_ninf;
    simpl; auto 6.
Qed.

End HaversineExtended.

(** ** The nearest stop, for every position *)

Section NearestStopExtended.

Local Open Scope R_scope.

Lemma min_from_In (A : Type) (key : A -> pyfloat) (rest : list A) :
  forall best, In (min_from key best rest) (best :: rest).
Proof.
  induction rest as [|x rest IH]; intros best; simpl.
  - left. reflexivity.
  - destruct (flt (key x) (key best)).
    + right. apply IH.
    + destruct (IH best) as [H|H]; [left; exact H | right; right; exact H].
Qed.

Lemma comprehension_In (A B : Type) (f : A -> exc B) (l : list A) :
  forall ys, comprehension f l = inl ys ->
  forall y, In y ys -> exists x, In x l /\ f x = inl y.
Proof.
  induction l as [|x l IH]; simpl; intros ys H y Hy.
  - injection H as <-. destruct Hy.
  - unfold ebind, eret in H.
    destruct (f x) as [b|e] eqn:Hfx; [|discriminate].
    destruct (comprehension f l) as [bs|e] eqn:Hl; [|discriminate].
    injection H as <-. destruct Hy as [<-|Hy].
    + exists x. auto.
    + destruct (IH bs eq_refl y Hy) as (x' & Hx' & Hf). exists x'. auto.
Qed.

(** What [nearest_stop] returns is the name of a stop of the route and
    its distance. *)
Lemma nearest_stop_In (lat lon : pyfloat) (stops : list Stop.t)
    (next : string) (dist : pyfloat) :
  nearest_stop lat lon stops = inl (next, dist) ->
  exists s, In s stops /\ next = Stop.name s /\
            haversine_km lat lon (Stop.lat s) (Stop.lon s) = inl dist.
Proof.
  unfold nearest_stop, ebind. intros H.
  destruct (comprehension (dist_to lat lon) stops) as [ds|e] eqn:Hc;
    [|discriminate].
  destruct ds as [|d ds]; [discriminate|].
  simpl in H. injection H as H.
  pose proof (min_from_In snd ds d) as Hin. rewrite H in Hin.
  destruct (comprehension_In _ _ Hc _ Hin) as (s & Hs & Hf).
  exists s. split; [exact Hs|]. unfold dist_to, ebind, eret in Hf.
  destruct (haversine_km lat lon (Stop.lat s) (Stop.lon s)); [|discriminate].
  injection Hf as -> ->. auto.
Qed.

(** The distance [nearest_stop] returns is a real number that is not
    negative, or NaN when the position holds a NaN. *)
Lemma nearest_stop_distance (lat lon : pyfloat) (stops : list Stop.t)
    (next : string) (dist : pyfloat) :
  Forall finite_stop stops ->
  nearest_stop lat lon stops = inl (next, dist) ->
  (exists r, dist = Fin r /\ 0 <= r /\
             exists x y, lat = Fin x /\ lon = Fin y) \/
  (dist = NaN /\ (lat = NaN \/ lon = NaN)).
Proof.
  intros Hfin H.
  destruct (nearest_stop_In _ _ _ H) as (s & Hs & _ & Hd).
  rewrite Forall_forall in Hfin.
  destruct (Hfin s Hs) as (a & b & Ha & Hb). rewrite Ha, Hb in Hd.
  pose proof (haversine_km_value lat lon a b) as Hv. rewrite Hd in Hv.
  destruct lat as [x| | |], lon as [y| | |]; try contradiction; subst dist;
    try (right; auto; fail).
  left. eexists. split; [reflexivity|]. split; [apply hav_km_nonneg|eauto].
Qed.


Lemma first_nearest_unique (lat lon : R) (stops : list Stop.t)
    (s t : Stop.t) :
  first_nearest lat lon stops s ->
  In t stops ->
  (forall x, In x stops -> stop_km lat lon t <= stop_km lat lon x) ->
  (forall x, In x stops -> stop_km lat lon x <= stop_km lat lon t -> x = t) ->
  s = t.
Proof.
  intros (pre & post & Heq & Hpre & Hpost) Ht Hmin Huniq.
  assert (Hs : In s stops) by (rewrite Heq; apply in_elt).
  rewrite Heq in Ht. apply in_app_or in Ht. destruct Ht as [Ht|[Ht|Ht]].
  - specialize (Hpre t Ht). specialize (Hmin s Hs). lra.
  - exact Ht.
  - apply Huniq; [exact Hs|]. apply Hpost, Ht.
Qed.

End NearestStopExtended.

(** ** The report near Ameerpet *)

Section NearAmeerpet.

Local Open Scope R_scope.
Local Open Scope string_scope.

Lemma ameerpet_km_value : ameerpet_km = 6371 * (0.0001 * (PI / 180)).
Proof.
  unfold ameerpet_km. rewrite hav_km_same_lon.
  - replace (Rabs (17.4375 - 17.4376)) with 0.0001; [reflexivity|].
    unfold Rabs. destruct (Rcase_abs _); lra.
  - unfold Rabs. destruct (Rcase_abs _); lra.
Qed.

Lemma ameerpet_km_bounds : 0.0111 < ameerpet_km < 0.0112.
Proof.
  rewrite ameerpet_km_value. pose proof PI_bounds. lra.
Qed.

Lemma ameerpet_nearer (s_lat s_lon : R) :
  Rabs s_lat < 90 -> 0.0001 < Rabs (s_lat - 17.4376) ->
  ameerpet_km < hav_km 17.4376 78.4483 s_lat s_lon.
Proof.
  intros Hs Hgap. unfold ameerpet_km. apply nearer_on_meridian.
  - unfold Rabs. destruct (Rcase_abs _); lra.
  - exact Hs.
  - replace (Rabs (17.4375 - 17.4376)) with 0.0001; [exact Hgap|].
    unfold Rabs. destruct (Rcase_abs _); lra.
Qed.

Lemma ameerpet_is_nearest :
  nearest_stop (Fin 17.4376) (Fin 78.4483) (Bus.stops route_10A)
  = eret ("Ameerpet", Fin ameerpet_km).
Proof.
  assert (Hfin : Forall finite_stop (Bus.stops route_10A)).
  { simpl. repeat constructor; unfold finite_stop; simpl; eauto. }
  destruct (nearest_stop_spec 17.4376 78.4483 Hfin) as (s & Hs & Heq);
    [discriminate|].
  assert (Hothers :
    forall x, In x (Bus.stops route_10A) -> x <> ameerpet ->
              ameerpet_km < stop_km 17.4376 78.4483 x).
  { intros x Hx Hne. simpl in Hx.
    destruct Hx as [<-|[<-|[<-|[<-|[<-|[]]]]]];
      try (exfalso; apply Hne; reflexivity);
      unfold stop_km; simpl; apply ameerpet_nearer;
      unfold Rabs; destruct (Rcase_abs _); lra. }
  assert (Hsame : s = ameerpet).
  { apply (first_nearest_unique Hs).
    - simpl. auto.
    - intros x Hx. simpl in Hx.
      change (stop_km 17.4376 78.4483 ameerpet) with ameerpet_km.
      destruct Hx as [<-|[<-|[<-|[<-|[<-|[]]]]]];
        try (apply Rlt_le, Hothers; [simpl; auto 6 | discriminate]).
      apply Rle_refl.
    - intros x Hx Hle.
      change (stop_km 17.4376 78.4483 ameerpet) with ameerpet_km in Hle.
      simpl in Hx.
      destruct Hx as [<-|[<-|[<-|[<-|[<-|[]]]]]];
        try reflexivity;
        exfalso;
        match type of Hle with
        | stop_km _ _ ?x <= _ =>
            assert (ameerpet_km < stop_km 17.4376 78.4483 x)
              by (apply Hothers; [simpl; auto 6 | discriminate])
        end; lra. }
  rewrite Heq, Hsame. reflexivity.
Qed.

End NearAmeerpet.

(** ** Running the report near Ameerpet *)

Section NearAmeerpetRuns.

Local Open Scope string_scope.

Variable E : env.

Lemma near_ameerpet_resolved (ts radius : option pyval) :
  resolved E (near_ameerpet ts radius)
           (Fin 17.4376) (Fin 78.4483) (Fin (uniform_10_35 E))
           route_10A "Ameerpet" (Fin ameerpet_km).
Proof.
  split; [|split].
  - repeat split; reflexivity.
  - reflexivity.
  - apply ameerpet_is_nearest.
Qed.

Lemma ameerpet_within_half : fle (Fin ameerpet_km) (Fin 0.5) = true.
Proof.
  unfold fle. apply Rleb_true. pose proof ameerpet_km_bounds. lra.
Qed.

Lemma format_ts_int (n : Z) :
  (-62135596800 <= n < 253402300800)%Z -> format_ts (VInt n) = inl n.
Proof.
  intros [Hl Hu]. unfold format_ts, py_float, ebind, eret.
  rewrite Rleb_true by (apply IZR_le; exact Hl).
  rewrite Rltb_true by (apply IZR_lt; exact Hu).
  simpl. f_equal. symmetry. apply Int_part_spec. lra.
Qed.

(** The report of the scenario, when DynamoDB and SNS accept the calls
    and the clock shows a date [format_ts] can render. *)
Lemma scenario_run (w : world) :
  let now := clock E (reads w) in
  let stored :=
    stored_item E scenario w (Fin 17.4376) (Fin 78.4483)
                (Fin (uniform_10_35 E)) route_10A "Ameerpet"
                (Fin ameerpet_km) now in
  let message := mk_alert "10A" "Ameerpet" (Fin ameerpet_km) now in
  (-62135596800 <= now < 253402300800)%Z ->
  table_put_item E (calls w) stored = None ->
  sns_client_publish E (calls w ++ [PutItem stored None])
                     "Bus 10A nearing Ameerpet" message = None ->
  fst (api_track E scenario w) = Ok200 stored /\
  new_calls E scenario w
  = [PutItem stored None; Publish "Bus 10A nearing Ameerpet" message None].
Proof.
  intros now stored message Hnow Hput Hpub.
  apply api_track_run.
  eapply (@out_alert E scenario w _ _ _ _ _ _ now (Fin 0.5) now).
  - apply near_ameerpet_resolved.
  - reflexivity.
  - exact Hput.
  - reflexivity.
  - apply ameerpet_within_half.
  - apply format_ts_int, Hnow.
  - exact Hpub.
Qed.

End NearAmeerpetRuns.

(** The scenario with collaborators that accept every call. *)
Lemma calm_scenario :
  fst (api_track calm scenario idle) = Ok200 scenario_item /\
  new_calls calm scenario idle
  = [PutItem scenario_item None;
     Publish "Bus 10A nearing Ameerpet"
             (mk_alert "10A" "Ameerpet" (Fin ameerpet_km) 1735689600) None].
Proof.
  apply (scenario_run calm idle); [simpl; lia | reflexivity | reflexivity].
Qed.

(** ** Successful requests *)

Section Success.

Variable E : env.
Variable data : Report.t.
Variable w : world.

(** A request answered with status 200 resolved its stop, stored one item
    and published at most one alert. *)
Lemma ok_inv (stored : Item.t) :
  fst (api_track E data w) = Ok200 stored ->
  exists lat lon speed bus next dist ts radius,
    resolved E data lat lon speed bus next dist /\
    normalize_timestamp E (raw_timestamp E data w) = inl ts /\
    stored = stored_item E data w lat lon speed bus next dist ts /\
    radius_of data = inl radius /\
    ((fle dist radius = false /\
      new_calls E data w = [PutItem stored None]) \/
     (fle dist radius = true /\
      exists when,
        new_calls E data w
        = [PutItem stored None;
           Publish (alert_subject E data next)
                   (alert_of E data next dist when) None])).
Proof.
  intros Hfst.
  destruct (api_track_outcome E data w) as [Ho _].
  rewrite Hfst in Ho.
  remember (Ok200 stored) as r eqn:Hr.
  remember (new_calls E data w) as tail eqn:Ht.
  destruct Ho; try discriminate; injection Hr as Hr; subst stored0;
    subst stored.
  - exists lat, lon, speed, bus, next, dist, ts, radius.
    repeat (split; [assumption || reflexivity|]). left. auto.
  - exists lat, lon, speed, bus, next, dist, ts, radius.
    repeat (split; [assumption || reflexivity|]). right.
    split; [assumption|]. exists when. reflexivity.
Qed.

End Success.

(** * The claims *)

Section DistanceClaims.

Local Open Scope R_scope.





End DistanceClaims.

Section ScenarioClaim.

Local Open Scope string_scope.

(** C9: The report [{bus_id: "10a", lat: 17.4376, lon: 78.4483,
    alert_radius_km: 0.5}], when DynamoDB and SNS accept the calls and the
    clock shows a date between the years 1 and 9999, is answered with
    status 200: the identifier is normalized to ["10A"], the next stop
    is ["Ameerpet"] at a distance between 0.0111 and 0.0112 km, one item
    is stored and one alert is published. *)
Theorem scenario_10a_alert_at_ameerpet (E : env) (w : world) :
  (-62135596800 <= clock E (reads w) < 253402300800)%Z ->
  (forall cs it, table_put_item E cs it = None) ->
  (forall cs subject message,
      sns_client_publish E cs subject message = None) ->
  normalized_bus_id E scenario = "10A" /\
  exists (stored : Item.t) (km : R),
    fst (api_track E scenario w) = Ok200 stored /\
    Item.BusID stored = Some (VStr "10A") /\
    Item.NextStop stored = Some (VStr "Ameerpet") /\
    Item.DistanceToStopKm stored = Some (VDecimal (Fin km)) /\
    haversine_km (Fin 17.4376) (Fin 78.4483) (Stop.lat ameerpet)
                 (Stop.lon ameerpet) = eret (Fin km) /\
    (0.0111 < km < 0.0112)%R /\
    new_calls E scenario w
    = [PutItem stored None;
       Publish "Bus 10A nearing Ameerpet"
               (mk_alert "10A" "Ameerpet" (Fin km) (clock E (reads w)))
               None] /\
    count_puts (new_calls E scenario w) = 1%nat /\
    count_publishes (new_calls E scenario w) = 1%nat.
Proof.
  intros Hnow Hput Hpub.
  split; [reflexivity|].
  destruct (@scenario_run E w Hnow (Hput _ _) (Hpub _ _ _)) as [Hfst Hnew].
  eexists. exists ameerpet_km.
  split; [exact Hfst|].
  split; [reflexivity|]. split; [reflexivity|]. split; [reflexivity|].
  split; [apply haversine_km_fin|].
  split; [apply ameerpet_km_bounds|].
  rewrite Hnew. repeat split.
Qed.

Lemma scenario_10a_alert_at_ameerpet_witness :
  (-62135596800 <= clock calm (reads idle) < 253402300800)%Z /\
  (forall cs it, table_put_item calm cs it = None) /\
  (forall cs subject message,
      sns_client_publish calm cs subject message = None) /\
  normalized_bus_id calm scenario = "10A" /\
  exists (stored : Item.t) (km : R),
    fst (api_track calm scenario idle) = Ok200 stored /\
    Item.BusID stored = Some (VStr "10A") /\
    Item.NextStop stored = Some (VStr "Ameerpet") /\
    Item.DistanceToStopKm stored = Some (VDecimal (Fin km)) /\
    haversine_km (Fin 17.4376) (Fin 78.4483) (Stop.lat ameerpet)
                 (Stop.lon ameerpet) = eret (Fin km) /\
    (0.0111 < km < 0.0112)%R /\
    new_calls calm scenario idle
    = [PutItem stored None;
       Publish "Bus 10A nearing Ameerpet"
               (mk_alert "10A" "Ameerpet" (Fin km) 1735689600) None] /\
    count_puts (new_calls calm scenario idle) = 1%nat /\
    count_publishes (new_calls calm scenario idle) = 1%nat.
Proof.
  assert (Hnow : (-62135596800 <= clock calm (reads idle) < 253402300800)%Z)
    by (simpl; lia).
  assert (Hput : forall cs it, table_put_item calm cs it = None)
    by reflexivity.
  assert (Hpub : forall cs subject message,
             sns_client_publish calm cs subject message = None)
    by reflexivity.
  split; [exact Hnow|]. split; [exact Hput|]. split; [exact Hpub|].
  exact (@scenario_10a_alert_at_ameerpet calm idle Hnow Hput Hpub).
Defined.

End ScenarioClaim.

Section ResolutionClaim.

Local Open Scope R_scope.

(** C1: For every report that is ingested (status 200) with
    coordinates that parse to real numbers and a vehicle of the table,
    the stored next stop is a stop of the vehicle's route whose
    haversine distance to the reported position is least over the stops
    of the route, and it is the first such stop in route order: every
    stop before it is strictly farther, every stop after it is at least
    as far.  The stored distance is the distance to that stop. *)
Theorem next_stop_is_first_nearest
    (E : env) (data : Report.t) (w : world) (stored : Item.t)
    (lat lon : R) (bus : Bus.t) :
  fst (api_track E data w) = Ok200 stored ->
  lat_of data = inl (Fin lat) ->
  lon_of data = inl (Fin lon) ->
  lookup buses (normalized_bus_id E data) = Some bus ->
  (forall x, In x (Bus.stops bus) ->
     haversine_km (Fin lat) (Fin lon) (Stop.lat x) (Stop.lon x)
     = eret (Fin (stop_km lat lon x))) /\
  exists s : Stop.t,
    In s (Bus.stops bus) /\
    first_nearest lat lon (Bus.stops bus) s /\
    Item.NextStop stored = Some (VStr (Stop.name s)) /\
    Item.DistanceToStopKm stored = Some (VDecimal (Fin (stop_km lat lon s))).
Proof.
  intros Hok Hlat Hlon Hbus.
  destruct (buses_entry _ Hbus) as (_ & _ & _ & Hfin & Hne).
  split.
  - intros x Hx. apply haversine_km_stop.
    rewrite Forall_forall in Hfin. apply Hfin, Hx.
  - destruct (ok_inv _ _ _ Hok)
      as (lat' & lon' & speed & bus' & next & dist & ts & radius
          & Hres & _ & Hst & _).
    destruct Hres as ((Hlat' & Hlon' & _) & Hbus' & Hnear).
    rewrite Hlat in Hlat'. injection Hlat' as <-.
    rewrite Hlon in Hlon'. injection Hlon' as <-.
    rewrite Hbus in Hbus'. injection Hbus' as <-.
    destruct (nearest_stop_spec lat lon Hfin Hne) as (s & Hs & Heq).
    rewrite Heq in Hnear. injection Hnear as <- <-.
    exists s. split; [|split; [exact Hs|]].
    + destruct Hs as (pre & post & -> & _). apply in_elt.
    + subst stored. split; reflexivity.
Qed.

Lemma next_stop_is_first_nearest_witness :
  fst (api_track calm scenario idle) = Ok200 scenario_item /\
  lat_of scenario = inl (Fin 17.4376) /\
  lon_of scenario = inl (Fin 78.4483) /\
  lookup buses (normalized_bus_id calm scenario) = Some route_10A /\
  (forall x, In x (Bus.stops route_10A) ->
     haversine_km (Fin 17.4376) (Fin 78.4483) (Stop.lat x) (Stop.lon x)
     = eret (Fin (stop_km 17.4376 78.4483 x))) /\
  exists s : Stop.t,
    In s (Bus.stops route_10A) /\
    first_nearest 17.4376 78.4483 (Bus.stops route_10A) s /\
    Item.NextStop scenario_item = Some (VStr (Stop.name s)) /\
    Item.DistanceToStopKm scenario_item
    = Some (VDecimal (Fin (stop_km 17.4376 78.4483 s))).
Proof.
  pose proof calm_scenario as [Hok _].
  split; [exact Hok|]. split; [reflexivity|]. split; [reflexivity|].
  split; [reflexivity|].
  exact (@next_stop_is_first_nearest calm scenario idle scenario_item
           17.4376 78.4483 route_10A Hok eq_refl eq_refl eq_refl).
Defined.

End ResolutionClaim.

Section EffectsClaim.

Lemma flt_not_fle (x y : pyfloat) : flt y x = true -> fle x y = false.
Proof.
  destruct x as [a| | |], y as [b| | |]; simpl; try discriminate; auto.
  unfold Rltb, Rleb.
  destruct (Rlt_dec b a), (Rle_dec a b); try discriminate; auto.
  exfalso. apply (Rlt_irrefl a). eapply Rle_lt_trans; eassumption.
Qed.

Lemma at_most_one_publish (E : env) (data : Report.t) (w : world) :
  (count_publishes (new_calls E data w) <= 1)%nat.
Proof.
  destruct (api_track_outcome E data w) as [Ho _].
  destruct Ho; simpl; auto.
Qed.

(** C2: No call of [api_track] publishes more than once.  A call
    answered with status 200 makes exactly one [put_item]; it makes
    exactly one [publish] when the stored distance to the next stop is at
    most the alert radius of the report (0.5 when the report gives none),
    and none when the distance is strictly greater. *)
Theorem one_write_and_at_most_one_alert
    (E : env) (data : Report.t) (w : world) :
  (count_publishes (new_calls E data w) <= 1)%nat /\
  forall stored : Item.t,
    fst (api_track E data w) = Ok200 stored ->
    count_puts (new_calls E data w) = 1%nat /\
    exists dist radius : pyfloat,
      Item.DistanceToStopKm stored = Some (VDecimal dist) /\
      radius_of data = inl radius /\
      (Report.alert_radius_km data = None -> radius = Fin 0.5) /\
      count_publishes (new_calls E data w)
      = (if fle dist radius then 1%nat else 0%nat) /\
      (flt radius dist = true ->
       count_publishes (new_calls E data w) = 0%nat).
Proof.
  split; [apply at_most_one_publish|].
  intros stored Hok.
  destruct (ok_inv _ _ _ Hok)
    as (lat & lon & speed & bus & next & dist & ts & radius
        & _ & _ & Hst & Hrad & Hcalls).
  assert (Hcount : count_puts (new_calls E data w) = 1%nat /\
                   count_publishes (new_calls E data w)
                   = (if fle dist radius then 1%nat else 0%nat)).
  { destruct Hcalls as [[Hle ->]|[Hle [when ->]]]; rewrite Hle; auto. }
  destruct Hcount as [Hputs Hpubs].
  split; [exact Hputs|].
  exists dist, radius. split; [subst stored; reflexivity|].
  split; [exact Hrad|]. split; [|split; [exact Hpubs|]].
  - intros Hnone. unfold radius_of in Hrad. rewrite Hnone in Hrad.
    simpl in Hrad. injection Hrad as <-. reflexivity.
  - intros Hgt. rewrite Hpubs, (flt_not_fle _ _ Hgt). reflexivity.
Qed.

Lemma one_write_and_at_most_one_alert_witness :
  fst (api_track calm scenario idle) = Ok200 scenario_item /\
  count_puts (new_calls calm scenario idle) = 1%nat /\
  exists dist radius : pyfloat,
    Item.DistanceToStopKm scenario_item = Some (VDecimal dist) /\
    radius_of scenario = inl radius /\
    (Report.alert_radius_km scenario = None -> radius = Fin 0.5) /\
    count_publishes (new_calls calm scenario idle)
    = (if fle dist radius then 1%nat else 0%nat) /\
    (flt radius dist = true ->
     count_publishes (new_calls calm scenario idle) = 0%nat).
Proof.
  pose proof calm_scenario as [Hok _].
  split; [exact Hok|].
  exact (proj2 (one_write_and_at_most_one_alert calm scenario idle)
               scenario_item Hok).
Defined.

End EffectsClaim.

Section PublishFailureClaim.

Local Open Scope string_scope.

(** The scenario when SNS is down: the item is stored, the alert is
    attempted, the response is the status 500. *)
Lemma sns_down_scenario :
  fst (api_track sns_down scenario idle)
  = Err500 (mk_failure AtPublish (ExternalError "ClientError")) /\
  new_calls sns_down scenario idle
  = [PutItem scenario_item None;
     Publish "Bus 10A nearing Ameerpet"
             (mk_alert "10A" "Ameerpet" (Fin ameerpet_km) 1735689600)
             (Some (ExternalError "ClientError"))].
Proof.
  apply api_track_run.
  refine (@out_publish sns_down scenario idle
            (Fin 17.4376) (Fin 78.4483) (Fin 20) route_10A "Ameerpet"
            (Fin ameerpet_km) 1735689600 (Fin 0.5) 1735689600
            (ExternalError "ClientError") _ _ _ _ _ _ _).
  - apply near_ameerpet_resolved.
  - reflexivity.
  - reflexivity.
  - reflexivity.
  - apply ameerpet_within_half.
  - apply format_ts_int. lia.
  - reflexivity.
Qed.

(** C3, counterexample: With an SNS client that raises, the scenario
    report is stored and the response is a failure, not the stored
    record. *)
Lemma publish_failure_is_not_recovered :
  ~ publish_failure_is_recovered sns_down scenario idle.
Proof.
  intros H. destruct sns_down_scenario as [Hfst Hnew].
  specialize (H scenario_item "Bus 10A nearing Ameerpet"
                (mk_alert "10A" "Ameerpet" (Fin ameerpet_km) 1735689600)
                (ExternalError "ClientError")).
  rewrite Hnew, Hfst in H.
  assert (Hbad : Err500 (mk_failure AtPublish (ExternalError "ClientError"))
                 = Ok200 scenario_item).
  { apply H; simpl; auto. }
  discriminate Hbad.
Qed.

(** C3, amended: Whenever [publish] raises, the request is answered
    with the status 500 carrying that exception; the item was stored by
    the one successful [put_item] before it, and no later call touches
    the table: the stored record stays. *)
Theorem publish_failure_fails_request_and_keeps_record
    (E : env) (data : Report.t) (w : world)
    (subject : string) (message : alert_message) (e : pyexn) :
  In (Publish subject message (Some e)) (new_calls E data w) ->
  fst (api_track E data w) = Err500 (mk_failure AtPublish e) /\
  exists stored : Item.t,
    table_put_item E (calls w) stored = None /\
    new_calls E data w
    = [PutItem stored None; Publish subject message (Some e)].
Proof.
  intros Hin.
  destruct (api_track_outcome E data w) as [Ho _].
  destruct Ho; simpl in Hin;
    repeat match goal with
           | H : _ \/ _ |- _ => destruct H
           | H : False |- _ => destruct H
           | H : PutItem _ _ = Publish _ _ _ |- _ => discriminate H
           | H : Publish _ _ None = Publish _ _ (Some _) |- _ => discriminate H
           end.
  match goal with
  | H : Publish _ _ _ = Publish _ _ _ |- _ => injection H as <- <- <-
  end.
  split; [reflexivity|]. exists stored. auto.
Qed.

Lemma publish_failure_fails_request_and_keeps_record_witness :
  In (Publish "Bus 10A nearing Ameerpet"
              (mk_alert "10A" "Ameerpet" (Fin ameerpet_km) 1735689600)
              (Some (ExternalError "ClientError")))
     (new_calls sns_down scenario idle) /\
  fst (api_track sns_down scenario idle)
  = Err500 (mk_failure AtPublish (ExternalError "ClientError")) /\
  exists stored : Item.t,
    table_put_item sns_down (calls idle) stored = None /\
    new_calls sns_down scenario idle
    = [PutItem stored None;
       Publish "Bus 10A nearing Ameerpet"
               (mk_alert "10A" "Ameerpet" (Fin ameerpet_km) 1735689600)
               (Some (ExternalError "ClientError"))].
Proof.
  assert (Hin : In (Publish "Bus 10A nearing Ameerpet"
                      (mk_alert "10A" "Ameerpet" (Fin ameerpet_km) 1735689600)
                      (Some (ExternalError "ClientError")))
                   (new_calls sns_down scenario idle)).
  { destruct sns_down_scenario as [_ ->]. simpl. auto. }
  split; [exact Hin|].
  exact (publish_failure_fails_request_and_keeps_record
           sns_down scenario idle _ _ _ Hin).
Defined.

End PublishFailureClaim.

Section ParseOrderClaims.

Local Open Scope string_scope.

Variable E : env.
Variable data : Report.t.
Variable w : world.

(** The response and the calls of a request that stops at the parsing of
    [lat], [lon] or [speed_kmph], or at the lookup of the vehicle. *)
Lemma early_outcomes :
  match lat_of data, lon_of data, speed_of E data with
  | inr e, _, _ =>
      fst (api_track E data w) = Err500 (mk_failure AtLat e) /\
      new_calls E data w = []
  | inl _, inr e, _ =>
      fst (api_track E data w) = Err500 (mk_failure AtLon e) /\
      new_calls E data w = []
  | inl _, inl _, inr e =>
      fst (api_track E data w) = Err500 (mk_failure AtSpeed e) /\
      new_calls E data w = []
  | inl _, inl _, inl _ =>
      lookup buses (normalized_bus_id E data) = None ->
      fst (api_track E data w)
      = Err400 ("Unknown bus_id " ++ normalized_bus_id E data) /\
      new_calls E data w = []
  end.
Proof.
  destruct (lat_of data) as [lat|e] eqn:Hlat.
  2:{ apply api_track_run. apply out_lat, Hlat. }
  destruct (lon_of data) as [lon|e] eqn:Hlon.
  2:{ apply api_track_run. eapply out_lon; eauto. }
  destruct (speed_of E data) as [speed|e] eqn:Hspeed.
  2:{ apply api_track_run. eapply out_speed; eauto. }
  intros Hnone. apply api_track_run.
  eapply out_unknown; [unfold parsed|]; eauto.
Qed.

End ParseOrderClaims.

Section UnknownVehicleClaim.

Local Open Scope string_scope.

(** C4, counterexample: For the unknown vehicle ["99Z"] with the
    latitude ["north"], the response is the failure of the latitude
    parse, not the unknown-vehicle response. *)
Lemma unknown_vehicle_is_not_reported_first :
  ~ unknown_vehicle_is_reported_first calm (unknown_vehicle (VStr "north"))
                                      idle.
Proof.
  intros H. destruct (H eq_refl) as [Hfst _].
  pose proof (early_outcomes calm (unknown_vehicle (VStr "north")) idle)
    as Hearly.
  change (lat_of (unknown_vehicle (VStr "north")))
    with (@inr pyfloat pyexn (ValueError "could not convert string to float"))
    in Hearly.
  cbv beta iota in Hearly. destruct Hearly as [Hfst' _].
  rewrite Hfst' in Hfst. discriminate Hfst.
Qed.

(** C4, amended: For every report whose vehicle identifier (after
    upper-casing and trimming) is not in the route table, the request
    fails and calls neither DynamoDB nor SNS.  The response is the
    unknown-vehicle response (status 400) when [lat], [lon] and
    [speed_kmph] parse; these three fields are read before the vehicle is
    looked up, so the first of them that does not parse is reported
    instead (status 500).  The time stamp is not looked at. *)
Theorem unknown_vehicle_fails_without_write
    (E : env) (data : Report.t) (w : world) :
  lookup buses (normalized_bus_id E data) = None ->
  new_calls E data w = [] /\
  count_puts (new_calls E data w) = 0%nat /\
  fst (api_track E data w)
  = match lat_of data, lon_of data, speed_of E data with
    | inr e, _, _ => Err500 (mk_failure AtLat e)
    | inl _, inr e, _ => Err500 (mk_failure AtLon e)
    | inl _, inl _, inr e => Err500 (mk_failure AtSpeed e)
    | inl _, inl _, inl _ =>
        Err400 ("Unknown bus_id " ++ normalized_bus_id E data)
    end.
Proof.
  intros Hnone. pose proof (early_outcomes E data w) as H.
  destruct (lat_of data); [destruct (lon_of data);
                           [destruct (speed_of E data)|]|];
    try specialize (H Hnone); destruct H as [Hfst Hnew];
    rewrite Hnew; auto.
Qed.

Lemma unknown_vehicle_fails_without_write_witness :
  lookup buses (normalized_bus_id calm (unknown_vehicle (VFloat (Fin 17.4376))))
  = None /\
  new_calls calm (unknown_vehicle (VFloat (Fin 17.4376))) idle = [] /\
  count_puts (new_calls calm (unknown_vehicle (VFloat (Fin 17.4376))) idle)
  = 0%nat /\
  fst (api_track calm (unknown_vehicle (VFloat (Fin 17.4376))) idle)
  = Err400 "Unknown bus_id 99Z".
Proof.
  split; [reflexivity|].
  exact (@unknown_vehicle_fails_without_write
           calm (unknown_vehicle (VFloat (Fin 17.4376))) idle eq_refl).
Defined.

End UnknownVehicleClaim.

Section SpeedClaim.

Local Open Scope string_scope.

(** A report for an unknown vehicle whose latitude and speed do not
    parse. *)
Lemma speed_and_latitude_unparsed :
  fst (api_track calm
         (Report.make (Some (VStr "99Z")) (Some (VStr "north"))
                      (Some (VFloat (Fin 78.4483))) (Some (VStr "fast"))
                      None None None)
         idle)
  = Err500 (mk_failure AtLat (ValueError "could not convert string to float")).
Proof.
  apply api_track_run with (tail := []). apply out_lat. reflexivity.
Qed.

(** C10, counterexample: When the latitude does not parse either, the
    response is the failure of the latitude, read one line before the
    speed. *)
Lemma unparsed_speed_is_not_always_reported :
  ~ unparsed_speed_is_reported calm
      (Report.make (Some (VStr "99Z")) (Some (VStr "north"))
                   (Some (VFloat (Fin 78.4483))) (Some (VStr "fast"))
                   None None None)
      idle.
Proof.
  intros H.
  destruct (H (VStr "fast") (ValueError "could not convert string to float")
              eq_refl eq_refl) as [_ Hfst].
  rewrite speed_and_latitude_unparsed in Hfst. discriminate Hfst.
Qed.

(** C10, amended: For every report in which [speed_kmph] is present
    and does not parse as a float, the request fails (status 500)
    without any call to DynamoDB or SNS, and before the vehicle is looked
    up: the response is never the unknown-vehicle response.  When [lat]
    and [lon] parse, the response is the failure of the speed, whatever
    the vehicle identifier; when one of them does not parse, it is the
    failure of that coordinate, which is read first. *)
Theorem unparsed_speed_fails_before_vehicle_lookup
    (E : env) (data : Report.t) (w : world) (v : pyval) (e : pyexn) :
  Report.speed_kmph data = Some v ->
  py_float v = inr e ->
  new_calls E data w = [] /\
  (forall msg, fst (api_track E data w) <> Err400 msg) /\
  fst (api_track E data w)
  = match lat_of data, lon_of data with
    | inr e', _ => Err500 (mk_failure AtLat e')
    | inl _, inr e' => Err500 (mk_failure AtLon e')
    | inl _, inl _ => Err500 (mk_failure AtSpeed e)
    end.
Proof.
  intros Hv He. pose proof (early_outcomes E data w) as H.
  assert (Hs : speed_of E data = inr e).
  { unfold speed_of. rewrite Hv. exact He. }
  rewrite Hs in H.
  destruct (lat_of data); [destruct (lon_of data)|];
    destruct H as [Hfst Hnew]; rewrite Hfst, Hnew;
    (split; [reflexivity|]); (split; [discriminate|reflexivity]).
Qed.

Lemma unparsed_speed_fails_before_vehicle_lookup_witness :
  Report.speed_kmph
    (Report.make (Some (VStr "99Z")) (Some (VFloat (Fin 17.4376)))
                 (Some (VFloat (Fin 78.4483))) (Some (VStr "fast"))
                 None None None)
  = Some (VStr "fast") /\
  py_float (VStr "fast")
  = inr (ValueError "could not convert string to float") /\
  new_calls calm
    (Report.make (Some (VStr "99Z")) (Some (VFloat (Fin 17.4376)))
                 (Some (VFloat (Fin 78.4483))) (Some (VStr "fast"))
                 None None None) idle = [] /\
  (forall msg,
      fst (api_track calm
             (Report.make (Some (VStr "99Z")) (Some (VFloat (Fin 17.4376)))
                          (Some (VFloat (Fin 78.4483))) (Some (VStr "fast"))
                          None None None) idle) <> Err400 msg) /\
  fst (api_track calm
         (Report.make (Some (VStr "99Z")) (Some (VFloat (Fin 17.4376)))
                      (Some (VFloat (Fin 78.4483))) (Some (VStr "fast"))
                      None None None) idle)
  = Err500 (mk_failure AtSpeed
                       (ValueError "could not convert string to float")).
Proof.
  split; [reflexivity|]. split; [reflexivity|].
  exact (@unparsed_speed_fails_before_vehicle_lookup calm
           (Report.make (Some (VStr "99Z")) (Some (VFloat (Fin 17.4376)))
                        (Some (VFloat (Fin 78.4483))) (Some (VStr "fast"))
                        None None None)
           idle (VStr "fast")
           (ValueError "could not convert string to float")
           eq_refl eq_refl).
Defined.

End SpeedClaim.

Section CoordinateClaim.

Local Open Scope string_scope.

Lemma haversine_km_nan_lat (y a b : R) :
  haversine_km NaN (Fin y) (Fin a) (Fin b) = eret NaN.
Proof.
  pose proof (haversine_km_value NaN (Fin y) a b) as H.
  destruct (haversine_km NaN (Fin y) (Fin a) (Fin b)) as [d|e].
  - subst d. reflexivity.
  - destruct H as [_ [H|[H|[H|H]]]]; discriminate H.
Qed.

(** With a NaN latitude every distance is NaN and [min] keeps the first
    stop of the route. *)
Lemma nan_nearest :
  nearest_stop NaN (Fin 78.4483) (Bus.stops route_10A)
  = eret ("Secunderabad", NaN).
Proof.
  unfold nearest_stop. simpl. unfold dist_to. simpl.
  rewrite !haversine_km_nan_lat. reflexivity.
Qed.

Lemma nan_report_resolved (E : env) :
  resolved E nan_report NaN (Fin 78.4483) (Fin (uniform_10_35 E))
           route_10A "Secunderabad" NaN.
Proof.
  split; [|split].
  - repeat split; reflexivity.
  - reflexivity.
  - apply nan_nearest.
Qed.


(** A table that accepts every item stores the NaN report. *)
Lemma calm_nan_report :
  fst (api_track calm nan_report idle) = Ok200 nan_item /\
  new_calls calm nan_report idle = [PutItem nan_item None].
Proof.
  apply api_track_run.
  refine (@out_far calm nan_report idle
            NaN (Fin 78.4483) (Fin 20) route_10A "Secunderabad" NaN
            1735689600 (Fin 0.5) _ _ _ _ _).
  - apply nan_report_resolved.
  - reflexivity.
  - reflexivity.
  - reflexivity.
  - reflexivity.
Qed.




End CoordinateClaim.

Section RecordClaim.

Local Open Scope string_scope.

(** A report with the time stamp [-5] is stored with the time stamp
    [-5]. *)
Lemma negative_timestamp_stored :
  fst (api_track calm (near_ameerpet (Some (VInt (-5))) None) idle)
  = Ok200 negative_item.
Proof.
  apply api_track_run
    with (tail := [PutItem negative_item None;
                   Publish "Bus 10A nearing Ameerpet"
                           (mk_alert "10A" "Ameerpet" (Fin ameerpet_km) (-5))
                           None]).
  refine (@out_alert calm (near_ameerpet (Some (VInt (-5))) None) idle
            (Fin 17.4376) (Fin 78.4483) (Fin 20) route_10A "Ameerpet"
            (Fin ameerpet_km) (-5) (Fin 0.5) (-5) _ _ _ _ _ _ _).
  - apply near_ameerpet_resolved.
  - reflexivity.
  - reflexivity.
  - reflexivity.
  - apply ameerpet_within_half.
  - apply format_ts_int. lia.
  - reflexivity.
Qed.

(** C5, counterexample: The report near Ameerpet with the numeric
    time stamp [-5] is stored with the negative time stamp [-5]. *)
Lemma stored_timestamp_can_be_negative :
  ~ stored_records_are_valid calm (near_ameerpet (Some (VInt (-5))) None) idle.
Proof.
  intros H.
  destruct (H negative_item negative_timestamp_stored)
    as ((n & Hts & Hpos) & _).
  simpl in Hts. injection Hts as <-. lia.
Qed.

(** C5, amended: Every item stored by a request answered with status
    200 has an integer time stamp, the one [safe_put_item] computes from
    the report (a numeric time stamp is kept with its sign, so it may be
    negative; without a time stamp it is the reading of the clock); an
    identifier that is not empty and is in upper case; and a distance
    that is a real number not less than zero, or NaN when a coordinate of
    the report is NaN. *)
Theorem stored_record_shape
    (E : env) (data : Report.t) (w : world) (stored : Item.t) :
  fst (api_track E data w) = Ok200 stored ->
  (exists n : Z,
      Item.TimeStamp stored = Some (VInt n) /\
      normalize_timestamp E (raw_timestamp E data w) = inl n /\
      (forall m, Report.timestamp data = Some (VInt m) -> n = m) /\
      (Report.timestamp data = None -> n = clock E (reads w))) /\
  (exists s : string,
      Item.BusID stored = Some (VStr s) /\ s <> EmptyString /\ upper s = s) /\
  (exists d : pyfloat,
      Item.DistanceToStopKm stored = Some (VDecimal d) /\
      ((exists r : R, d = Fin r /\ (0 <= r)%R) \/
       (d = NaN /\ (lat_of data = inl NaN \/ lon_of data = inl NaN)))).
Proof.
  intros Hok.
  destruct (ok_inv _ _ _ Hok)
    as (lat & lon & speed & bus & next & dist & ts & radius
        & Hres & Hts & Hst & _).
  destruct Hres as ((Hlat & Hlon & _) & Hbus & Hnear).
  destruct (buses_entry _ Hbus) as (_ & Hup & Hne & Hfin & _).
  subst stored. split; [|split].
  - exists ts. split; [reflexivity|]. split; [exact Hts|]. split.
    + intros m Hm. unfold raw_timestamp in Hts. rewrite Hm in Hts.
      simpl in Hts. injection Hts as <-. reflexivity.
    + intros Hnone. unfold raw_timestamp in Hts. rewrite Hnone in Hts.
      simpl in Hts. injection Hts as <-. reflexivity.
  - exists (normalized_bus_id E data).
    split; [simpl; rewrite Hup; reflexivity|]. auto.
  - exists dist. split; [reflexivity|].
    destruct (nearest_stop_distance _ _ Hfin Hnear)
      as [(r & -> & Hr & _)|(-> & Hnan)].
    + left. exists r. auto.
    + right. split; [reflexivity|].
      destruct Hnan as [->| ->]; auto.
Qed.

Lemma stored_record_shape_witness :
  fst (api_track calm scenario idle) = Ok200 scenario_item /\
  (exists n : Z,
      Item.TimeStamp scenario_item = Some (VInt n) /\
      normalize_timestamp calm (raw_timestamp calm scenario idle) = inl n /\
      (forall m, Report.timestamp scenario = Some (VInt m) -> n = m) /\
      (Report.timestamp scenario = None -> n = clock calm (reads idle))) /\
  (exists s : string,
      Item.BusID scenario_item = Some (VStr s) /\
      s <> EmptyString /\ upper s = s) /\
  (exists d : pyfloat,
      Item.DistanceToStopKm scenario_item = Some (VDecimal d) /\
      ((exists r : R, d = Fin r /\ (0 <= r)%R) \/
       (d = NaN /\ (lat_of scenario = inl NaN \/ lon_of scenario = inl NaN)))).
Proof.
  pose proof calm_scenario as [Hok _].
  split; [exact Hok|].
  exact (@stored_record_shape calm scenario idle scenario_item Hok).
Defined.

End RecordClaim.

Section TimestampClaim.

Local Open Scope string_scope.



(** A string without an offset is read in the local time zone. *)
Lemma new_year_2025_local_time :
  normalize_timestamp calm_ist (VStr "2025-01-01T00:00:00")
  = inl 1735669800%Z.
Proof. reflexivity. Qed.





End TimestampClaim.

(** * Further properties of the code *)

(** ** Upper-casing and stripping *)

Section TextFacts.

Lemma chars_text (l : list ascii) : chars (text l) = l.
Proof. apply list_ascii_of_string_of_list_ascii. Qed.

Lemma text_chars (s : string) : text (chars s) = s.
Proof. apply string_of_list_ascii_of_string. Qed.

Lemma upper_char_idem (c : ascii) : upper_char (upper_char c) = upper_char c.
Proof. destruct c as [[] [] [] [] [] [] [] []]; reflexivity. Qed.

Lemma upper_char_space (c : ascii) : is_space (upper_char c) = is_space c.
Proof. destruct c as [[] [] [] [] [] [] [] []]; reflexivity. Qed.

Lemma upper_idem (s : string) : upper (upper s) = upper s.
Proof.
  unfold upper. rewrite chars_text, map_map. f_equal.
  apply map_ext. intros c. apply upper_char_idem.
Qed.

Lemma lstrip_map_upper (l : list ascii) :
  lstrip_chars (map upper_char l) = map upper_char (lstrip_chars l).
Proof.
  induction l as [|c l IH]; [reflexivity|].
  simpl. rewrite upper_char_space. destruct (is_space c); [exact IH|reflexivity].
Qed.

Lemma strip_chars_map_upper (l : list ascii) :
  strip_chars (map upper_char l) = map upper_char (strip_chars l).
Proof.
  unfold strip_chars.
  rewrite lstrip_map_upper, <- map_rev, lstrip_map_upper, map_rev.
  reflexivity.
Qed.

(** [s.upper().strip()] and [s.strip().upper()] are the same string. *)
Lemma strip_upper (s : string) : strip (upper s) = upper (strip s).
Proof.
  unfold strip, upper. rewrite !chars_text, strip_chars_map_upper.
  reflexivity.
Qed.

Lemma lstrip_idem (l : list ascii) :
  lstrip_chars (lstrip_chars l) = lstrip_chars l.
Proof.
  induction l as [|c l IH]; [reflexivity|].
  simpl. destruct (is_space c) eqn:Hc; [exact IH|].
  simpl. rewrite Hc. reflexivity.
Qed.

(** What [lstrip_chars] returns is empty or starts with a character that
    is not white space. *)
Lemma lstrip_head (l : list ascii) :
  match lstrip_chars l with
  | [] => True
  | c :: _ => is_space c = false
  end.
Proof.
  induction l as [|c l IH]; simpl; [exact I|].
  destruct (is_space c) eqn:Hc; [exact IH|exact Hc].
Qed.

Lemma lstrip_fixed (l : list ascii) :
  match l with [] => True | c :: _ => is_space c = false end ->
  lstrip_chars l = l.
Proof. destruct l as [|c l]; simpl; [reflexivity|]. intros ->. reflexivity. Qed.

(** Stripping the right end keeps a head that is not white space. *)
Lemma rstrip_keeps_head (c : ascii) (l : list ascii) :
  is_space c = false ->
  exists l', rev (lstrip_chars (rev (c :: l))) = c :: l'.
Proof.
  intros Hc. induction l as [|x l IH] using rev_ind.
  - exists []. simpl. rewrite Hc. reflexivity.
  - rewrite app_comm_cons, rev_app_distr. simpl rev at 2. simpl app.
    simpl lstrip_chars. destruct (is_space x).
    + exact IH.
    + exists (l ++ [x]).
      simpl. rewrite rev_app_distr, rev_involutive. reflexivity.
Qed.

Lemma strip_chars_idem (l : list ascii) :
  strip_chars (strip_chars l) = strip_chars l.
Proof.
  unfold strip_chars.
  pose proof (lstrip_head l) as Hh.
  destruct (lstrip_chars l) as [|c m] eqn:Hl; [reflexivity|].
  destruct (@rstrip_keeps_head c m Hh) as [l' Hl'].
  rewrite Hl'. rewrite (lstrip_fixed (c :: l')) by exact Hh.
  rewrite <- Hl'. rewrite rev_involutive, lstrip_idem. reflexivity.
Qed.

Lemma strip_idem (s : string) : strip (strip s) = strip s.
Proof. unfold strip. rewrite chars_text, strip_chars_idem. reflexivity. Qed.

End TextFacts.

(** ** More on [haversine_km] *)

Section HaversineMore.

Local Open Scope R_scope.














End HaversineMore.

(** ** More on [api_track] *)

Section TrackMore.

Local Open Scope string_scope.

Lemma format_ts_value (n m : Z) : format_ts (VInt n) = inl m -> m = n.
Proof.
  unfold format_ts, py_float, ebind, eret.
  destruct (Rleb (-62135596800) (IZR n) && Rltb (IZR n) 253402300800);
    [|discriminate].
  intros [= <-]. symmetry. apply Int_part_spec. lra.
Qed.

(** X5: An alert is published only after the record has been stored,
    and it is about that record: its subject and message carry the
    vehicle identifier, the next stop, the distance and the time stamp of
    the stored item. *)
Theorem alert_is_about_the_stored_record
    (E : env) (data : Report.t) (w : world)
    (subject : string) (message : alert_message) (out : option pyexn) :
  In (Publish subject message out) (new_calls E data w) ->
  exists (stored : Item.t) (id next : string) (dist : pyfloat) (ts : Z),
    new_calls E data w = [PutItem stored None; Publish subject message out] /\
    Item.BusID stored = Some (VStr id) /\
    Item.NextStop stored = Some (VStr next) /\
    Item.DistanceToStopKm stored = Some (VDecimal dist) /\
    Item.TimeStamp stored = Some (VInt ts) /\
    subject = "Bus " ++ id ++ " nearing " ++ next /\
    message = mk_alert id next dist ts.
Proof.
  intros Hin.
  destruct (api_track_outcome E data w) as [Ho _].
  destruct Ho; simpl in Hin;
    repeat match goal with
           | H : _ \/ _ |- _ => destruct H
           | H : False |- _ => destruct H
           | H : PutItem _ _ = Publish _ _ _ |- _ => discriminate H
           end;
    match goal with
    | H : Publish _ _ _ = Publish _ _ _ |- _ => injection H as <- <- <-
    end;
    match goal with
    | H : resolved _ _ _ _ _ _ _ _ |- _ => destruct H as (_ & Hbus & _)
    end;
    destruct (buses_entry _ Hbus) as (_ & Hup & _);
    match goal with
    | H : format_ts _ = inl _ |- _ => apply format_ts_value in H; subst when
    end;
    exists stored, (normalized_bus_id E data), next, dist, ts;
    (split; [reflexivity|]);
    (split; [subst stored; simpl; rewrite Hup; reflexivity|]);
    repeat split.
Qed.

Lemma alert_is_about_the_stored_record_witness :
  In (Publish "Bus 10A nearing Ameerpet"
              (mk_alert "10A" "Ameerpet" (Fin ameerpet_km) 1735689600) None)
     (new_calls calm scenario idle) /\
  exists (stored : Item.t) (id next : string) (dist : pyfloat) (ts : Z),
    new_calls calm scenario idle
    = [PutItem stored None;
       Publish "Bus 10A nearing Ameerpet"
               (mk_alert "10A" "Ameerpet" (Fin ameerpet_km) 1735689600)
               None] /\
    Item.BusID stored = Some (VStr id) /\
    Item.NextStop stored = Some (VStr next) /\
    Item.DistanceToStopKm stored = Some (VDecimal dist) /\
    Item.TimeStamp stored = Some (VInt ts) /\
    "Bus 10A nearing Ameerpet" = "Bus " ++ id ++ " nearing " ++ next /\
    mk_alert "10A" "Ameerpet" (Fin ameerpet_km) 1735689600
    = mk_alert id next dist ts.
Proof.
  assert (Hin : In (Publish "Bus 10A nearing Ameerpet"
                      (mk_alert "10A" "Ameerpet" (Fin ameerpet_km) 1735689600)
                      None)
                   (new_calls calm scenario idle)).
  { destruct calm_scenario as [_ ->]. simpl. auto. }
  split; [exact Hin|].
  exact (@alert_is_about_the_stored_record calm scenario idle _ _ _ Hin).
Defined.

End TrackMore.

Section TrackMore2.

Local Open Scope string_scope.

(** X6: The stop stored as next stop is always a stop of the route
    stored with it, the route of the vehicle in the table, whatever the
    position (also for a position holding a NaN); the stored distance is
    the distance [haversine_km] gives to that stop, and the stored
    coordinates are the parsed ones. *)
Theorem stored_stop_belongs_to_stored_route
    (E : env) (data : Report.t) (w : world) (stored : Item.t) :
  fst (api_track E data w) = Ok200 stored ->
  exists (bus : Bus.t) (s : Stop.t) (lat lon dist : pyfloat),
    lookup buses (normalized_bus_id E data) = Some bus /\
    In s (Bus.stops bus) /\
    Item.Route stored = Some (VStr (Bus.route bus)) /\
    Item.NextStop stored = Some (VStr (Stop.name s)) /\
    lat_of data = inl lat /\ lon_of data = inl lon /\
    Item.Latitude stored = Some (VDecimal lat) /\
    Item.Longitude stored = Some (VDecimal lon) /\
    haversine_km lat lon (Stop.lat s) (Stop.lon s) = inl dist /\
    Item.DistanceToStopKm stored = Some (VDecimal dist).
Proof.
  intros Hok.
  destruct (ok_inv _ _ _ Hok)
    as (lat & lon & speed & bus & next & dist & ts & radius
        & Hres & _ & Hst & _).
  destruct Hres as ((Hlat & Hlon & _) & Hbus & Hnear).
  destruct (nearest_stop_In _ _ _ Hnear) as (s & Hs & -> & Hd).
  exists bus, s, lat, lon, dist. subst stored.
  repeat (split; [assumption || reflexivity|]). reflexivity.
Qed.

Lemma stored_stop_belongs_to_stored_route_witness :
  fst (api_track calm scenario idle) = Ok200 scenario_item /\
  exists (bus : Bus.t) (s : Stop.t) (lat lon dist : pyfloat),
    lookup buses (normalized_bus_id calm scenario) = Some bus /\
    In s (Bus.stops bus) /\
    Item.Route scenario_item = Some (VStr (Bus.route bus)) /\
    Item.NextStop scenario_item = Some (VStr (Stop.name s)) /\
    lat_of scenario = inl lat /\ lon_of scenario = inl lon /\
    Item.Latitude scenario_item = Some (VDecimal lat) /\
    Item.Longitude scenario_item = Some (VDecimal lon) /\
    haversine_km lat lon (Stop.lat s) (Stop.lon s) = inl dist /\
    Item.DistanceToStopKm scenario_item = Some (VDecimal dist).
Proof.
  pose proof calm_scenario as [Hok _].
  split; [exact Hok|].
  exact (@stored_stop_belongs_to_stored_route calm scenario idle _ Hok).
Defined.

Lemma min_from_keeps_best (A : Type) (key : A -> pyfloat) (rest : list A) :
  forall best,
    (forall x, In x rest -> flt (key x) (key best) = false) ->
    min_from key best rest = best.
Proof.
  induction rest as [|x rest IH]; intros best H; [reflexivity|].
  simpl. rewrite (H x) by (left; reflexivity).
  apply IH. intros y Hy. apply H. right. exact Hy.
Qed.

(** From a position holding a NaN every distance is NaN, and [min] keeps
    the first stop of the route. *)
Lemma nearest_stop_nan (lat lon : pyfloat) (stops : list Stop.t)
    (next : string) (dist : pyfloat) :
  Forall finite_stop stops ->
  lat = NaN \/ lon = NaN ->
  nearest_stop lat lon stops = inl (next, dist) ->
  exists s rest, stops = s :: rest /\ next = Stop.name s /\ dist = NaN.
Proof.
  intros Hfin Hnan H. rewrite Forall_forall in Hfin.
  unfold nearest_stop, ebind in H.
  destruct (comprehension (dist_to lat lon) stops) as [ds|e] eqn:Hc;
    [|discriminate].
  assert (Hall : forall p, In p ds -> snd p = NaN).
  { intros p Hp. destruct (comprehension_In _ _ Hc _ Hp) as (s & Hs & Hf).
    destruct (Hfin s Hs) as (a & b & Ha & Hb).
    unfold dist_to, ebind, eret in Hf. rewrite Ha, Hb in Hf.
    pose proof (haversine_km_value lat lon a b) as Hv.
    destruct (haversine_km lat lon (Fin a) (Fin b)) as [d|e]; [|discriminate].
    injection Hf as <-. simpl.
    destruct Hnan as [-> | ->].
    - destruct lon; try contradiction; exact Hv.
    - destruct lat; try contradiction; exact Hv. }
  destruct stops as [|s rest]; [simpl in Hc; injection Hc as <-; discriminate|].
  simpl in Hc. unfold ebind, eret in Hc.
  destruct (dist_to lat lon s) as [y|e] eqn:Hy; [|discriminate].
  destruct (comprehension (dist_to lat lon) rest) as [ys|e]; [|discriminate].
  injection Hc as <-. simpl in H. injection H as H.
  rewrite min_from_keeps_best in H.
  - exists s, rest. split; [reflexivity|].
    pose proof (Hall y (or_introl eq_refl)) as Hsnd.
    unfold dist_to, ebind, eret in Hy.
    destruct (haversine_km lat lon (Stop.lat s) (Stop.lon s)); [|discriminate].
    injection Hy as <-. injection H as <- <-. simpl in Hsnd. auto.
  - intros x Hx. rewrite (Hall x) by (right; exact Hx).
    rewrite (Hall y) by (left; reflexivity). reflexivity.
Qed.

(** X7: A report whose latitude or longitude parses to NaN and that is
    answered with status 200 is stored with the first stop of the
    vehicle's route as next stop and a NaN distance, and no alert is
    published for it, whatever the alert radius. *)
Theorem nan_position_gets_first_stop_and_no_alert
    (E : env) (data : Report.t) (w : world) (stored : Item.t) :
  fst (api_track E data w) = Ok200 stored ->
  lat_of data = inl NaN \/ lon_of data = inl NaN ->
  exists (bus : Bus.t) (s : Stop.t) (rest : list Stop.t),
    lookup buses (normalized_bus_id E data) = Some bus /\
    Bus.stops bus = s :: rest /\
    Item.NextStop stored = Some (VStr (Stop.name s)) /\
    Item.DistanceToStopKm stored = Some (VDecimal NaN) /\
    new_calls E data w = [PutItem stored None].
Proof.
  intros Hok Hnan.
  destruct (ok_inv _ _ _ Hok)
    as (lat & lon & speed & bus & next & dist & ts & radius
        & Hres & _ & Hst & _ & Hcalls).
  destruct Hres as ((Hlat & Hlon & _) & Hbus & Hnear).
  destruct (buses_entry _ Hbus) as (_ & _ & _ & Hfin & _).
  assert (Hnan' : lat = NaN \/ lon = NaN).
  { destruct Hnan as [H|H]; [left; congruence | right; congruence]. }
  destruct (nearest_stop_nan Hfin Hnan' Hnear) as (s & rest & Hs & -> & ->).
  exists bus, s, rest. subst stored.
  repeat (split; [assumption || reflexivity|]).
  destruct Hcalls as [[_ H]|[Hle _]]; [exact H|discriminate Hle].
Qed.

Lemma nan_position_gets_first_stop_and_no_alert_witness :
  fst (api_track calm nan_report idle) = Ok200 nan_item /\
  (lat_of nan_report = inl NaN \/ lon_of nan_report = inl NaN) /\
  exists (bus : Bus.t) (s : Stop.t) (rest : list Stop.t),
    lookup buses (normalized_bus_id calm nan_report) = Some bus /\
    Bus.stops bus = s :: rest /\
    Item.NextStop nan_item = Some (VStr (Stop.name s)) /\
    Item.DistanceToStopKm nan_item = Some (VDecimal NaN) /\
    new_calls calm nan_report idle = [PutItem nan_item None].
Proof.
  pose proof calm_nan_report as [Hok _].
  assert (Hnan : lat_of nan_report = inl NaN \/ lon_of nan_report = inl NaN)
    by (left; reflexivity).
  split; [exact Hok|]. split; [exact Hnan|].
  exact (@nan_position_gets_first_stop_and_no_alert
           calm nan_report idle nan_item Hok Hnan).
Defined.

(** X8: Two reports that differ only in the letter case of the vehicle
    identifier and in the white space around it are treated alike: same
    response, same calls. *)
Theorem vehicle_identifier_ignores_case_and_padding
    (E : env) (d : Report.t) (w : world) (s t : string) :
  upper (strip s) = upper (strip t) ->
  api_track E (with_bus_id (VStr s) d) w
  = api_track E (with_bus_id (VStr t) d) w.
Proof.
  intros H.
  assert (Hid : strip (upper s) = strip (upper t))
    by (rewrite !strip_upper; exact H).
  unfold api_track, track, with_bus_id. simpl.
  rewrite Hid. reflexivity.
Qed.

Lemma vehicle_identifier_ignores_case_and_padding_witness :
  upper (strip "10a") = upper (strip "  10A ") /\
  api_track calm (with_bus_id (VStr "10a") scenario) idle
  = api_track calm (with_bus_id (VStr "  10A ") scenario) idle.
Proof.
  assert (H : upper (strip "10a") = upper (strip "  10A ")) by reflexivity.
  split; [exact H|].
  exact (@vehicle_identifier_ignores_case_and_padding
           calm scenario idle "10a" "  10A " H).
Defined.

(** X9: The alert radius is read after the record is written: a report
    whose [alert_radius_km] does not parse is never answered with status
    200 and never publishes, and when everything before the radius
    succeeds the record is stored all the same and the response is the
    radius failure. *)
Theorem malformed_radius_fails_after_the_write
    (E : env) (data : Report.t) (w : world) (e : pyexn) :
  radius_of data = inr e ->
  (forall stored, fst (api_track E data w) <> Ok200 stored) /\
  count_publishes (new_calls E data w) = 0%nat /\
  (forall lat lon speed bus next dist ts,
      resolved E data lat lon speed bus next dist ->
      normalize_timestamp E (raw_timestamp E data w) = inl ts ->
      table_put_item E (calls w)
        (stored_item E data w lat lon speed bus next dist ts) = None ->
      fst (api_track E data w) = Err500 (mk_failure AtRadius e) /\
      new_calls E data w
      = [PutItem (stored_item E data w lat lon speed bus next dist ts) None]).
Proof.
  intros Hr. split; [|split].
  - intros stored Hok.
    destruct (ok_inv _ _ _ Hok) as (? & ? & ? & ? & ? & ? & ? & radius
                                    & _ & _ & _ & Hrad & _).
    rewrite Hr in Hrad. discriminate Hrad.
  - destruct (api_track_outcome E data w) as [Ho _].
    destruct Ho; try reflexivity;
      match goal with
      | H : radius_of data = inl _ |- _ => rewrite Hr in H; discriminate H
      end.
  - intros lat lon speed bus next dist ts Hres Hts Hput.
    apply api_track_run. eapply out_radius; eauto.
Qed.

Lemma malformed_radius_fails_after_the_write_witness :
  radius_of (near_ameerpet None (Some (VStr "wide")))
  = inr (ValueError "could not convert string to float") /\
  fst (api_track calm (near_ameerpet None (Some (VStr "wide"))) idle)
  = Err500 (mk_failure AtRadius
                       (ValueError "could not convert string to float")) /\
  new_calls calm (near_ameerpet None (Some (VStr "wide"))) idle
  = [PutItem scenario_item None].
Proof.
  assert (Hr : radius_of (near_ameerpet None (Some (VStr "wide")))
               = inr (ValueError "could not convert string to float"))
    by reflexivity.
  split; [exact Hr|].
  exact (proj2 (proj2 (@malformed_radius_fails_after_the_write
                         calm (near_ameerpet None (Some (VStr "wide"))) idle
                         _ Hr))
               _ _ _ _ _ _ 1735689600%Z
               (near_ameerpet_resolved calm None (Some (VStr "wide")))
               eq_refl eq_refl).
Defined.

End TrackMore2.

(** ** More on [safe_put_item] and [decimalize] *)

Section PutMore.

Local Open Scope string_scope.

Variable E : env.

Lemma upper_empty (s : string) : upper s = EmptyString -> s = EmptyString.
Proof. destruct s; [reflexivity|discriminate]. Qed.

Lemma upper_not_blank (s : string) :
  String.eqb (strip s) EmptyString = false ->
  String.eqb (strip (upper s)) EmptyString = false.
Proof.
  intros H. rewrite strip_upper. apply String.eqb_neq.
  apply String.eqb_neq in H. intros Hu. apply H, upper_empty, Hu.
Qed.

Lemma decimalize_idem (x : pyval) : decimalize (decimalize x) = decimalize x.
Proof. destruct x; reflexivity. Qed.

Lemma decimalize_number (x : pyval) : py_float (decimalize x) = py_float x.
Proof. destruct x; reflexivity. Qed.

Lemma decimalize_not_float (v : option pyval) :
  not_float (option_map decimalize v).
Proof. destruct v as [[]|]; exact I. Qed.

Lemma decimalize_number_of (v : option pyval) :
  number_of (option_map decimalize v) = number_of v.
Proof. destruct v as [x|]; [|reflexivity]. simpl. f_equal. apply decimalize_number. Qed.

Lemma item_timestamp_calls (it : Item.t) (w : world) :
  calls (snd (item_timestamp E it w)) = calls w.
Proof.
  unfold item_timestamp. destruct (Item.TimeStamp it) as [v|];
    [destruct (is_none_or_empty v)|]; reflexivity.
Qed.

(** The runs of [safe_put_item]: a validation failure without any call,
    or one [put_item] of the updated item. *)
Lemma safe_put_item_cases (it : Item.t) (w : world) :
  (exists f, fst (safe_put_item E it w) = inr f /\
             (raised_at f = AtBusID \/ raised_at f = AtTimeStamp) /\
             item_calls E it w = []) \/
  (exists b ts out,
      Item.BusID it = Some b /\
      String.eqb (strip (py_str (repr E) b)) EmptyString = false /\
      normalize_timestamp E (fst (item_timestamp E it w)) = inl ts /\
      item_calls E it w = [PutItem (updated_item E b ts it) out] /\
      out = table_put_item E (calls w) (updated_item E b ts it) /\
      fst (safe_put_item E it w)
      = match out with
        | None => inl (updated_item E b ts it)
        | Some e => inr (mk_failure AtPutItem e)
        end).
Proof.
  unfold item_calls.
  destruct (Item.BusID it) as [b|] eqn:Hb.
  2:{ left. rewrite safe_put_item_blank by (rewrite Hb; exact I).
      eexists. split; [reflexivity|]. split; [left; reflexivity|].
      simpl. apply skipn_all. }
  destruct (String.eqb (strip (py_str (repr E) b)) EmptyString) eqn:Hne.
  { left. rewrite safe_put_item_blank by (rewrite Hb; exact Hne).
    eexists. split; [reflexivity|]. split; [left; reflexivity|].
    simpl. apply skipn_all. }
  rewrite (safe_put_item_eq E it w Hb Hne).
  pose proof (item_timestamp_calls it w) as Hc.
  destruct (item_timestamp E it w) as [ts0 w1]. simpl in Hc. simpl fst.
  destruct (normalize_timestamp E ts0) as [ts|e] eqn:Hn.
  2:{ left. eexists. split; [reflexivity|]. split; [right; reflexivity|].
      simpl. rewrite Hc. apply skipn_all. }
  right. exists b, ts, (table_put_item E (calls w) (updated_item E b ts it)).
  split; [reflexivity|]. split; [exact Hne|]. split; [reflexivity|].
  cbv zeta. rewrite Hc.
  destruct (table_put_item E (calls w) (updated_item E b ts it));
    simpl; rewrite Hc, skipn_new; auto.
Qed.

(** X10: Whatever item [safe_put_item] is given, it calls the table at
    most once, and the item it hands over is normalized: the identifier
    is a string in upper case that is not blank, the time stamp is an
    integer, none of the four numeric fields is a Python float (each
    holds the number it held), and the status, the route and the next
    stop are untouched.  Nothing is handed over when the identifier is
    missing or blank or when the time stamp cannot be converted. *)
Theorem safe_put_item_hands_over_a_normalized_item
    (it it' : Item.t) (w : world) (out : option pyexn) :
  In (PutItem it' out) (item_calls E it w) ->
  item_calls E it w = [PutItem it' out] /\
  (exists s, Item.BusID it' = Some (VStr s) /\ upper s = s /\
             strip s <> EmptyString) /\
  (exists n, Item.TimeStamp it' = Some (VInt n)) /\
  (not_float (Item.Latitude it') /\ not_float (Item.Longitude it') /\
   not_float (Item.SpeedKmph it') /\ not_float (Item.DistanceToStopKm it')) /\
  (number_of (Item.Latitude it') = number_of (Item.Latitude it) /\
   number_of (Item.Longitude it') = number_of (Item.Longitude it) /\
   number_of (Item.SpeedKmph it') = number_of (Item.SpeedKmph it) /\
   number_of (Item.DistanceToStopKm it')
   = number_of (Item.DistanceToStopKm it)) /\
  Item.Status it' = Item.Status it /\
  Item.Route it' = Item.Route it /\
  Item.NextStop it' = Item.NextStop it.
Proof.
  intros Hin.
  destruct (safe_put_item_cases it w)
    as [(f & _ & _ & Hnone)|(b & ts & o & Hb & Hne & _ & Hcalls & _ & _)].
  { rewrite Hnone in Hin. destruct Hin. }
  rewrite Hcalls in Hin. destruct Hin as [Heq|[]].
  injection Heq as <- <-.
  split; [exact Hcalls|]. split; [|split; [|split; [|split]]].
  - exists (upper (py_str (repr E) b)).
    split; [reflexivity|]. split; [apply upper_idem|].
    apply String.eqb_neq, upper_not_blank, Hne.
  - exists ts. reflexivity.
  - simpl. repeat split; apply decimalize_not_float.
  - simpl. repeat split; apply decimalize_number_of.
  - simpl. auto.
Qed.

(** Feeding the result back: the returned item is a fixed point of the
    normalization. *)
Lemma updated_item_again (b : pyval) (ts : Z) (it : Item.t) :
  updated_item E (VStr (upper (py_str (repr E) b))) ts (updated_item E b ts it)
  = updated_item E b ts it.
Proof.
  unfold updated_item. simpl.
  rewrite upper_idem.
  destruct (Item.Latitude it), (Item.Longitude it), (Item.SpeedKmph it),
    (Item.DistanceToStopKm it); simpl; rewrite ?decimalize_idem; reflexivity.
Qed.

(** X11: Storing again the item that [safe_put_item] returned hands the
    very same item to the table: nothing is normalized a second time,
    the clock is not read, and the outcome is the table's alone. *)
Theorem safe_put_item_is_idempotent_on_its_result
    (it it' : Item.t) (w w' w2 : world) :
  safe_put_item E it w = (inl it', w') ->
  safe_put_item E it' w2
  = match table_put_item E (calls w2) it' with
    | None => (inl it', record (PutItem it' None) w2)
    | Some e =>
        (inr (mk_failure AtPutItem e), record (PutItem it' (Some e)) w2)
    end.
Proof.
  intros Hrun.
  destruct (safe_put_item_cases it w)
    as [(f & Hf & _)|(b & ts & o & Hb & Hne & _ & _ & Ho & Hres)].
  { rewrite Hrun in Hf. discriminate Hf. }
  rewrite Hrun in Hres. simpl in Hres.
  destruct o as [e|]; [discriminate Hres|].
  injection Hres as ->.
  assert (Hb' : Item.BusID (updated_item E b ts it)
                = Some (VStr (upper (py_str (repr E) b)))) by reflexivity.
  assert (Hne' : String.eqb
                   (strip (py_str (repr E) (VStr (upper (py_str (repr E) b)))))
                   EmptyString = false).
  { simpl. apply upper_not_blank, Hne. }
  rewrite (safe_put_item_eq E (updated_item E b ts it) w2 Hb' Hne').
  assert (Hts : item_timestamp E (updated_item E b ts it) w2 = (VInt ts, w2))
    by reflexivity.
  rewrite Hts. simpl normalize_timestamp. unfold eret. cbv iota beta zeta.
  rewrite updated_item_again. reflexivity.
Qed.

End PutMore.

Lemma safe_put_item_hands_over_a_normalized_item_witness :
  In (PutItem normal_item None) (item_calls calm raw_item idle) /\
  item_calls calm raw_item idle = [PutItem normal_item None].
Proof.
  assert (Hin : In (PutItem normal_item None) (item_calls calm raw_item idle)).
  { left. reflexivity. }
  split; [exact Hin|].
  exact (proj1 (@safe_put_item_hands_over_a_normalized_item
                  calm raw_item normal_item idle None Hin)).
Defined.

Lemma safe_put_item_is_idempotent_on_its_result_witness :
  safe_put_item calm raw_item idle
  = (inl normal_item, record (PutItem normal_item None) idle) /\
  safe_put_item calm normal_item idle
  = (inl normal_item, record (PutItem normal_item None) idle).
Proof.
  assert (Hrun : safe_put_item calm raw_item idle
                 = (inl normal_item, record (PutItem normal_item None) idle))
    by reflexivity.
  split; [exact Hrun|].
  exact (@safe_put_item_is_idempotent_on_its_result
           calm raw_item normal_item idle _ idle Hrun).
Defined.

(** * The pages *)

(** ** Dictionaries *)

Section DictFacts.

Variable V : Type.

Lemma dict_get_set_same (d : dict V) (k : string) (v : V) :
  dict_get (dict_set d k v) k = Some v.
Proof.
  induction d as [|[k' v'] d IH]; simpl.
  - rewrite String.eqb_refl. reflexivity.
  - destruct (String.eqb k' k) eqn:Hk; simpl; rewrite Hk; auto.
Qed.

Lemma dict_get_set_other (d : dict V) (k k' : string) (v : V) :
  k' <> k -> dict_get (dict_set d k v) k' = dict_get d k'.
Proof.
  intros Hne. induction d as [|[k0 v0] d IH]; simpl.
  - destruct (String.eqb k k') eqn:Hk; [|reflexivity].
    apply String.eqb_eq in Hk. congruence.
  - destruct (String.eqb k0 k) eqn:Hk; simpl.
    + apply String.eqb_eq in Hk. subst k0.
      destruct (String.eqb k k') eqn:Hk'; [|reflexivity].
      apply String.eqb_eq in Hk'. congruence.
    + destruct (String.eqb k0 k'); auto.
Qed.

Lemma dict_set_same (d : dict V) (k : string) (v : V) :
  dict_get d k = Some v -> dict_set d k v = d.
Proof.
  induction d as [|[k' v'] d IH]; simpl; [discriminate|].
  destruct (String.eqb k' k) eqn:Hk.
  - intros [= ->]. reflexivity.
  - intros H. rewrite (IH H). reflexivity.
Qed.

Lemma dict_set_set (d : dict V) (k : string) (v v' : V) :
  dict_set (dict_set d k v) k v' = dict_set d k v'.
Proof.
  induction d as [|[k0 v0] d IH]; simpl.
  - rewrite String.eqb_refl. reflexivity.
  - destruct (String.eqb k0 k) eqn:Hk; simpl; rewrite Hk; [reflexivity|].
    rewrite IH. reflexivity.
Qed.

End DictFacts.

(** ** The travel history *)

Section HistoryFacts.

Lemma contains_In (l : list string) (x : string) :
  contains l x = true <-> In x l.
Proof.
  unfold contains. rewrite existsb_exists. split.
  - intros (y & Hy & Heq). apply String.eqb_eq in Heq. subst. exact Hy.
  - intros H. exists x. split; [exact H|apply String.eqb_refl].
Qed.

Lemma contains_app (l : list string) (x y : string) :
  contains (l ++ [y]) x = (contains l x || String.eqb x y)%bool.
Proof.
  unfold contains. rewrite existsb_app. simpl. rewrite orb_false_r.
  reflexivity.
Qed.

(** The one step of the history: what [add_to_travel_history] returns. *)
Lemma add_to_travel_history_eq (u b : string) (h : dict (list string)) :
  add_to_travel_history u b h
  = eret (if contains (get_list h u) b
          then match dict_get h u with
               | None => dict_set h u []
               | Some _ => h
               end
          else dict_set h u (get_list h u ++ [b])).
Proof.
  unfold add_to_travel_history, get_list, dict_subscript.
  destruct (dict_get h u) as [l|] eqn:Hu.
  - rewrite Hu. simpl. destruct (contains l b); reflexivity.
  - rewrite dict_get_set_same. simpl. rewrite dict_set_set. reflexivity.
Qed.

(** The step in terms of the lists. *)
Lemma add_to_travel_history_step (u b : string) (h : dict (list string)) :
  exists h',
    add_to_travel_history u b h = eret h' /\
    get_list h' u
    = (if contains (get_list h u) b then get_list h u
       else get_list h u ++ [b]) /\
    (forall u', u' <> u -> dict_get h' u' = dict_get h u').
Proof.
  rewrite add_to_travel_history_eq. eexists. split; [reflexivity|]. split.
  - destruct (contains (get_list h u) b) eqn:Hc.
    + unfold get_list in *. destruct (dict_get h u) eqn:Hu.
      * rewrite Hu. reflexivity.
      * discriminate Hc.
    + unfold get_list at 1. rewrite dict_get_set_same. reflexivity.
  - intros u' Hne. destruct (contains (get_list h u) b).
    + destruct (dict_get h u); [reflexivity|].
      apply dict_get_set_other, Hne.
    + apply dict_get_set_other, Hne.
Qed.

(** X12: [add_to_travel_history] never raises.  Afterwards the bus is in
    the list of the user: the list is the one before when it held the bus
    already, and the one before with the bus added at the end otherwise.
    The lists of the other users are what they were, and a second call
    with the same arguments changes nothing. *)
Theorem add_to_travel_history_records_a_bus_once
    (u b : string) (h : dict (list string)) :
  exists h',
    add_to_travel_history u b h = eret h' /\
    get_list h' u
    = (if contains (get_list h u) b then get_list h u
       else get_list h u ++ [b]) /\
    contains (get_list h' u) b = true /\
    (forall u', u' <> u -> dict_get h' u' = dict_get h u') /\
    add_to_travel_history u b h' = eret h'.
Proof.
  rewrite add_to_travel_history_eq. eexists. split; [reflexivity|].
  assert (Hlist :
    get_list (if contains (get_list h u) b
              then match dict_get h u with
                   | None => dict_set h u []
                   | Some _ => h
                   end
              else dict_set h u (get_list h u ++ [b])) u
    = (if contains (get_list h u) b then get_list h u
       else get_list h u ++ [b])).
  { destruct (contains (get_list h u) b) eqn:Hc.
    - unfold get_list in *. destruct (dict_get h u) eqn:Hu.
      + rewrite Hu. reflexivity.
      + discriminate Hc.
    - unfold get_list at 1. rewrite dict_get_set_same. reflexivity. }
  assert (Hin :
    contains (if contains (get_list h u) b then get_list h u
              else get_list h u ++ [b]) b = true).
  { destruct (contains (get_list h u) b) eqn:Hc; [exact Hc|].
    rewrite contains_app, String.eqb_refl. apply orb_true_r. }
  split; [exact Hlist|]. split; [rewrite Hlist; exact Hin|]. split.
  - intros u' Hne. destruct (contains (get_list h u) b).
    + destruct (dict_get h u); [reflexivity|].
      apply dict_get_set_other, Hne.
    + apply dict_get_set_other, Hne.
  - rewrite add_to_travel_history_eq, Hlist, Hin. f_equal.
    destruct (contains (get_list h u) b) eqn:Hc.
    + destruct (dict_get h u) eqn:Hu; [rewrite Hu; reflexivity|].
      rewrite dict_get_set_same. reflexivity.
    + rewrite dict_get_set_same. reflexivity.
Qed.

Lemma first_seen_snoc (l : list string) (b : string) :
  first_seen (l ++ [b])
  = (if contains (first_seen l) b then first_seen l
     else first_seen l ++ [b]).
Proof. unfold first_seen. rewrite fold_left_app. reflexivity. Qed.

Lemma first_seen_NoDup (l : list string) : NoDup (first_seen l).
Proof.
  induction l as [|b l IH] using rev_ind; [constructor|].
  rewrite first_seen_snoc.
  destruct (contains (first_seen l) b) eqn:Hc; [exact IH|].
  apply NoDup_app; [exact IH|repeat constructor; intros []|].
  intros x Hx [<-|[]]. apply contains_In in Hx. congruence.
Qed.

Lemma first_seen_In (l : list string) (x : string) :
  In x (first_seen l) <-> In x l.
Proof.
  induction l as [|b l IH] using rev_ind; [reflexivity|].
  rewrite first_seen_snoc, in_app_iff.
  destruct (contains (first_seen l) b) eqn:Hc.
  - rewrite IH. split; [auto|]. intros [H|[<-|[]]]; [exact H|].
    apply IH, contains_In, Hc.
  - rewrite in_app_iff, IH. reflexivity.
Qed.

Lemma visits_of_snoc (u u' b : string) (visits : list (string * string)) :
  visits_of u (visits ++ [(u', b)])
  = (if String.eqb u' u then visits_of u visits ++ [b]
     else visits_of u visits).
Proof.
  unfold visits_of. rewrite filter_app, map_app. simpl.
  destruct (String.eqb u' u); simpl; [reflexivity|apply app_nil_r].
Qed.

Lemma after_visits_app (v1 v2 : list (string * string))
    (h : dict (list string)) :
  after_visits (v1 ++ v2) h = ebind (after_visits v1 h) (after_visits v2).
Proof.
  revert h. induction v1 as [|[u b] v1 IH]; intros h; [reflexivity|].
  simpl. rewrite add_to_travel_history_eq. simpl. apply IH.
Qed.

(** X13: Whatever the visits recorded since the dictionary was empty, no
    call raised, and the list of every user holds the buses that user
    visited, each once, in the order of the first visits. *)
Theorem travel_history_is_the_order_of_first_visits
    (visits : list (string * string)) :
  exists h,
    after_visits visits [] = eret h /\
    forall u,
      get_list h u = first_seen (visits_of u visits) /\
      NoDup (get_list h u) /\
      (forall b, In b (get_list h u) <-> In (u, b) visits).
Proof.
  assert (Hmain : exists h,
    after_visits visits [] = eret h /\
    forall u, get_list h u = first_seen (visits_of u visits)).
  { induction visits as [|[u b] visits IH] using rev_ind.
    - exists []. split; reflexivity.
    - destruct IH as (h & Hrun & Hh).
      rewrite after_visits_app, Hrun. simpl.
      destruct (add_to_travel_history_step u b h)
        as (h' & Hadd & Hlist & Hother).
      rewrite Hadd. exists h'. split; [reflexivity|].
      intros u0. rewrite visits_of_snoc.
      destruct (String.eqb u u0) eqn:Hu.
      + apply String.eqb_eq in Hu. subst u0.
        rewrite first_seen_snoc, <- Hh. exact Hlist.
      + rewrite <- Hh. unfold get_list. rewrite Hother; [reflexivity|].
        intros ->. rewrite String.eqb_refl in Hu. discriminate. }
  destruct Hmain as (h & Hrun & Hh). exists h. split; [exact Hrun|].
  intros u. split; [apply Hh|]. rewrite Hh.
  split; [apply first_seen_NoDup|].
  intros b. rewrite first_seen_In. unfold visits_of.
  rewrite in_map_iff. split.
  - intros ([u' b'] & <- & Hin). apply filter_In in Hin.
    destruct Hin as [Hin Heq]. apply String.eqb_eq in Heq. simpl in *.
    subst. exact Hin.
  - intros Hin. exists (u, b). split; [reflexivity|].
    apply filter_In. split; [exact Hin|apply String.eqb_refl].
Qed.

End HistoryFacts.

Section TravelHistory.

Variable B : web.

Lemma set_queries_nil (st : app_state) :
  set_queries (queries st ++ []) st = st.
Proof. rewrite app_nil_r. destruct st; reflexivity. Qed.

Lemma history_loop_cons (b : string) (rest : list string)
    (acc : list Entry.t) (st : app_state) :
  history_loop B (b :: rest) acc st
  = match lookup buses b with
    | None => history_loop B rest acc st
    | Some info =>
        match query B b 5 st with
        | (inl resp, st') =>
            let trips := get_items resp in
            history_loop B rest
              (acc ++ [Entry.make b info (List.length trips)
                                  (hd_error trips)]) st'
        | (inr _, st') =>
            history_loop B rest (acc ++ [Entry.make b info 0 None]) st'
        end
    end.
Proof. cbn [history_loop]. destruct (lookup buses b); reflexivity. Qed.

Lemma history_loop_spec (l : list string) :
  forall (acc : list Entry.t) (st : app_state),
  exists new,
    history_loop B l acc st
    = (inl (acc ++ new),
       set_queries
         (queries st ++ map (fun b => (b, 5%nat)) (filter known l)) st) /\
    map Entry.bus_id new = filter known l /\
    Forall (entry_ok B) new.
Proof.
  induction l as [|b l IH]; intros acc st.
  - exists []. simpl. rewrite app_nil_r, set_queries_nil.
    split; [reflexivity|]. split; [reflexivity|constructor].
  - rewrite history_loop_cons.
    change (filter known (b :: l))
      with (if known b then b :: filter known l else filter known l).
    assert (Hk : known b = match lookup buses b with
                           | Some _ => true
                           | None => false
                           end) by reflexivity.
    destruct (lookup buses b) as [info|] eqn:Hb; rewrite Hk; [|apply IH].
    unfold query. cbv beta iota.
    destruct (table_query B (queries st) b 5) as [resp|e] eqn:Hq.
    + destruct (IH (acc ++ [Entry.make b info (List.length (get_items resp))
                                       (hd_error (get_items resp))])
                   (set_queries (queries st ++ [(b, 5%nat)]) st))
        as (new & Hrun & Hids & Hok).
      eexists (_ :: new). cbv zeta. rewrite Hrun. split; [|split].
      * f_equal; [rewrite <- app_assoc; reflexivity|].
        change (map (fun b0 : string => (b0, 5%nat)) (b :: filter known l))
          with ([(b, 5%nat)]
                ++ map (fun b0 : string => (b0, 5%nat)) (filter known l)).
        rewrite app_assoc. reflexivity.
      * change (map Entry.bus_id (?[x] :: new))
          with (b :: map Entry.bus_id new).
        rewrite Hids. reflexivity.
      * constructor; [|exact Hok]. split; [exact Hb|].
        cbv beta iota delta [Entry.last_trip Entry.trip_count].
        split; [|split].
        -- destruct (get_items resp); simpl; split; intros H;
             try reflexivity; discriminate H.
        -- intros Hlim. destruct resp as [items|]; simpl; [|lia].
           apply (Hlim _ _ _ _ Hq).
        -- intros Hdown. destruct (Hdown (queries st) b 5%nat) as (e & He).
           congruence.
    + destruct (IH (acc ++ [Entry.make b info 0 None])
                   (set_queries (queries st ++ [(b, 5%nat)]) st))
        as (new & Hrun & Hids & Hok).
      eexists (_ :: new). rewrite Hrun. split; [|split].
      * f_equal; [rewrite <- app_assoc; reflexivity|].
        change (map (fun b0 : string => (b0, 5%nat)) (b :: filter known l))
          with ([(b, 5%nat)]
                ++ map (fun b0 : string => (b0, 5%nat)) (filter known l)).
        rewrite app_assoc. reflexivity.
      * change (map Entry.bus_id (?[y] :: new))
          with (b :: map Entry.bus_id new).
        rewrite Hids. reflexivity.
      * constructor; [|exact Hok]. split; [exact Hb|].
        cbv beta iota delta [Entry.last_trip Entry.trip_count].
        split; [split; reflexivity|]. split; [lia|reflexivity].
Qed.

Lemma get_travel_history_spec (u : string) (st : app_state) :
  exists entries,
    get_travel_history B u st
    = (inl entries,
       set_queries
         (queries st
          ++ map (fun b => (b, 5%nat))
                 (filter known (get_list (user_travel_history st) u))) st) /\
    map Entry.bus_id entries
    = filter known (get_list (user_travel_history st) u) /\
    Forall (entry_ok B) entries.
Proof.
  unfold get_travel_history.
  destruct (history_loop_spec (get_list (user_travel_history st) u) [] st)
    as (new & Hrun & Hids & Hok).
  exists new. auto.
Qed.

(** X14: [get_travel_history] never raises, whatever the table does.  It
    returns one entry for each bus of the user's list that is a key of
    [buses], in the order of the list, with the route of that key; it
    makes one query with the limit 5 for each entry and changes nothing
    else; an entry has no last trip exactly when its count is 0.  A user
    without a list gets no entry and no query is made. *)
Theorem get_travel_history_lists_the_known_buses
    (u : string) (st : app_state) :
  exists entries,
    get_travel_history B u st
    = (inl entries,
       set_queries
         (queries st
          ++ map (fun b => (b, 5%nat))
                 (filter known (get_list (user_travel_history st) u))) st) /\
    map Entry.bus_id entries
    = filter known (get_list (user_travel_history st) u) /\
    (forall e, In e entries ->
       lookup buses (Entry.bus_id e) = Some (Entry.bus_info e) /\
       (Entry.last_trip e = None <-> Entry.trip_count e = 0%nat)) /\
    (dict_get (user_travel_history st) u = None ->
     get_travel_history B u st = (inl [], st)).
Proof.
  destruct (get_travel_history_spec u st) as (entries & Hrun & Hids & Hok).
  exists entries. split; [exact Hrun|]. split; [exact Hids|]. split.
  - intros e He. rewrite Forall_forall in Hok.
    destruct (Hok e He) as (H1 & H2 & _). auto.
  - intros Hnone. unfold get_travel_history, get_list. rewrite Hnone.
    reflexivity.
Qed.

End TravelHistory.




(** X16: When every query raises, [get_travel_history] still returns an
    entry for each known bus of the list, each with the count 0 and
    without a last trip. *)
Theorem travel_history_survives_a_failing_table
    (B : web) (u : string) (st : app_state) :
  table_down B ->
  map Entry.bus_id (entries_of B u st)
  = filter known (get_list (user_travel_history st) u) /\
  forall e, In e (entries_of B u st) ->
    Entry.trip_count e = 0%nat /\ Entry.last_trip e = None.
Proof.
  intros Hdown. unfold entries_of.
  destruct (get_travel_history_spec B u st) as (entries & Hrun & Hids & Hok).
  rewrite Hrun. simpl. split; [exact Hids|].
  intros e He. rewrite Forall_forall in Hok.
  destruct (Hok e He) as (_ & Hiff & _ & H0).
  split; [apply H0, Hdown|]. apply Hiff, H0, Hdown.
Qed.

Lemma no_table_down : table_down no_table.
Proof. intros log b n. eexists. reflexivity. Qed.

Lemma travel_history_survives_a_failing_table_witness :
  table_down no_table /\
  map Entry.bus_id (entries_of no_table "asha" rider) = ["10A"; "65G"]%string.
Proof.
  split; [exact no_table_down|].
  exact (proj1 (@travel_history_survives_a_failing_table
                  no_table "asha" rider no_table_down)).
Defined.

(** ** What a view leaves alone *)

Section Frame.

Variable E : env.
Variable B : web.
Variable X : Type.
Variable f : app_state -> X.

Hypothesis f_flashed : forall x st, f (set_flashed x st) = f st.
Hypothesis f_queries : forall x st, f (set_queries x st) = f st.
Hypothesis f_draws : forall x st, f (set_draws x st) = f st.
Hypothesis f_aws : forall x st, f (set_aws x st) = f st.
Hypothesis f_subscriptions : forall x st, f (set_subscriptions x st) = f st.
Hypothesis f_salts : forall x st, f (set_salts x st) = f st.

Lemma keeps_wret (A : Type) (a : A) : keeps f (wret a).
Proof. intros st. reflexivity. Qed.

Lemma keeps_wraise (A : Type) (e : pyexn) : keeps f (@wraise A e).
Proof. intros st. reflexivity. Qed.

Lemma keeps_wbind (A C : Type) (c : W A) (k : A -> W C) :
  keeps f c -> (forall a, keeps f (k a)) -> keeps f (wbind c k).
Proof.
  intros Hc Hk st. unfold wbind. specialize (Hc st).
  destruct (c st) as [[a|e] st']; simpl in *; [|exact Hc].
  rewrite Hk. exact Hc.
Qed.

Lemma keeps_flash (m c : string) : keeps f (flash m c).
Proof. intros st. apply f_flashed. Qed.

Lemma keeps_flash_then (A : Type) (m c : string) (a : A) :
  keeps f (wbind (flash m c) (fun _ => wret a)).
Proof. apply keeps_wbind; [apply keeps_flash|intros; apply keeps_wret]. Qed.

Lemma keeps_query (b : string) (n : nat) : keeps f (query B b n).
Proof. intros st. apply f_queries. Qed.

Lemma keeps_random_choice (A : Type) (l : list A) :
  keeps f (random_choice B l).
Proof. intros st. destruct l; simpl; [reflexivity|apply f_draws]. Qed.

Lemma keeps_random_uniform (a b : R) : keeps f (random_uniform B a b).
Proof. intros st. apply f_draws. Qed.

Lemma keeps_on_aws (A : Type) (c : M A) : keeps f (on_aws c).
Proof.
  intros st. unfold on_aws. destruct (c (aws st)) as [[a|e] w]; apply f_aws.
Qed.

Lemma keeps_for_each (A S : Type) (l : list A) (body : A -> S -> W S) :
  (forall x s, keeps f (body x s)) ->
  forall acc, keeps f (for_each l body acc).
Proof.
  intros Hbody. induction l as [|x l IH]; intros acc.
  - apply keeps_wret.
  - simpl. apply keeps_wbind; [apply Hbody|exact IH].
Qed.

Lemma keeps_session_user : keeps f session_user.
Proof.
  intros st. unfold session_user. destruct (user_id (session st)); reflexivity.
Qed.

Lemma keeps_get_travel_history (u : string) :
  keeps f (get_travel_history B u).
Proof.
  intros st. destruct (get_travel_history_spec B u st) as (es & Hrun & _).
  rewrite Hrun. apply f_queries.
Qed.

Lemma keeps_sns_subscribe_email (e : string) :
  keeps f (sns_subscribe_email B e).
Proof. intros st. apply f_subscriptions. Qed.

Lemma keeps_login_required (v : W page) :
  keeps f v -> keeps f (login_required v).
Proof.
  intros Hv st. unfold login_required.
  destruct (user_id (session st)); [apply Hv|].
  apply (keeps_flash_then _ _ _).
Qed.

Lemma keeps_index : keeps f index.
Proof.
  intros st. unfold index. destruct (user_id (session st)); reflexivity.
Qed.

Lemma keeps_home : keeps f (home B).
Proof.
  apply keeps_login_required.
  apply keeps_wbind; [apply keeps_session_user|intros u].
  apply keeps_wbind; [apply keeps_session_user|intros u'].
  apply keeps_wbind; [apply keeps_get_travel_history|intros es].
  apply keeps_wret.
Qed.

Lemma keeps_buses_page : keeps f buses_page.
Proof. apply keeps_login_required, keeps_wret. Qed.

Lemma keeps_bus_history (id : string) : keeps f (bus_history B id).
Proof.
  apply keeps_login_required. cbv zeta.
  destruct (lookup buses (strip (upper id))); [|apply keeps_flash_then].
  intros st. unfold query.
  destruct (table_query B (queries st) (strip (upper id)) 25);
    apply f_queries.
Qed.

Lemma keeps_subscribe (req : request) : keeps f (subscribe B req).
Proof.
  apply keeps_login_required.
  apply keeps_wbind; [apply keeps_session_user|intros u].
  intros st. destruct (method req); [reflexivity|]. cbv zeta.
  destruct (is_empty (strip (form_get (Form.email (form req))))).
  - apply (keeps_flash_then _ _ _).
  - apply keeps_wbind; [apply keeps_sns_subscribe_email|].
    intros [|m|e].
    + apply (keeps_flash_then _ _ _).
    + apply (keeps_flash_then _ _ _).
    + apply keeps_wraise.
Qed.

Lemma keeps_simulate (id : string) : keeps f (simulate E B id).
Proof.
  apply keeps_login_required. cbv zeta.
  destruct (lookup buses (strip (upper id))) as [bus|];
    [|apply keeps_flash_then].
  apply keeps_wbind; [apply keeps_random_choice|intros stop].
  apply keeps_wbind; [apply keeps_random_uniform|intros dlat].
  apply keeps_wbind; [apply keeps_random_uniform|intros dlon].
  apply keeps_wbind; [apply keeps_random_uniform|intros speed].
  apply keeps_wbind; [intros st; apply f_aws|intros _].
  apply keeps_wbind; [apply keeps_flash|intros _]. apply keeps_wret.
Qed.

Lemma keeps_test_record (id : string) (bus : Bus.t) (i count : nat) :
  keeps f (test_record E B id bus i count).
Proof.
  apply keeps_wbind; [apply keeps_random_choice|intros stop].
  apply keeps_wbind; [apply keeps_on_aws|intros now].
  apply keeps_wbind; [apply keeps_random_uniform|intros dlat].
  apply keeps_wbind; [apply keeps_random_uniform|intros dlon].
  apply keeps_wbind; [apply keeps_random_uniform|intros speed].
  apply keeps_wbind; [apply keeps_random_uniform|intros dist].
  apply keeps_wbind; [apply keeps_on_aws|intros _]. apply keeps_wret.
Qed.

Lemma keeps_test_records (table : list (string * Bus.t)) (count : nat) :
  keeps f (test_records E B table count).
Proof.
  apply keeps_for_each. intros entry s. apply keeps_for_each.
  intros i c. apply keeps_test_record.
Qed.

Lemma keeps_generate_test_data : keeps f (generate_test_data E B).
Proof.
  apply keeps_login_required.
  apply keeps_wbind; [apply keeps_test_records|intros count].
  apply keeps_wbind; [apply keeps_flash|intros _]. apply keeps_wret.
Qed.

Lemma keeps_register (req : request) :
  (forall x st, f (set_users x st) = f st) -> keeps f (register B req).
Proof.
  intros f_users st. unfold register.
  destruct (method req); [reflexivity|].
  destruct (is_empty (strip (form_get (Form.username (form req))))
            || is_empty (form_get (Form.password (form req))))%bool.
  - apply (keeps_flash_then _ _ _).
  - destruct (dict_get (users st)
                (strip (form_get (Form.username (form req))))).
    + apply (keeps_flash_then _ _ _).
    + cbv zeta.
      rewrite (keeps_flash_then _ _ _).
      rewrite f_users. apply f_salts.
Qed.

Lemma keeps_login (req : request) :
  (forall x st, f (set_session x st) = f st) -> keeps f (login B req).
Proof.
  intros f_session st. unfold login.
  destruct (method req); [reflexivity|].
  destruct (dict_get (users st)
              (strip (form_get (Form.username (form req))))) as [u|].
  - destruct (check_password_hash B (pw u)
                (form_get (Form.password (form req)))).
    + rewrite (keeps_flash_then _ _ _).
      apply f_session.
    + apply (keeps_flash_then _ _ _).
  - apply (keeps_flash_then _ _ _).
Qed.

Lemma keeps_logout :
  (forall x st, f (set_session x st) = f st) -> keeps f logout.
Proof.
  intros f_session st. unfold logout.
  rewrite (keeps_flash_then _ _ _).
  apply f_session.
Qed.

Lemma keeps_bus_details (id : string) :
  (forall x st, f (set_user_travel_history x st) = f st) ->
  keeps f (bus_details B id).
Proof.
  intros f_history. apply keeps_login_required. cbv zeta.
  destruct (lookup buses (strip (upper id))) as [bus|];
    [|apply keeps_flash_then].
  apply keeps_wbind; [apply keeps_session_user|intros u].
  apply keeps_wbind.
  - intros st.
    destruct (add_to_travel_history u (strip (upper id))
                (user_travel_history st)); [apply f_history|reflexivity].
  - intros _ st. unfold query.
    destruct (table_query B (queries st) (strip (upper id)) 1);
      apply f_queries.
Qed.

End Frame.

(** ** Invariants of the state *)

Section Invariants.

Variable E : env.
Variable B : web.

Ltac frame :=
  first [ apply keeps_index | apply keeps_home | apply keeps_buses_page
        | apply keeps_bus_history | apply keeps_subscribe
        | apply keeps_simulate | apply keeps_generate_test_data
        | apply keeps_register | apply keeps_login | apply keeps_logout
        | apply keeps_bus_details ];
  intros; reflexivity.

(** Only [register] touches [users]. *)
Lemma users_after (r : route) (st : app_state) :
  match r with Register _ => False | _ => True end ->
  users (after E B r st) = users st.
Proof.
  destruct r; intros H; try contradiction; unfold after, view;
    try reflexivity; frame.
Qed.


(** Only [bus_details] touches the travel history. *)
Lemma history_after (r : route) (st : app_state) :
  match r with BusDetails _ => False | _ => True end ->
  user_travel_history (after E B r st) = user_travel_history st.
Proof.
  destruct r; intros H; try contradiction; unfold after, view;
    try reflexivity; frame.
Qed.

(** What [register] does to [users]. *)
Lemma register_users (req : request) (st : app_state) :
  users (snd (register B req st)) = users st \/
  exists a,
    let u := strip (form_get (Form.username (form req))) in
    u <> EmptyString /\ dict_get (users st) u = None /\
    users (snd (register B req st)) = dict_set (users st) u a.
Proof.
  unfold register. destruct (method req); [left; reflexivity|].
  destruct (is_empty (strip (form_get (Form.username (form req)))))
    eqn:Hu; [left; reflexivity|].
  destruct (is_empty (form_get (Form.password (form req))));
    [left; reflexivity|].
  cbv beta iota delta [orb].
  destruct (dict_get (users st)
              (strip (form_get (Form.username (form req))))) eqn:Hget;
    [left; reflexivity|].
  right. eexists. cbv zeta. split; [|split; [reflexivity|reflexivity]].
  apply String.eqb_neq, Hu.
Qed.


(** X17: No request changes or removes an account: whatever the route and
    the form, a name that is registered keeps its password hash and its
    address.  In particular [register] does not overwrite an account. *)
Theorem no_request_changes_an_account
    (r : route) (st : app_state) (u : string) (a : account) :
  dict_get (users st) u = Some a ->
  dict_get (users (after E B r st)) u = Some a.
Proof.
  intros Hu.
  destruct r; try (rewrite users_after; [exact Hu|exact I]).
  unfold after, view.
  destruct (register_users req st) as [->|(a' & Hne & Hfree & ->)];
    [exact Hu|].
  rewrite dict_get_set_other; [exact Hu|].
  intros ->. cbv zeta in Hfree. rewrite Hfree in Hu. discriminate Hu.
Qed.

(** X18: Every request keeps the registered names stripped and not
    empty. *)
Theorem registered_names_stay_stripped (r : route) (st : app_state) :
  names_ok st -> names_ok (after E B r st).
Proof.
  intros Hok.
  destruct r; try (unfold names_ok; rewrite users_after; [exact Hok|exact I]).
  unfold after, view. intros u a.
  destruct (register_users req st) as [->|(a' & Hne & Hnew & ->)];
    [apply Hok|].
  destruct (string_dec u (strip (form_get (Form.username (form req)))))
    as [->|Hdiff].
  - intros _. split; [apply strip_idem|exact Hne].
  - rewrite dict_get_set_other by exact Hdiff. apply Hok.
Qed.



End Invariants.

(** ** [bus_details] and the travel history *)

Section Details.

Variable E : env.
Variable B : web.

(** The run of [bus_details] for a client that is logged in and a bus
    that is known. *)
Lemma bus_details_run (id u : string) (bus : Bus.t) (st : app_state) :
  user_id (session st) = Some u ->
  lookup buses (strip (upper id)) = Some bus ->
  exists h,
    add_to_travel_history u (strip (upper id)) (user_travel_history st)
    = eret h /\
    bus_details B id st
    = (inl (BusDetailsPage (strip (upper id)) bus
              match table_query B (queries st) (strip (upper id)) 1 with
              | inl resp => shown_latest (get_items resp)
              | inr _ => None
              end),
       set_queries (queries st ++ [(strip (upper id), 1%nat)])
                   (set_user_travel_history h st)).
Proof.
  intros Hu Hb.
  destruct (add_to_travel_history_step u (strip (upper id))
              (user_travel_history st)) as (h & Hadd & _).
  exists h. split; [exact Hadd|].
  unfold bus_details, login_required. rewrite Hu. cbv zeta. rewrite Hb.
  unfold wbind, session_user. rewrite Hu, Hadd. unfold query, eret.
  cbv beta iota.
  change (queries (set_user_travel_history h st)) with (queries st).
  destruct (table_query B (queries st) (strip (upper id)) 1); reflexivity.
Qed.

(** What [bus_details] does to the travel history. *)
Lemma bus_details_history (id : string) (st : app_state) :
  user_travel_history (snd (bus_details B id st)) = user_travel_history st \/
  exists u bus,
    user_id (session st) = Some u /\
    lookup buses (strip (upper id)) = Some bus /\
    add_to_travel_history u (strip (upper id)) (user_travel_history st)
    = eret (user_travel_history (snd (bus_details B id st))).
Proof.
  destruct (user_id (session st)) as [u|] eqn:Hu.
  - destruct (lookup buses (strip (upper id))) as [bus|] eqn:Hb.
    + right. exists u, bus.
      destruct (bus_details_run id st Hu Hb) as (h & Hadd & ->).
      auto.
    + left. unfold bus_details, login_required. rewrite Hu. cbv zeta.
      rewrite Hb. reflexivity.
  - left. unfold bus_details, login_required. rewrite Hu. reflexivity.
Qed.

(** X20: Every request keeps the travel history clean: the list of every
    user holds keys of [buses] only, each at most once. *)
Theorem travel_history_stays_clean (r : route) (st : app_state) :
  history_ok st -> history_ok (after E B r st).
Proof.
  intros Hok.
  destruct r;
    try (unfold history_ok; rewrite history_after; [exact Hok|exact I]).
  unfold after, view. cbv beta iota. unfold history_ok.
  destruct (bus_details_history bus_id st) as [->|(u & bus & _ & Hb & Hadd)];
    [exact Hok|].
  destruct (add_to_travel_history_step u (strip (upper bus_id))
              (user_travel_history st)) as (h & Hadd' & Hlist & Hother).
  rewrite Hadd' in Hadd. injection Hadd as Hh. rewrite <- Hh.
  intros u0 l Hl.
  destruct (string_dec u0 u) as [->|Hdiff].
  2:{ rewrite Hother in Hl by exact Hdiff. apply (Hok _ _ Hl). }
  assert (Hl' : get_list h u = l) by (unfold get_list; rewrite Hl; reflexivity).
  rewrite Hlist in Hl'.
  assert (Hold : NoDup (get_list (user_travel_history st) u) /\
                 forall b, In b (get_list (user_travel_history st) u) ->
                           known b = true).
  { unfold get_list.
    destruct (dict_get (user_travel_history st) u) as [l0|] eqn:Hl0.
    - apply (Hok _ _ Hl0).
    - split; [constructor|intros b []]. }
  destruct Hold as [Hnd Hkn].
  destruct (contains (get_list (user_travel_history st) u)
              (strip (upper bus_id))) eqn:Hc; subst l.
  - auto.
  - split.
    + apply NoDup_app; [exact Hnd|repeat constructor; intros []|].
      intros x Hx [<-|[]]. apply contains_In in Hx. congruence.
    + intros b Hin. apply in_app_iff in Hin.
      destruct Hin as [Hin|[<-|[]]]; [apply Hkn, Hin|].
      unfold known. rewrite Hb. reflexivity.
Qed.

Lemma filter_all (A : Type) (p : A -> bool) (l : list A) :
  (forall x, In x l -> p x = true) -> filter p l = l.
Proof.
  induction l as [|x l IH]; intros H; [reflexivity|]. simpl.
  rewrite (H x (or_introl eq_refl)). f_equal.
  apply IH. intros y Hy. apply H. right. exact Hy.
Qed.

(** X21: With a clean travel history, the home page of a client that is
    logged in has an entry for every bus of that user's list, in the
    order of the list: none is skipped, whatever the table answers. *)
Theorem home_lists_the_whole_history (st : app_state) (u : string) :
  history_ok st ->
  user_id (session st) = Some u ->
  exists entries st',
    home B st = (inl (HomePage u entries), st') /\
    map Entry.bus_id entries = get_list (user_travel_history st) u.
Proof.
  intros Hok Hu.
  destruct (get_travel_history_spec B u st) as (entries & Hrun & Hids & _).
  exists entries. eexists. split.
  - unfold home, login_required. rewrite Hu.
    unfold wbind, session_user. rewrite Hu. cbv beta iota.
    rewrite Hu. cbv beta iota. rewrite Hrun. reflexivity.
  - rewrite Hids. apply filter_all. unfold get_list.
    destruct (dict_get (user_travel_history st) u) as [l|] eqn:Hl;
      [|intros x []].
    apply (Hok _ _ Hl).
Qed.

End Details.

Lemma initial_names_ok : names_ok initial.
Proof. intros u a H. discriminate H. Qed.


Lemma rider_history_ok : history_ok rider.
Proof.
  intros u l H. unfold rider in H.
  cbn [user_travel_history dict_get] in H.
  destruct (String.eqb "asha" u); [|discriminate H].
  injection H as <-. split.
  - constructor; [intros [H|[]]; discriminate H|].
    constructor; [intros []|constructor].
  - intros b [<-|[<-|[]]]; reflexivity.
Qed.

Lemma no_request_changes_an_account_witness :
  dict_get (users rider) "asha" = Some (mk_account "pw" EmptyString) /\
  dict_get
    (users (after calm quiet (Register (credentials " asha " "other")) rider))
    "asha"
  = Some (mk_account "pw" EmptyString).
Proof.
  split; [reflexivity|].
  exact (@no_request_changes_an_account calm quiet
           (Register (credentials " asha " "other")) rider "asha"
           (mk_account "pw" EmptyString) eq_refl).
Defined.

Lemma registered_names_stay_stripped_witness :
  names_ok initial /\
  names_ok (after calm quiet (Register (credentials " asha " "pw")) initial).
Proof.
  split; [exact initial_names_ok|].
  exact (@registered_names_stay_stripped calm quiet
           (Register (credentials " asha " "pw")) initial initial_names_ok).
Defined.


Lemma travel_history_stays_clean_witness :
  history_ok rider /\
  history_ok (after calm quiet (BusDetails " 100m") rider).
Proof.
  split; [exact rider_history_ok|].
  exact (@travel_history_stays_clean calm quiet (BusDetails " 100m") rider
           rider_history_ok).
Defined.

Lemma home_lists_the_whole_history_witness :
  history_ok rider /\
  user_id (session rider) = Some "asha"%string /\
  exists entries st',
    home quiet rider = (inl (HomePage "asha" entries), st') /\
    map Entry.bus_id entries = ["10A"; "65G"]%string.
Proof.
  split; [exact rider_history_ok|]. split; [reflexivity|].
  exact (@home_lists_the_whole_history quiet rider "asha"
           rider_history_ok eq_refl).
Defined.

(** ** The pages one by one *)

Section Gate.

Variable E : env.
Variable B : web.

(** X22: A client without a session gets nothing from a route behind
    [login_required]: the answer is the redirection to the login page,
    and the only effect is the message "Please login first.".  No query,
    no write, no alert, no subscription, no draw, and no change of the
    accounts or of the travel history. *)
Theorem anonymous_client_is_sent_to_login (r : route) (st : app_state) :
  guarded r = true ->
  user_id (session st) = None ->
  exists v,
    view E B r = Some v /\
    v st = (inl (Redirect to_login),
            set_flashed
              (flashed st ++ [("Please login first."%string,
                               "warning"%string)]) st).
Proof.
  intros Hg Hanon.
  destruct r; try discriminate Hg; eexists; (split; [reflexivity|]);
    unfold home, buses_page, bus_details, bus_history, subscribe, simulate,
      generate_test_data, login_required;
    rewrite Hanon; reflexivity.
Qed.

(** X23: Registration and login fit together.  When the hash of a
    password is accepted for that password, a client that registers a
    free name with a password and then logs in with the same password and
    a name that differs from the registered one by surrounding white
    space only is taken to the home page, with the stripped name as the
    user of a permanent session. *)
Theorem registration_then_login
    (name name' password : string) (st : app_state) :
  hashes_verify B ->
  strip name <> EmptyString ->
  password <> EmptyString ->
  dict_get (users st) (strip name) = None ->
  strip name' = strip name ->
  let st1 := after E B (Register (credentials name password)) st in
  fst (login B (credentials name' password) st1) = inl (Redirect to_home) /\
  session (snd (login B (credentials name' password) st1))
  = mk_session (Some (strip name)) true.
Proof.
  intros Hhash Hname Hpw Hfree Hsame st1.
  assert (Hu : dict_get (users st1) (strip name)
               = Some (mk_account
                         (generate_password_hash B (salts st) password)
                         EmptyString)).
  { subst st1. unfold after, view, register, credentials.
    cbn [method form Form.username Form.password Form.email form_get].
    apply String.eqb_neq in Hname. apply String.eqb_neq in Hpw.
    unfold is_empty. rewrite Hname, Hpw. cbv beta iota delta [orb].
    rewrite Hfree. cbv zeta.
    change (users (set_salts (S (salts st)) st)) with (users st).
    apply dict_get_set_same. }
  unfold login, credentials.
  cbn [method form Form.username Form.password form_get].
  rewrite Hsame, Hu. cbn [pw]. rewrite Hhash. split; reflexivity.
Qed.

(** X24: [login] changes the session in one case only: the request is a
    POST, the stripped name is registered and the password is accepted
    for the hash of that account; the session is then the permanent
    session of that name.  A failed login leaves the session as it was:
    it does not end the session of a client that is logged in. *)
Theorem login_changes_the_session_only_on_success
    (req : request) (st : app_state) :
  session (snd (login B req st)) = session st \/
  exists a,
    let u := strip (form_get (Form.username (form req))) in
    method req = POST /\
    dict_get (users st) u = Some a /\
    check_password_hash B (pw a) (form_get (Form.password (form req)))
    = true /\
    session (snd (login B req st)) = mk_session (Some u) true.
Proof.
  unfold login.
  destruct (method req) eqn:Hm; [left; reflexivity|].
  destruct (dict_get (users st)
              (strip (form_get (Form.username (form req)))))
    as [a|] eqn:Hget; [|left; reflexivity].
  destruct (check_password_hash B (pw a)
              (form_get (Form.password (form req)))) eqn:Hpw;
    [|left; reflexivity].
  right. exists a. cbv zeta. repeat split. exact Hpw.
Qed.

End Gate.

Section Rows.

Variable E : env.
Variable B : web.






(** X26: For a client that is logged in, a bus that is not a key of
    [buses] after normalization changes nothing but the messages:
    [bus_details], [bus_history] and [simulate] answer with the
    redirection to the home page and an error message; no query is made,
    nothing is drawn or written, the travel history is what it was. *)
Theorem unknown_bus_changes_nothing (id u : string) (st : app_state) :
  user_id (session st) = Some u ->
  lookup buses (strip (upper id)) = None ->
  bus_details B id st
  = (inl (Redirect to_home),
     set_flashed
       (flashed st
        ++ [(("Bus " ++ strip (upper id) ++ " not found.")%string,
             "error"%string)]) st) /\
  bus_history B id st
  = (inl (Redirect to_home),
     set_flashed
       (flashed st
        ++ [(("Bus " ++ strip (upper id) ++ " not found.")%string,
             "error"%string)]) st) /\
  simulate E B id st
  = (inl (Redirect to_home),
     set_flashed
       (flashed st
        ++ [(("Unknown bus " ++ strip (upper id))%string,
             "error"%string)]) st).
Proof.
  intros Hu Hb.
  unfold bus_details, bus_history, simulate, login_required.
  rewrite Hu. cbv zeta. rewrite Hb. repeat split.
Qed.






(** X28: [subscribe] calls SNS at most once in a request, and only for a
    POST of a client that is logged in; the address it hands over is the
    address of the form without its surrounding white space, and it is
    never empty. *)
Theorem subscribe_sends_only_stripped_addresses
    (req : request) (st : app_state) :
  subscriptions (snd (subscribe B req st)) = subscriptions st \/
  exists address,
    subscriptions (snd (subscribe B req st))
    = subscriptions st ++ [address] /\
    address = strip (form_get (Form.email (form req))) /\
    strip address = address /\
    address <> EmptyString /\
    method req = POST /\
    user_id (session st) <> None.
Proof.
  unfold subscribe, login_required, session_user, sns_subscribe_email, wbind.
  destruct (user_id (session st)) as [u|] eqn:Hu; [|left; reflexivity].
  cbv beta iota zeta.
  destruct (method req); [left; reflexivity|].
  destruct (is_empty (strip (form_get (Form.email (form req))))) eqn:Hempty;
    [left; reflexivity|].
  right. exists (strip (form_get (Form.email (form req)))).
  split; [|split; [reflexivity|split; [apply strip_idem|split]]].
  - destruct (sns_client_subscribe B (subscriptions st)
                (strip (form_get (Form.email (form req)))));
      reflexivity.
  - apply String.eqb_neq, Hempty.
  - split; [reflexivity|discriminate].
Qed.

End Rows.

Lemma anonymous_client_is_sent_to_login_witness :
  guarded (Simulate "10a") = true /\
  user_id (session initial) = None /\
  exists v,
    view calm quiet (Simulate "10a") = Some v /\
    v initial
    = (inl (Redirect to_login),
       set_flashed
         (flashed initial ++ [("Please login first."%string,
                               "warning"%string)]) initial).
Proof.
  split; [reflexivity|]. split; [reflexivity|].
  exact (@anonymous_client_is_sent_to_login calm quiet (Simulate "10a")
           initial eq_refl eq_refl).
Defined.

Lemma quiet_hashes_verify : hashes_verify quiet.
Proof. intros n p. apply String.eqb_refl. Qed.

Lemma asha_not_empty : strip " asha " <> EmptyString.
Proof. discriminate. Qed.

Lemma pw_not_empty : "pw"%string <> EmptyString.
Proof. discriminate. Qed.

Lemma registration_then_login_witness :
  hashes_verify quiet /\
  fst (login quiet (credentials "asha" "pw")
         (after calm quiet (Register (credentials " asha " "pw")) initial))
  = inl (Redirect to_home).
Proof.
  split; [exact quiet_hashes_verify|].
  exact (proj1 (@registration_then_login calm quiet " asha " "asha" "pw"
                  initial quiet_hashes_verify asha_not_empty pw_not_empty
                  eq_refl eq_refl)).
Defined.


Lemma unknown_bus_changes_nothing_witness :
  user_id (session rider) = Some "asha"%string /\
  lookup buses (strip (upper "99z")) = None /\
  bus_details quiet "99z" rider
  = (inl (Redirect to_home),
     set_flashed
       (flashed rider ++ [("Bus 99Z not found."%string, "error"%string)])
       rider).
Proof.
  split; [reflexivity|]. split; [reflexivity|].
  exact (proj1 (@unknown_bus_changes_nothing calm quiet "99z" "asha" rider
                  eq_refl eq_refl)).
Defined.


(** ** [simulate] *)

Section Simulation.

Variable E : env.
Variable B : web.

(** A report without a time stamp whose numbers are real and whose bus
    is known: one [put_item], then at most one [publish]. *)
Lemma resolved_report_calls (data : Report.t) (w : world) (id : string)
    (bus : Bus.t) (x y : R) (v : pyfloat) :
  lat_of data = inl (Fin x) ->
  lon_of data = inl (Fin y) ->
  speed_of E data = inl v ->
  normalized_bus_id E data = id ->
  Report.timestamp data = None ->
  lookup buses id = Some bus ->
  exists it out rest,
    new_calls E data w = PutItem it out :: rest /\
    (rest = [] \/ exists s m o, rest = [Publish s m o]) /\
    Item.BusID it = Some (VStr id) /\
    Item.Status it = Some (VStr (status_of E data)) /\
    Item.Route it = Some (VStr (Bus.route bus)) /\
    exists s, In s (Bus.stops bus) /\
              Item.NextStop it = Some (VStr (Stop.name s)).
Proof.
  intros Hlat Hlon Hspeed Hid Hts Hlook.
  destruct (buses_entry _ Hlook) as (Hstrip & Hupper & _ & Hfin & Hne).
  destruct (nearest_stop_spec x y Hfin Hne) as (s0 & _ & Hnear0).
  assert (Hraw : normalize_timestamp E (raw_timestamp E data w)
                 = inl (clock E (reads w))).
  { unfold raw_timestamp. rewrite Hts. reflexivity. }
  assert (Hstored : forall lat lon speed bus0 next dist ts,
    resolved E data lat lon speed bus0 next dist ->
    let stored := stored_item E data w lat lon speed bus0 next dist ts in
    Item.BusID stored = Some (VStr id) /\
    Item.Status stored = Some (VStr (status_of E data)) /\
    Item.Route stored = Some (VStr (Bus.route bus)) /\
    exists s, In s (Bus.stops bus) /\
              Item.NextStop stored = Some (VStr (Stop.name s))).
  { intros lat lon speed bus0 next dist ts (_ & Hl & Hn) stored.
    rewrite Hid, Hlook in Hl. injection Hl as <-.
    destruct (nearest_stop_In _ _ _ Hn) as (s & Hs & -> & _).
    subst stored. unfold stored_item, updated_item, track_item. simpl.
    rewrite Hid, Hupper. repeat split. exists s. auto. }
  destruct (api_track_outcome E data w) as [Ho _].
  destruct Ho as
    [ e H | lat e H1 H | lat lon e H1 H2 H | lat lon speed Hp H
    | lat lon speed bus0 e Hp Hl H | lat lon speed bus0 next dist e Hr H
    | lat lon speed bus0 next dist ts e Hr Hn stored
    | lat lon speed bus0 next dist ts e Hr Hn stored
    | lat lon speed bus0 next dist ts radius Hr Hn stored
    | lat lon speed bus0 next dist ts radius e Hr Hn stored
    | lat lon speed bus0 next dist ts radius when e Hr Hn stored
    | lat lon speed bus0 next dist ts radius when Hr Hn stored ].
  - congruence.
  - congruence.
  - congruence.
  - rewrite Hid in H. congruence.
  - destruct Hp as (Hp1 & Hp2 & _). rewrite Hid, Hlook in Hl.
    injection Hl as <-.
    assert (lat = Fin x) by congruence. assert (lon = Fin y) by congruence.
    subst lat lon. rewrite Hnear0 in H. discriminate H.
  - rewrite Hraw in H. discriminate H.
  - exists stored, (Some e), []. split; [reflexivity|].
    split; [left; reflexivity|]. apply (Hstored _ _ _ _ _ _ ts Hr).
  - exists stored, None, []. split; [reflexivity|].
    split; [left; reflexivity|]. apply (Hstored _ _ _ _ _ _ ts Hr).
  - exists stored, None, []. split; [reflexivity|].
    split; [left; reflexivity|]. apply (Hstored _ _ _ _ _ _ ts Hr).
  - exists stored, None, []. split; [reflexivity|].
    split; [left; reflexivity|]. apply (Hstored _ _ _ _ _ _ ts Hr).
  - eexists stored, None, [_]. split; [reflexivity|].
    split; [right; eauto|]. apply (Hstored _ _ _ _ _ _ ts Hr).
  - eexists stored, None, [_]. split; [reflexivity|].
    split; [right; eauto|]. apply (Hstored _ _ _ _ _ _ ts Hr).
Qed.

Lemma choice_In (A : Type) (x : A) (l : list A) (n : nat) :
  In (nth (Nat.modulo n (List.length (x :: l))) (x :: l) x) (x :: l).
Proof.
  apply nth_In. apply Nat.mod_upper_bound. discriminate.
Qed.

(** X29: For a client that is logged in and a known bus, [simulate]
    always answers with the success message and the redirection to the
    page of the bus, whatever became of the report it sent to
    [api_track]: also when the table refused the record.  The report
    makes exactly one [put_item], of a record of that bus with its route,
    the status ACTIVE and one of its stops as the next stop, and after it
    at most one [publish]. *)
Theorem simulate_always_reports_success
    (id u : string) (bus : Bus.t) (st : app_state) :
  user_id (session st) = Some u ->
  lookup buses (strip (upper id)) = Some bus ->
  exists st' it out rest,
    simulate E B id st
    = (inl (Redirect (to_bus_details (strip (upper id)))), st') /\
    flashed st'
    = flashed st
      ++ [("✅ GPS detected - Bus tracking updated successfully!"%string,
           "success"%string)] /\
    calls (aws st') = calls (aws st) ++ PutItem it out :: rest /\
    (rest = [] \/ exists s m o, rest = [Publish s m o]) /\
    Item.BusID it = Some (VStr (strip (upper id))) /\
    Item.Status it = Some (VStr "ACTIVE"%string) /\
    Item.Route it = Some (VStr (Bus.route bus)) /\
    exists s, In s (Bus.stops bus) /\
              Item.NextStop it = Some (VStr (Stop.name s)).
Proof.
  intros Hu Hb.
  destruct (buses_entry _ Hb) as (Hstrip & Hupper & _ & Hfin & Hne).
  destruct (Bus.stops bus) as [|s0 stops] eqn:Hstops; [congruence|].
  set (stop := nth (Nat.modulo (randbelow B (draws st)
                                  (List.length (s0 :: stops)))
                               (List.length (s0 :: stops)))
                   (s0 :: stops) s0).
  assert (Hin : In stop (s0 :: stops)) by apply choice_In.
  rewrite Forall_forall in Hfin.
  destruct (Hfin stop Hin) as (a & b & Ha & Hb').
  set (st4 := set_draws (S (draws (set_draws (S (draws (set_draws
                (S (draws (set_draws (S (draws st)) st)))
                (set_draws (S (draws st)) st))))
                (set_draws (S (draws (set_draws (S (draws st)) st)))
                   (set_draws (S (draws st)) st)))))
              (set_draws (S (draws (set_draws (S (draws (set_draws
                (S (draws st)) st))) (set_draws (S (draws st)) st))))
                (set_draws (S (draws (set_draws (S (draws st)) st)))
                   (set_draws (S (draws st)) st)))).
  set (dlat := (-0.005 + (0.005 - -0.005)
                * random_random B (draws (set_draws (S (draws st)) st)))%R).
  set (dlon := (-0.005 + (0.005 - -0.005)
                * random_random B
                    (draws (set_draws
                              (S (draws (set_draws (S (draws st)) st)))
                              (set_draws (S (draws st)) st))))%R).
  set (speed := (10 + (35 - 10)
                 * random_random B
                     (draws (set_draws (S (draws (set_draws
                        (S (draws (set_draws (S (draws st)) st)))
                        (set_draws (S (draws st)) st))))
                        (set_draws (S (draws (set_draws (S (draws st)) st)))
                           (set_draws (S (draws st)) st)))))%R).
  set (data := payload (strip (upper id)) (Fin (a + dlat)) (Fin (b + dlon))
                       (Fin speed)).
  assert (Hrun : simulate E B id st
    = (inl (Redirect (to_bus_details (strip (upper id)))),
       set_flashed
         (flashed st
          ++ [("✅ GPS detected - Bus tracking updated successfully!"%string,
               "success"%string)])
         (set_aws (snd (api_track E data (aws st))) st4))).
  { unfold simulate, login_required. rewrite Hu. cbv zeta. rewrite Hb.
    unfold wbind, random_choice, random_uniform. rewrite Hstops.
    fold stop. cbv beta iota. rewrite Ha, Hb'. reflexivity. }
  destruct (@resolved_report_calls data (aws st) (strip (upper id)) bus
              (a + dlat) (b + dlon) (Fin speed))
    as (it & out & rest & Hnew & Hrest & Hid & Hstatus & Hroute & Hnext);
    try reflexivity.
  { change (strip (upper (strip (upper id))) = strip (upper id)).
    rewrite Hupper. exact Hstrip. }
  { exact Hb. }
  destruct (api_track_outcome E data (aws st)) as [_ Hcalls].
  rewrite Hnew in Hcalls.
  exists (set_flashed
            (flashed st
             ++ [("✅ GPS detected - Bus tracking updated successfully!"%string,
                  "success"%string)])
            (set_aws (snd (api_track E data (aws st))) st4)),
         it, out, rest.
  split; [exact Hrun|]. split; [reflexivity|]. split; [exact Hcalls|].
  split; [exact Hrest|]. split; [exact Hid|]. split; [exact Hstatus|].
  split; [exact Hroute|]. rewrite Hstops in Hnext. exact Hnext.
Qed.

End Simulation.

(** ** [generate_test_data] *)

Section TestData.

Variable E : env.
Variable B : web.

Lemma writes_nothing : writes_in_order [] (@wret nat).
Proof.
  intros count st. exists [], None, st. simpl.
  rewrite app_nil_r, Nat.add_0_r. auto.
Qed.

Lemma writes_then (ids1 ids2 : list string) (k1 k2 : nat -> W nat) :
  writes_in_order ids1 k1 -> writes_in_order ids2 k2 ->
  writes_in_order (ids1 ++ ids2) (fun count => wbind (k1 count) k2).
Proof.
  intros H1 H2 count st.
  destruct (H1 count st) as (acc1 & ref1 & st1 & Hc1 & Hf1 & Hid1 & Hr1).
  destruct ref1 as [[it e]|].
  - destruct Hr1 as [Hlen Hrun].
    exists acc1, (Some (it, e)), st1.
    split; [exact Hc1|]. split; [exact Hf1|]. split; [|split].
    + rewrite Hid1. f_equal. rewrite firstn_app.
      replace (List.length (handed acc1 (Some (it, e)))
               - List.length ids1)%nat with 0%nat.
      * rewrite firstn_O, app_nil_r. reflexivity.
      * unfold handed. rewrite length_app. simpl. lia.
    + rewrite length_app. lia.
    + unfold wbind. rewrite Hrun. reflexivity.
  - destruct Hr1 as [Hlen Hrun].
    destruct (H2 (count + List.length ids1)%nat st1)
      as (acc2 & ref2 & st2 & Hc2 & Hf2 & Hid2 & Hr2).
    exists (acc1 ++ acc2), ref2, st2.
    assert (Hh : handed (acc1 ++ acc2) ref2 = acc1 ++ handed acc2 ref2).
    { unfold handed. rewrite app_assoc. reflexivity. }
    split; [|split; [congruence|split]].
    + rewrite Hc2, Hc1. unfold puts_then. rewrite map_app, app_nil_r.
      rewrite !app_assoc. reflexivity.
    + rewrite Hh, map_app, Hid2, length_app, Hlen, firstn_app.
      unfold handed in Hid1. rewrite app_nil_r, Hlen, firstn_all in Hid1.
      rewrite Hid1, map_app. f_equal.
      * f_equal. symmetry. apply firstn_all2. lia.
      * f_equal. f_equal. lia.
    + destruct ref2 as [[it e]|]; destruct Hr2 as [Hlen2 Hrun2].
      * split; [rewrite !length_app; lia|].
        unfold wbind. rewrite Hrun. exact Hrun2.
      * split; [rewrite !length_app; lia|].
        unfold wbind. rewrite Hrun, Hrun2. do 2 f_equal.
        rewrite length_app. lia.
Qed.

(** One round writes one record of the key. *)
Lemma test_record_writes (id : string) (bus : Bus.t) (i : nat) :
  lookup buses id = Some bus ->
  writes_in_order [id] (test_record E B id bus i).
Proof.
  intros Hlook count st.
  destruct (buses_entry _ Hlook) as (Hstrip & Hupper & Hid & _ & Hne).
  destruct (Bus.stops bus) as [|s0 stops] eqn:Hstops; [congruence|].
  assert (Hblank : String.eqb (strip (py_str (repr E) (VStr id)))
                              EmptyString = false).
  { simpl. rewrite Hstrip. apply String.eqb_neq, Hid. }
  unfold test_record, wbind, random_choice, random_uniform, on_aws, now_ts.
  rewrite Hstops. cbv beta iota zeta.
  match goal with
  | |- context [safe_put_item E ?it ?w] =>
      rewrite (@safe_put_item_eq E it (VStr id) w eq_refl Hblank);
      unfold item_timestamp; cbn [Item.TimeStamp is_none_or_empty];
      set (item := it); set (w1 := w)
  end.
  cbn [normalize_timestamp py_int eret]. cbv beta iota zeta.
  match goal with
  | |- context [table_put_item E ?cs ?it'] =>
      set (stored := it'); destruct (table_put_item E cs stored) as [e|]
  end.
  - eexists [], (Some (stored, e)), _.
    split; [|split; [|split; [|split]]].
    5: reflexivity.
    + reflexivity.
    + reflexivity.
    + simpl. rewrite Hupper. reflexivity.
    + simpl. lia.
  - eexists [stored], None, _.
    split; [|split; [|split; [|split]]].
    5: (rewrite Nat.add_1_r; reflexivity).
    + reflexivity.
    + reflexivity.
    + simpl. rewrite Hupper. reflexivity.
    + reflexivity.
Qed.

Lemma rounds_write (id : string) (bus : Bus.t) (n : nat) :
  lookup buses id = Some bus ->
  forall a,
    writes_in_order (repeat id n)
                    (for_each (seq a n) (test_record E B id bus)).
Proof.
  intros Hlook. induction n as [|n IH]; intros a.
  - apply writes_nothing.
  - apply (@writes_then [id] (repeat id n) (test_record E B id bus a)
             (for_each (seq (S a) n) (test_record E B id bus))).
    + apply test_record_writes, Hlook.
    + apply IH.
Qed.

Lemma test_records_write (table : list (string * Bus.t)) :
  (forall entry, In entry table ->
                 lookup buses (fst entry) = Some (snd entry)) ->
  writes_in_order (test_keys table) (test_records E B table).
Proof.
  induction table as [|entry table IH]; intros Hall.
  - apply writes_nothing.
  - apply (@writes_then (repeat (fst entry) 5) (test_keys table)
             (for_each (seq 0 5) (test_record E B (fst entry) (snd entry)))
             (test_records E B table)).
    + apply rounds_write, Hall. left. reflexivity.
    + apply IH. intros e He. apply Hall. right. exact He.
Qed.

Lemma buses_keys (entry : string * Bus.t) :
  In entry buses -> lookup buses (fst entry) = Some (snd entry).
Proof. intros [<-|[<-|[<-|[]]]]; reflexivity. Qed.

(** X30: For a client that is logged in, [generate_test_data] hands
    records to the table one by one, five for each route in the order of
    [buses], each under the key of its route, and stops at the first one
    the table refuses.  When all fifteen are accepted it answers with the
    redirection to the home page and the message that 15 records were
    generated.  When one is refused the exception leaves the view, no
    message is flashed, and the records accepted before it stay
    written. *)
Theorem generate_test_data_writes_until_refused
    (st : app_state) (u : string) :
  user_id (session st) = Some u ->
  exists accepted refused st',
    calls (aws st') = calls (aws st) ++ puts_then accepted refused /\
    map Item.BusID (handed accepted refused)
    = map (fun id => Some (VStr id))
          (firstn (List.length (handed accepted refused))
                  (test_keys buses)) /\
    match refused with
    | None =>
        List.length accepted = 15%nat /\
        generate_test_data E B st = (inl (Redirect to_home), st') /\
        flashed st'
        = flashed st
          ++ [("✅ GPS detected - Generated 15 test records successfully!"
                 %string, "success"%string)]
    | Some (_, e) =>
        (List.length accepted < 15)%nat /\
        generate_test_data E B st = (inr e, st') /\
        flashed st' = flashed st
    end.
Proof.
  intros Hu.
  destruct (@test_records_write buses buses_keys 0%nat st)
    as (accepted & refused & st1 & Hcalls & Hflash & Hids & Hrun).
  unfold generate_test_data, login_required. rewrite Hu.
  destruct refused as [[it e]|]; destruct Hrun as [Hlen Hrun].
  - exists accepted, (Some (it, e)), st1.
    split; [exact Hcalls|]. split; [exact Hids|]. split; [exact Hlen|].
    split; [|exact Hflash]. unfold wbind. rewrite Hrun. reflexivity.
  - eexists accepted, None, _.
    split; [|split; [exact Hids|split; [exact Hlen|split]]].
    2:{ unfold wbind. rewrite Hrun. reflexivity. }
    + exact Hcalls.
    + simpl. rewrite Hflash. reflexivity.
Qed.

End TestData.

Lemma simulate_always_reports_success_witness :
  user_id (session rider) = Some "asha"%string /\
  lookup buses (strip (upper "10a")) = Some route_10A /\
  exists st' it out rest,
    simulate no_dynamodb quiet "10a" rider
    = (inl (Redirect (to_bus_details "10A")), st') /\
    flashed st'
    = [("✅ GPS detected - Bus tracking updated successfully!"%string,
        "success"%string)] /\
    calls (aws st') = PutItem it out :: rest.
Proof.
  split; [reflexivity|]. split; [reflexivity|].
  destruct (@simulate_always_reports_success no_dynamodb quiet "10a" "asha"
              route_10A rider eq_refl eq_refl)
    as (st' & it & out & rest & Hrun & Hflash & Hcalls & _).
  exists st', it, out, rest.
  split; [exact Hrun|]. split; [exact Hflash|exact Hcalls].
Defined.

Lemma generate_test_data_writes_until_refused_witness :
  user_id (session rider) = Some "asha"%string /\
  exists accepted refused st',
    calls (aws st') = calls (aws rider) ++ puts_then accepted refused /\
    map Item.BusID (handed accepted refused)
    = map (fun id => Some (VStr id))
          (firstn (List.length (handed accepted refused))
                  (test_keys buses)).
Proof.
  split; [reflexivity|].
  destruct (@generate_test_data_writes_until_refused calm quiet rider "asha"
              eq_refl)
    as (accepted & refused & st' & Hcalls & Hids & _).
  exists accepted, refused, st'. split; [exact Hcalls|exact Hids].
Defined.
